(** * Outline extraction and persona-driven section ranking

    A shallow embedding of [Challenge_1a/process_pdfs.py] and
    [Challenge_1b/process_collections_final.py], followed by the properties
    of the heading classifier, the outline normaliser, the section
    segmenter, the relevance scorer and the collection ranker.

    Conventions of the embedding:
    - a Python [str] is a [string]; its characters are the code points
      below 256;
    - a font size (a finite Python float) is a rational number [Q]; the
      code only compares sizes;
    - a score is a rational number; [score_section] is written in exact
      arithmetic, and the collection processor takes its scorer as a
      parameter, so that what is proved of it holds for the scorer in
      floating point too;
    - a Python [int] is a [Z]; list positions and lengths are [nat];
    - a [for] loop is a recursive function over the list it walks, the
      loop variables being the arguments;
    - the PDF reader, the file system and the clock are inputs of the
      model: an input file is absent or holds a configuration that
      parses, and an output can always be saved;
    - the log of the collection processor holds the records that
      [process_collection] and [main] write; the records of the PDF
      reader are those of [extract_text_from_pdf]. *)

From Stdlib Require Import List String Ascii Bool Arith ZArith QArith Qminmax.
From Stdlib Require Import Lia Permutation Sorted DecimalString.
From Stdlib Require Import Lqa.
Import ListNotations.

Local Open Scope string_scope.
Local Open Scope list_scope.

(** ** Python string operations used by the two programs *)

Module Py.

Definition ord (c : ascii) : nat := nat_of_ascii c.

Definition between (lo hi n : nat) : bool := (lo <=? n)%nat && (n <=? hi)%nat.

(** [str.isspace] on one character; also the class [\s] of [re]. *)
Definition isspace (c : ascii) : bool :=
  let n := ord c in
  between 9 13 n || between 28 32 n || (n =? 133)%nat || (n =? 160)%nat.

(** The class [\d] of [re]. *)
Definition isdigit (c : ascii) : bool := between 48 57 (ord c).

(** The classes [[A-Z]] and [[a-z]] of [re]. *)
Definition isupper_az (c : ascii) : bool := between 65 90 (ord c).
Definition islower_az (c : ascii) : bool := between 97 122 (ord c).

(** [str.lower] on one character. *)
Definition lower_char (c : ascii) : ascii :=
  let n := ord c in
  if between 65 90 n || (between 192 222 n && negb (n =? 215)%nat)
  then ascii_of_nat (n + 32) else c.

(** [s.lower()] *)
Fixpoint lower (s : string) : string :=
  match s with
  | EmptyString => EmptyString
  | String c s' => String (lower_char c) (lower s')
  end.

(** [len(s)] *)
Definition len (s : string) : nat := String.length s.

(** [needle in hay] *)
Fixpoint contains (needle hay : string) : bool :=
  prefix needle hay ||
  match hay with
  | EmptyString => false
  | String _ hay' => contains needle hay'
  end.

(** [s.count(c)] for a one-character [c]. *)
Fixpoint count (c : ascii) (s : string) : nat :=
  match s with
  | EmptyString => 0
  | String d s' => (if Ascii.eqb d c then 1 else 0) + count c s'
  end.

(** [s.lstrip()], [s.rstrip()] and [s.strip()] *)
Fixpoint lstrip (s : string) : string :=
  match s with
  | EmptyString => EmptyString
  | String c s' => if isspace c then lstrip s' else s
  end.

Fixpoint rstrip (s : string) : string :=
  match s with
  | EmptyString => EmptyString
  | String c s' =>
      match rstrip s' with
      | EmptyString => if isspace c then EmptyString else String c EmptyString
      | r => String c r
      end
  end.

Definition strip (s : string) : string := lstrip (rstrip s).

(** [s.split(sep)] for a one-character [sep]: never empty. *)
Fixpoint split (sep : ascii) (s : string) : list string :=
  match s with
  | EmptyString => [EmptyString]
  | String c s' =>
      if Ascii.eqb c sep then EmptyString :: split sep s'
      else match split sep s' with
           | [] => [String c EmptyString]
           | w :: ws => String c w :: ws
           end
  end.

(** [s.split()]: the maximal runs of non-whitespace characters. *)
Fixpoint split_ws (s : string) : list string :=
  match s with
  | EmptyString => []
  | String c s' =>
      if isspace c then split_ws s'
      else match s' with
           | EmptyString => [String c EmptyString]
           | String c' _ =>
               if isspace c' then String c EmptyString :: split_ws s'
               else match split_ws s' with
                    | [] => [String c EmptyString]
                    | w :: ws => String c w :: ws
                    end
           end
  end.

(** [sep.join(parts)] *)
Definition join (sep : string) (parts : list string) : string :=
  String.concat sep parts.

(** [s[:n]] *)
Fixpoint take (n : nat) (s : string) : string :=
  match n, s with
  | O, _ => EmptyString
  | S _, EmptyString => EmptyString
  | S n', String c s' => String c (take n' s')
  end.

(** [re.sub(r'\s+', ' ', s)]: every maximal whitespace run becomes one
    space.  [in_run] tells that the previous character was whitespace. *)
Fixpoint sub_ws_from (in_run : bool) (s : string) : string :=
  match s with
  | EmptyString => EmptyString
  | String c s' =>
      if isspace c
      then if in_run then sub_ws_from true s'
           else String " " (sub_ws_from true s')
      else String c (sub_ws_from false s')
  end.

Definition sub_ws (s : string) : string := sub_ws_from false s.

(** [enumerate(l)] *)
Fixpoint enumerate_from {A} (i : nat) (l : list A) : list (nat * A) :=
  match l with
  | [] => []
  | x :: l' => (i, x) :: enumerate_from (S i) l'
  end.

Definition enumerate {A} (l : list A) : list (nat * A) := enumerate_from 0 l.

(** [f"{n}"] for an [int]. *)
Definition str_of_int (n : Z) : string := NilZero.string_of_int (Z.to_int n).

(** [list.sort(key=...)], a stable sort, as insertion from the right:
    [precedes x y] says that [x] may stand before [y].  With
    [precedes x y := key x <= key y] this is [sort(key=key)]; with
    [precedes x y := key y <= key x] it is [sort(key=key, reverse=True)],
    which also keeps the original order of elements with equal keys. *)
Section Sort.
Context {A : Type} (precedes : A -> A -> bool).

Fixpoint insert (x : A) (l : list A) : list A :=
  match l with
  | [] => [x]
  | y :: l' => if precedes x y then x :: l else y :: insert x l'
  end.

Fixpoint sort (l : list A) : list A :=
  match l with
  | [] => []
  | x :: l' => insert x (sort l')
  end.
End Sort.

End Py.

(** ** Regular expressions of [re], matched by derivatives

  Only the regular constructs the two programs use: character classes,
  concatenation, alternation, repetition.  For these, [re.match] finds a
  match exactly when a prefix of the string is in the language. *)

Module Re.

Inductive regex : Type :=
| Void : regex
| Eps : regex
| Chr : (ascii -> bool) -> regex
| Cat : regex -> regex -> regex
| Alt : regex -> regex -> regex
| Star : regex -> regex.

Fixpoint nullable (r : regex) : bool :=
  match r with
  | Void => false
  | Eps => true
  | Chr _ => false
  | Cat r1 r2 => nullable r1 && nullable r2
  | Alt r1 r2 => nullable r1 || nullable r2
  | Star _ => true
  end.

Definition cat (r1 r2 : regex) : regex :=
  match r1, r2 with
  | Void, _ => Void
  | _, Void => Void
  | Eps, _ => r2
  | _, _ => Cat r1 r2
  end.

Definition alt (r1 r2 : regex) : regex :=
  match r1, r2 with
  | Void, _ => r2
  | _, Void => r1
  | _, _ => Alt r1 r2
  end.

Fixpoint deriv (c : ascii) (r : regex) : regex :=
  match r with
  | Void => Void
  | Eps => Void
  | Chr p => if p c then Eps else Void
  | Cat r1 r2 =>
      if nullable r1
      then alt (cat (deriv c r1) r2) (deriv c r2)
      else cat (deriv c r1) r2
  | Alt r1 r2 => alt (deriv c r1) (deriv c r2)
  | Star r1 => cat (deriv c r1) (Star r1)
  end.

Fixpoint fullmatch (r : regex) (s : string) : bool :=
  match s with
  | EmptyString => nullable r
  | String c s' => fullmatch (deriv c r) s'
  end.

(** Pattern syntax. *)
Definition chr (c : ascii) : regex := Chr (Ascii.eqb c).
Definition not_chr (c : ascii) : regex := Chr (fun d => negb (Ascii.eqb c d)).
Definition any : regex := Chr (fun _ => true).
Definition plus (r : regex) : regex := Cat r (Star r).
Definition opt (r : regex) : regex := Alt Eps r.
Fixpoint seq (rs : list regex) : regex :=
  match rs with
  | [] => Eps
  | [r] => r
  | r :: rs' => Cat r (seq rs')
  end.

Definition digit : regex := Chr Py.isdigit.            (* \d *)
Definition space : regex := Chr Py.isspace.            (* \s *)
Definition AZ : regex := Chr Py.isupper_az.            (* [A-Z] *)
Definition az : regex := Chr Py.islower_az.            (* [a-z] *)
Definition AZs : regex :=                              (* [A-Z\s] *)
  Chr (fun c => Py.isupper_az c || Py.isspace c).

(** [re.match(p, text)] for a pattern [p = ^r] without [$]: [r] matches
    a prefix of [text]. *)
Definition match_prefix (r : regex) (text : string) : bool :=
  fullmatch (Cat r (Star any)) text.

(** [re.match(p, text)] for a pattern [p = ^r$]: [$] stands at the end
    of the text or before a newline that ends it. *)
Definition match_dollar (r : regex) (text : string) : bool :=
  fullmatch (Cat r (opt (chr "010"))) text.

End Re.

(** ** Challenge_1a/process_pdfs.py *)

Module ProcessPdfs.

(** Keywords that are always considered headings. *)
Definition CUSTOM_KEYWORDS : list string :=
  [ "Revision History"; "Table of Contents"; "Acknowledgements"; "References";
    "Appendix"; "Summary"; "Background"; "Milestones"; "Evaluation";
    "Business Plan"; "Proposal"; "Terms of Reference"; "Membership"; "Chair";
    "Meetings"; "Financial and Administrative Policies" ].

(** Ignore headings shorter than this (except numbered). *)
Definition HEADING_MIN_LENGTH : nat := 4.

(** A span of the PDF reader: its text, its font size and, when the
    reader gives them, its style flags. *)
Record Span : Type := mkSpan {
  span_text : string;
  span_size : Q;
  span_flags : option Z
}.

(** The pattern [^(\d+\.)+\s]. *)
Definition numbered_re : Re.regex :=
  Re.Cat (Re.plus (Re.Cat (Re.plus Re.digit) (Re.chr "."))) Re.space.

Definition numbered (text : string) : bool :=
  Re.match_prefix numbered_re text.

Definition Qltb (a b : Q) : bool := negb (Qle_bool b a).

(** Truth value of [prev_fontsize]: neither [None] nor zero. *)
Definition truthy (x : option Q) : bool :=
  match x with
  | None => false
  | Some q => negb (Qeq_bool q 0)
  end.

Definition detect_heading_level (text : string) (span : Span)
    (prev_fontsize : option Q) : option string :=
  if numbered text then
    let num_dots := Py.count "." text in
    if (num_dots =? 1)%nat then Some "H1"
    else if (num_dots =? 2)%nat then Some "H2"
    else Some "H3"
  else if existsb (fun kw => Py.contains (Py.lower kw) (Py.lower text))
                  CUSTOM_KEYWORDS then Some "H1"
  else if truthy prev_fontsize &&
          match prev_fontsize with
          | Some p => Qltb p (span_size span)
          | None => false
          end then Some "H1"
  else if negb (Z.land (match span_flags span with Some f => f | None => 0%Z end) 2 =? 0)%Z
          || Qle_bool 16 (span_size span) then Some "H1"
  else if Qle_bool 14 (span_size span) then Some "H2"
  else if Qle_bool 12 (span_size span) then Some "H3"
  else None.

(** An outline entry, the dict [{"level", "text", "page"}]. *)
Record Item : Type := mkItem {
  level : string;
  text : string;
  page : Z
}.

Definition same_place (item last : Item) : bool :=
  (page item =? page last)%Z && String.eqb (level item) (level last).

(** The first loop of [clean_outline], from the moment [last] is set:
    [last] absorbs the following items of its page and level. *)
Fixpoint merge_from (last : Item) (outline : list Item) : list Item :=
  match outline with
  | [] => [last]
  | item :: rest =>
      if same_place item last
      then merge_from
             (mkItem (level last) (text last ++ " " ++ text item) (page last))
             rest
      else last :: merge_from item rest
  end.

Definition merge_fragments (outline : list Item) : list Item :=
  match outline with
  | [] => []
  | item :: rest => merge_from item rest
  end.

Definition valid_heading (o : Item) : bool :=
  (HEADING_MIN_LENGTH <=? Py.len (text o))%nat || numbered (text o).

Definition keep_valid (cleaned : list Item) : list Item :=
  filter valid_heading cleaned.

Definition key_eqb (a b : Item) : bool :=
  String.eqb (level a) (level b) && String.eqb (text a) (text b)
  && (page a =? page b)%Z.

(** The last loop of [clean_outline]; [seen] holds the keys added so far. *)
Fixpoint remove_duplicates (seen : list Item) (filtered : list Item)
    : list Item :=
  match filtered with
  | [] => []
  | o :: rest =>
      if existsb (key_eqb o) seen then remove_duplicates seen rest
      else o :: remove_duplicates (o :: seen) rest
  end.

Definition clean_outline (outline : list Item) : list Item :=
  remove_duplicates [] (keep_valid (merge_fragments outline)).

(** What the model reads from a PDF: the metadata title (empty when
    there is none), the table of contents [(level, title, page)], and
    the pages; a page is a list of blocks, a block has lines or not, a
    line is a list of spans. *)
Definition Line : Type := list Span.
Definition Block : Type := option (list Line).
Definition Page : Type := list Block.

Record Pdf : Type := mkPdf {
  metadata_title : string;
  toc : list (Z * string * Z);
  pages : list Page
}.

(** The spans of a page in the order of the three nested loops. *)
Definition spans_of (p : Page) : list Span :=
  flat_map (fun b : Block =>
              match b with
              | Some lines => List.concat lines
              | None => []
              end) p.

(** The title loop of [extract_pdf_outline] over the first page. *)
Fixpoint largest_text (max_fontsize : Q) (title_candidate : string)
    (spans : list Span) : string :=
  match spans with
  | [] => title_candidate
  | span :: rest =>
      let text := Py.strip (span_text span) in
      if Qltb max_fontsize (span_size span) && negb (String.eqb text "")
      then largest_text (span_size span) text rest
      else largest_text max_fontsize title_candidate rest
  end.

Definition extract_pdf_outline (doc : Pdf) : string * list Item :=
  let outline :=
    map (fun '(level, text, page) =>
           mkItem ("H" ++ Py.str_of_int level) text page) (toc doc) in
  let title := metadata_title doc in
  let title :=
    if String.eqb title "" then
      match pages doc with
      | first_page :: _ => largest_text 0 "" (spans_of first_page)
      | [] => title
      end
    else title in
  (title, outline).

(** The loop state of [extract_outline_by_signals]. *)
Record Signals : Type := mkSignals {
  max_fontsize : Q;
  title_candidate : string;
  prev_fontsize : option Q;
  outline : list Item
}.

Definition signal_span (page_num : Z) (st : Signals) (span : Span) : Signals :=
  let text := Py.strip (span_text span) in
  if String.eqb text "" then st
  else
    let first := (page_num =? 1)%Z && Qltb (max_fontsize st) (span_size span) in
    let level := detect_heading_level text span (prev_fontsize st) in
    mkSignals
      (if first then span_size span else max_fontsize st)
      (if first then text else title_candidate st)
      (Some (span_size span))
      (match level with
       | Some l => outline st ++ [mkItem l text page_num]
       | None => outline st
       end).

Fixpoint signal_pages (page_num : Z) (st : Signals) (ps : list Page) : Signals :=
  match ps with
  | [] => st
  | p :: ps' =>
      signal_pages (page_num + 1)
        (fold_left (signal_span page_num) (spans_of p) st) ps'
  end.

Definition extract_outline_by_signals (doc : Pdf) : string * list Item :=
  let st := signal_pages 1 (mkSignals 0 "" None []) (pages doc) in
  (title_candidate st, outline st).

(** The body of the loop of [process_pdfs] for one file: the JSON
    object [{"title", "outline"}] written for it. *)
Definition process_pdf (doc : Pdf) : string * list Item :=
  let '(title, outline) := extract_pdf_outline doc in
  let '(title, outline) :=
    match outline with
    | [] => extract_outline_by_signals doc
    | _ => (title, outline)
    end in
  (title, clean_outline outline).

End ProcessPdfs.

(** ** Challenge_1b/process_collections_final.py *)

Module ProcessCollections.

(** [d.get(k, default)] and [k in d] on a dict written as a literal. *)
Fixpoint dict_lookup {V : Type} (d : list (string * V)) (k : string) : option V :=
  match d with
  | [] => None
  | (k', v) :: d' => if String.eqb k k' then Some v else dict_lookup d' k
  end.

Definition dict_get {V : Type} (d : list (string * V)) (k : string) (default : V) : V :=
  match dict_lookup d k with
  | Some v => v
  | None => default
  end.

(** [sum(1 for x in l if f(x))] *)
Definition count_if {A : Type} (f : A -> bool) (l : list A) : nat :=
  List.length (filter f l).

(** *** FinalPDFProcessor *)

(** What [extract_text_from_pdf] returns: the dict from page number to
    page text, in the order of its items. *)
Definition Pages : Type := list (Z * string).

Definition lower_words : Re.regex :=                  (* (?:\s+[a-z]+)* *)
  Re.Star (Re.seq [Re.plus Re.space; Re.plus Re.az]).

(** [self.section_patterns]; each one ends in [$]. *)
Definition section_patterns : list Re.regex :=
  [ (* ^[A-Z][A-Z\s]{2,}$ *)
    Re.seq [Re.AZ; Re.AZs; Re.AZs; Re.Star Re.AZs];
    (* ^\d+\.\s+[A-Z][^.]*$ *)
    Re.seq [Re.plus Re.digit; Re.chr "."; Re.plus Re.space; Re.AZ;
            Re.Star (Re.not_chr ".")];
    (* ^[A-Z][a-z]+(?:\s+[A-Z][a-z]+)*$ *)
    Re.seq [Re.AZ; Re.plus Re.az;
            Re.Star (Re.seq [Re.plus Re.space; Re.AZ; Re.plus Re.az])];
    (* ^[A-Z][^.]*:$ *)
    Re.seq [Re.AZ; Re.Star (Re.not_chr "."); Re.chr ":"];
    (* ^[A-Z][a-z]+(?:\s+[a-z]+)*\s+\([^)]+\)$ *)
    Re.seq [Re.AZ; Re.plus Re.az; lower_words; Re.plus Re.space;
            Re.chr "("; Re.plus (Re.not_chr ")"); Re.chr ")"];
    (* ^[A-Z][a-z]+(?:\s+[a-z]+)*\s+[A-Z][a-z]+$ *)
    Re.seq [Re.AZ; Re.plus Re.az; lower_words; Re.plus Re.space;
            Re.AZ; Re.plus Re.az];
    (* ^[A-Z][a-z]+(?:\s+[a-z]+)*$ *)
    Re.seq [Re.AZ; Re.plus Re.az; lower_words];
    (* ^[A-Z][a-z]+(?:\s+[a-z]+)*\s+[A-Z][a-z]+(?:\s+[a-z]+)*$ *)
    Re.seq [Re.AZ; Re.plus Re.az; lower_words; Re.plus Re.space;
            Re.AZ; Re.plus Re.az; lower_words] ].

Definition header_indicators : list string :=
  [ "comprehensive guide"; "coastal adventures"; "culinary experiences";
    "packing tips"; "nightlife"; "entertainment"; "water sports";
    "change flat forms"; "create multiple"; "convert clipboard";
    "fill and sign"; "send document"; "falafel"; "ratatouille";
    "baba ganoush"; "veggie sushi"; "vegetable lasagna" ].

Definition _is_section_header (line : string) : bool :=
  if (Py.len line <? 3)%nat || (250 <? Py.len line)%nat then false
  else if existsb (fun pattern => Re.match_dollar pattern line) section_patterns
  then true
  else if Re.match_dollar (Re.seq [Re.AZ; Re.plus Re.az; lower_words]) line
          && (List.length (Py.split_ws line) <=? 8)%nat
  then true
  else if Re.match_prefix (Re.seq [Re.AZ; Re.az]) line
          && (List.length (Py.split_ws line) <=? 10)%nat
  then true
  else
    let line_lower := Py.lower line in
    existsb (fun indicator => Py.contains indicator line_lower) header_indicators.

(** A section, the dict [{'title', 'page_number', 'start_line',
    'content', 'document'}]. *)
Record Section : Type := mkSection {
  title : string;
  page_number : Z;
  start_line : nat;
  content : list string;
  document : option string
}.

Definition with_content (s : Section) (c : list string) : Section :=
  mkSection (title s) (page_number s) (start_line s) c (document s).

Definition with_document (s : Section) (d : string) : Section :=
  mkSection (title s) (page_number s) (start_line s) (content s) (Some d).

(** The sections appended when the open section, if any, is closed. *)
Definition close (current_section : option Section)
    (section_content : list string) : list Section :=
  match current_section with
  | Some cs => [with_content cs section_content]
  | None => []
  end.

(** The inner loop of [identify_sections] over the lines of one page,
    giving the sections it appends. *)
Fixpoint scan_lines (page_num : Z) (current_section : option Section)
    (section_content : list string) (lines : list (nat * string))
    : list Section :=
  match lines with
  | [] => close current_section section_content
  | (line_num, line) :: rest =>
      let line := Py.strip line in
      if String.eqb line "" then
        scan_lines page_num current_section section_content rest
      else if _is_section_header line then
        close current_section section_content ++
        scan_lines page_num
          (Some (mkSection line page_num line_num [] None)) [] rest
      else
        match current_section with
        | Some _ =>
            scan_lines page_num current_section (section_content ++ [line]) rest
        | None =>
            scan_lines page_num current_section section_content rest
        end
  end.

(** One turn of the outer loop: [current_section] and [section_content]
    start afresh on every page. *)
Definition scan_page (sections : list Section) (p : Z * string) : list Section :=
  let '(page_num, text) := p in
  let lines := Py.split "010" text in
  sections ++ scan_lines page_num None [] (Py.enumerate lines).

Definition identify_sections (pages : Pages) : list Section :=
  fold_left scan_page pages [].

(** *** FinalRelevanceScorer *)

Definition persona_keywords : list (string * list string) :=
  [ ("travel planner",
     [ "travel"; "trip"; "itinerary"; "accommodation"; "hotel"; "restaurant";
       "attraction"; "activity"; "planning"; "schedule"; "booking"; "reservation";
       "transport"; "transportation"; "guide"; "tour"; "visit"; "explore"; "city";
       "coastal"; "adventure"; "nightlife"; "entertainment"; "cuisine"; "culture";
       "comprehensive"; "major cities"; "coastal adventures"; "culinary experiences";
       "packing tips"; "tips and tricks"; "water sports"; "beach"; "mediterranean" ]);
    ("hr professional",
     [ "form"; "fillable"; "onboarding"; "compliance"; "employee"; "hr";
       "human resources"; "document"; "signature"; "e-signature"; "workflow";
       "process"; "template"; "field"; "input"; "validation"; "create"; "convert";
       "edit"; "export"; "share"; "request"; "send"; "signatures"; "change flat forms";
       "create multiple pdfs"; "convert clipboard"; "fill and sign"; "send document" ]);
    ("food contractor",
     [ "recipe"; "cooking"; "ingredient"; "meal"; "dish"; "cuisine";
       "vegetarian"; "buffet"; "dinner"; "lunch"; "breakfast"; "menu";
       "preparation"; "cooking time"; "serving"; "portion"; "nutrition";
       "falafel"; "ratatouille"; "baba ganoush"; "sushi"; "lasagna"; "vegetable";
       "veggie sushi rolls"; "vegetable lasagna"; "escalivada"; "macaroni" ]) ].

Definition job_keywords : list (string * list string) :=
  [ ("plan a trip",
     [ "itinerary"; "schedule"; "accommodation"; "transport"; "attraction";
       "activity"; "booking"; "reservation"; "guide"; "tour"; "cities"; "coastal";
       "adventures"; "nightlife"; "entertainment"; "tips"; "tricks"; "comprehensive guide";
       "coastal adventures"; "culinary experiences"; "packing tips"; "water sports" ]);
    ("create and manage fillable forms",
     [ "form"; "fillable"; "field"; "input"; "signature";
       "e-signature"; "template"; "workflow"; "process"; "create";
       "convert"; "edit"; "export"; "request"; "send"; "change flat forms";
       "create multiple pdfs"; "convert clipboard"; "fill and sign";
       "send document" ]);
    ("prepare vegetarian buffet",
     [ "recipe"; "vegetarian"; "buffet"; "ingredient"; "cooking";
       "meal"; "dish"; "preparation"; "serving"; "menu"; "falafel";
       "ratatouille"; "baba ganoush"; "sushi"; "lasagna"; "vegetable";
       "veggie sushi rolls"; "vegetable lasagna" ]) ].

Definition bonus_terms : list string :=
  [ "form"; "fillable"; "falafel"; "ratatouille"; "coastal"; "comprehensive" ].

Definition sample_titles : list (string * list string) :=
  [ ("travel planner",
     [ "comprehensive guide to major cities"; "coastal adventures";
       "culinary experiences"; "packing tips"; "nightlife and entertainment" ]);
    ("hr professional",
     [ "change flat forms to fillable"; "create multiple pdfs";
       "convert clipboard"; "fill and sign"; "send document" ]);
    ("food contractor",
     [ "falafel"; "ratatouille"; "baba ganoush"; "veggie sushi rolls";
       "vegetable lasagna" ]) ].

(** The lowercased strings the scorer searches. *)
Definition content_of (section : Section) : string :=
  Py.lower (Py.join " " (content section)).

Definition title_of (section : Section) : string :=
  Py.lower (title section).

(** [all_keywords] of [score_section]. *)
Definition all_keywords (persona job : string) : list string :=
  let persona_lower := Py.lower persona in
  let job_lower := Py.lower job in
  let persona_keywords := dict_get persona_keywords persona_lower [] in
  let job_keywords := dict_get job_keywords job_lower [] in
  persona_keywords ++ job_keywords.

(** [keyword_matches] of [score_section]. *)
Definition keyword_matches (section : Section) (persona job : string) : nat :=
  let content := content_of section in
  let title := title_of section in
  count_if (fun keyword => Py.contains keyword content || Py.contains keyword title)
           (all_keywords persona job).

(** [title_relevance] of [score_section]. *)
Definition title_relevance (section : Section) (persona job : string) : nat :=
  let title := title_of section in
  count_if (fun keyword => Py.contains keyword title) (all_keywords persona job).

Definition Q_of_nat (n : nat) : Q := inject_Z (Z.of_nat n).

Definition score_section (section : Section) (persona job : string) : Q :=
  let content := content_of section in
  let title := title_of section in
  let persona_lower := Py.lower persona in
  let keyword_matches := keyword_matches section persona job in
  let title_relevance := title_relevance section persona job in
  let content_length := List.length (Py.split_ws content) in
  let score :=
    (Q_of_nat (keyword_matches * 2) + Q_of_nat (title_relevance * 10)
     + Qmin (Q_of_nat content_length / 50) 3)%Q in
  let score :=
    if existsb (fun term => Py.contains term (Py.lower title)) bonus_terms
    then (score + 20)%Q else score in
  match dict_lookup sample_titles persona_lower with
  | Some titles =>
      fold_left (fun score sample_title =>
                   if Py.contains sample_title (Py.lower title)
                   then (score + 30)%Q else score) titles score
  | None => score
  end.

(** *** Logging and exceptions

    A computation appends records to the log and either raises or
    returns. *)

Inductive LogLevel : Type := INFO | WARNING | ERROR.

Inductive Exn : Type :=
| InputFileNotFound       (* FileNotFoundError("Input file not found: ...") *)
| PdfsDirectoryNotFound.  (* FileNotFoundError("PDFs directory not found in ...") *)

Inductive Event : Type :=
| ProcessingCollection                 (* "Processing collection: ..." *)
| PdfNotFound (filename : string)      (* "PDF not found: ..." *)
| ProcessingPdf (filename : string)    (* "Processing PDF: ..." *)
| OutputSaved                          (* "Output saved to: ..." *)
| ErrorProcessingCollection (e : Exn). (* "Error processing collection: ..." *)

Definition LogRecord : Type := (LogLevel * Event)%type.

Definition M (A : Type) : Type := list LogRecord -> (Exn + A) * list LogRecord.

Definition ret {A : Type} (x : A) : M A := fun log => (inr x, log).

Definition bind {A B : Type} (c : M A) (k : A -> M B) : M B :=
  fun log =>
    match c log with
    | (inl e, log') => (inl e, log')
    | (inr x, log') => k x log'
    end.

Definition raise {A : Type} (e : Exn) : M A := fun log => (inl e, log).

Definition logger (lvl : LogLevel) (ev : Event) : M unit :=
  fun log => (inr tt, log ++ [(lvl, ev)]).

Declare Scope py_scope.
Delimit Scope py_scope with py.
Notation "x <- c ;; k" := (bind c (fun x => k))
  (at level 61, c at next level, right associativity) : py_scope.
Notation "c ;; k" := (bind c (fun _ => k))
  (at level 61, right associativity) : py_scope.

(** *** FinalPDFProcessor: reading the pages *)

(** The loop of [_extract_with_pymupdf]: [doc] holds the texts that
    [page.get_text()] gives for the pages of the opened document, in
    order; [page_num] runs over [range(len(doc))]. *)
Fixpoint pymupdf_pages (page_num : nat) (doc : list string) : Pages :=
  match doc with
  | [] => []
  | text :: rest =>
      ((Z.of_nat page_num + 1)%Z, text) :: pymupdf_pages (S page_num) rest
  end.

Definition _extract_with_pymupdf (doc : list string) : Pages :=
  pymupdf_pages 0 doc.

(** The loop of [_extract_with_pdfminer] and what follows it; the keys of
    [pages] grow, so that an assignment adds an item at the end. *)
Fixpoint pdfminer_pages (pages : Pages) (current_page : Z)
    (current_text : list string) (lines : list string) : Pages :=
  match lines with
  | [] =>
      match current_text with
      | [] => pages
      | _ => pages ++ [(current_page, Py.join (String "010" "") current_text)]
      end
  | line :: rest =>
      if (50 <? List.length current_text)%nat
      then pdfminer_pages
             (pages ++ [(current_page, Py.join (String "010" "") current_text)])
             (current_page + 1)%Z [line] rest
      else pdfminer_pages pages current_page (current_text ++ [line]) rest
  end.

(** [text] is what [extract_text] of pdfminer returns for the file. *)
Definition _extract_with_pdfminer (text : string) : Pages :=
  pdfminer_pages [] 1%Z [] (Py.split "010" text).

Inductive ReaderEvent : Type :=
| ErrorProcessingPdf (e : string)   (* "Error processing PDF ...: e" *)
| NoLibrary.                        (* "No PDF processing library available" *)

(** [extract_text_from_pdf] for one file.  [fitz] and [extract_text] are
    the two libraries, each when its import succeeded, with what reading
    the file with it gives: the message of the exception raised, or the
    result.  The log records of the call come with the pages. *)
Definition extract_text_from_pdf (fitz : option (string + list string))
    (extract_text : option (string + string))
    : Pages * list (LogLevel * ReaderEvent) :=
  match fitz with
  | Some (inr doc) => (_extract_with_pymupdf doc, [])
  | Some (inl e) =>
      ([(1%Z, ("Error processing PDF: " ++ e)%string)],
       [(ERROR, ErrorProcessingPdf e)])
  | None =>
      match extract_text with
      | Some (inr text) => (_extract_with_pdfminer text, [])
      | Some (inl e) =>
          ([(1%Z, ("Error processing PDF: " ++ e)%string)],
           [(ERROR, ErrorProcessingPdf e)])
      | None =>
          ([(1%Z, "PDF processing not available")], [(WARNING, NoLibrary)])
      end
  end.

(** *** FinalCollectionProcessor *)

Definition _extract_refined_text (content_lines : list string) : string :=
  match content_lines with
  | [] => ""
  | _ =>
      let text := Py.join " " content_lines in
      let text := Py.sub_ws text in
      let text :=
        if (500 <? Py.len text)%nat then
          let sentences := Py.split "." text in
          if (1 <? List.length sentences)%nat
          then (Py.join ". " (firstn 2 sentences) ++ ".")%string
          else Py.take 500 text
        else text in
      Py.strip text
  end.

(** [challenge1b_input.json], with the defaults of its [get]s applied:
    the file names of [documents], [persona.role], [job_to_be_done.task]. *)
Record InputConfig : Type := mkInputConfig {
  documents : list string;
  persona : string;
  job : string
}.

(** A directory of PDFs: for a file name, the page texts read from that
    file when it exists. *)
Definition PdfDir : Type := string -> option Pages.

(** A collection directory: the parsed input file and the directories
    [PDFs] and [PDFS], each when it exists. *)
Record Collection : Type := mkCollection {
  input_file : option InputConfig;
  dir_PDFs : option PdfDir;
  dir_PDFS : option PdfDir
}.

Record ExtractedSection : Type := mkExtracted {
  es_document : string;
  section_title : string;
  importance_rank : nat;
  es_page_number : Z
}.

Record SubsectionAnalysis : Type := mkSubsection {
  sa_document : string;
  refined_text : string;
  sa_page_number : Z
}.

Record Metadata : Type := mkMetadata {
  input_documents : list string;
  md_persona : string;
  md_job_to_be_done : string;
  processing_timestamp : string
}.

Record Output : Type := mkOutput {
  metadata : Metadata;
  extracted_sections : list ExtractedSection;
  subsection_analysis : list SubsectionAnalysis
}.

Section Processor.

(** [self.relevance_scorer.score_section]: the scorer the processor
    holds.  [score_section] above is the scorer in exact arithmetic;
    Python computes it in floating point. *)
Variable relevance_scorer : Section -> string -> string -> Q.

(** [scored_sections] of one document after the sort. *)
Definition scored_sections (filename : string) (pages : Pages)
    (persona job : string) : list (Section * Q) :=
  let sections := identify_sections pages in
  let scored :=
    map (fun section =>
           let section := with_document section filename in
           (section, relevance_scorer section persona job)) sections in
  Py.sort (fun x y => Qle_bool (snd y) (snd x)) scored.

Definition extracted_entry (filename : string) (e : nat * (Section * Q))
    : ExtractedSection :=
  let '(i, (section, _)) := e in
  mkExtracted filename (title section) (i + 1) (page_number section).

Definition subsection_entry (filename : string) (e : nat * (Section * Q))
    : SubsectionAnalysis :=
  let '(_, (section, _)) := e in
  mkSubsection filename (_extract_refined_text (content section))
               (page_number section).

(** The two lists one document appends (top 3 per document). *)
Definition top_sections (filename : string) (pages : Pages)
    (persona job : string) : list (nat * (Section * Q)) :=
  Py.enumerate (firstn 3 (scored_sections filename pages persona job)).

(** The loop over [documents]; the two output lists are its state. *)
Fixpoint process_documents (pdfs_dir : PdfDir) (persona job : string)
    (documents : list string)
    (extracted_sections : list ExtractedSection)
    (subsection_analysis : list SubsectionAnalysis)
    : M (list ExtractedSection * list SubsectionAnalysis) :=
  match documents with
  | [] => ret (extracted_sections, subsection_analysis)
  | filename :: rest =>
      match pdfs_dir filename with
      | None =>
          (logger WARNING (PdfNotFound filename) ;;
           process_documents pdfs_dir persona job rest
             extracted_sections subsection_analysis)%py
      | Some pages =>
          (logger INFO (ProcessingPdf filename) ;;
           let top := top_sections filename pages persona job in
           process_documents pdfs_dir persona job rest
             (extracted_sections ++ map (extracted_entry filename) top)
             (subsection_analysis ++ map (subsection_entry filename) top))%py
      end
  end.

(** [now] is what [datetime.now().isoformat()] gives. *)
Definition process_collection (now : string) (c : Collection) : M Output :=
  (logger INFO ProcessingCollection ;;
   input_config <- match input_file c with
                   | Some cfg => ret cfg
                   | None => raise InputFileNotFound
                   end ;;
   let documents := documents input_config in
   let persona := persona input_config in
   let job := job input_config in
   pdfs_dir <- match dir_PDFs c with
               | Some d => ret d
               | None =>
                   match dir_PDFS c with
                   | Some d => ret d
                   | None => raise PdfsDirectoryNotFound
                   end
               end ;;
   lists <- process_documents pdfs_dir persona job documents [] [] ;;
   let '(extracted_sections, subsection_analysis) := lists in
   let extracted_sections :=
     Py.sort (fun x y => (importance_rank x <=? importance_rank y)%nat)
             extracted_sections in
   ret (mkOutput (mkMetadata documents persona job now)
                 extracted_sections subsection_analysis))%py.

(** What a run of [main] leaves: the exit status, the log, and the
    output file when it was written. *)
Record Run : Type := mkRun {
  exit_status : Z;
  log_records : list LogRecord;
  output_file : option Output
}.

(** [main]: [argv] is [sys.argv]; [fs] gives, for a path, the
    collection directory found there when the path exists. *)
Definition main (now : string) (fs : string -> option Collection)
    (argv : list string) : Run :=
  match argv with
  | _ :: collection_name :: _ =>
      match fs collection_name with
      | None => mkRun 1 [] None
      | Some collection =>
          match (output <- process_collection now collection ;;
                 logger INFO OutputSaved ;;
                 ret output)%py [] with
          | (inr output, log) => mkRun 0 log (Some output)
          | (inl e, log) =>
              mkRun 1 (log ++ [(ERROR, ErrorProcessingCollection e)]) None
          end
      end
  | _ => mkRun 1 [] None
  end.

End Processor.

End ProcessCollections.

(** * Properties *)

Import ProcessPdfs ProcessCollections.

(** ** Regular expressions: the matcher decides the language *)

Section RegexSemantics.

Import Re.

(** The language of a pattern. *)
Inductive matches : regex -> string -> Prop :=
| MEps : matches Eps ""
| MChr (p : ascii -> bool) (c : ascii) :
    p c = true -> matches (Chr p) (String c "")
| MCat (r1 r2 : regex) (s1 s2 : string) :
    matches r1 s1 -> matches r2 s2 -> matches (Cat r1 r2) (s1 ++ s2)
| MAltL (r1 r2 : regex) (s : string) :
    matches r1 s -> matches (Alt r1 r2) s
| MAltR (r1 r2 : regex) (s : string) :
    matches r2 s -> matches (Alt r1 r2) s
| MStarNil (r : regex) : matches (Star r) ""
| MStarApp (r : regex) (s1 s2 : string) :
    matches r s1 -> matches (Star r) s2 -> matches (Star r) (s1 ++ s2).

Lemma append_empty (a b : string) : (a ++ b)%string = "" -> a = "" /\ b = "".
Proof. destruct a; simpl; [auto | discriminate]. Qed.

Lemma append_nil_r (a : string) : (a ++ "")%string = a.
Proof. induction a as [|c a IH]; simpl; [|rewrite IH]; reflexivity. Qed.

Lemma nullable_matches (r : regex) : nullable r = true <-> matches r "".
Proof.
  induction r as [| |p|r1 IH1 r2 IH2|r1 IH1 r2 IH2|r IH]; simpl.
  - split; [discriminate | intros H; inversion H].
  - split; [constructor | reflexivity].
  - split; [discriminate | intros H; inversion H].
  - rewrite andb_true_iff, IH1, IH2. split.
    + intros [H1 H2]. exact (MCat _ _ "" "" H1 H2).
    + intros H. inversion H as [| |? ? s1 s2 H1 H2| | | |]; subst.
      match goal with
      | E : (s1 ++ s2)%string = "" |- _ =>
          apply append_empty in E; destruct E as [-> ->]
      end. auto.
  - rewrite orb_true_iff, IH1, IH2. split.
    + intros [H | H]; [apply MAltL | apply MAltR]; exact H.
    + intros H. inversion H; subst; auto.
  - split; [constructor | reflexivity].
Qed.

Lemma cat_matches (r1 r2 : regex) (s : string) :
  matches (cat r1 r2) s <-> matches (Cat r1 r2) s.
Proof.
  assert (Hvoid : forall s', ~ matches Void s') by (intros s' H; inversion H).
  assert (Hl : forall r, matches (Cat Void r) s -> False).
  { intros r H. inversion H; subst. eapply Hvoid; eassumption. }
  assert (Hr : forall r, matches (Cat r Void) s -> False).
  { intros r H. inversion H; subst. eapply Hvoid; eassumption. }
  assert (He : forall r, matches r s <-> matches (Cat Eps r) s).
  { intros r. split.
    - intros H. exact (MCat Eps r "" s MEps H).
    - intros H. inversion H as [| |? ? s1 s2 H1 H2| | | |]; subst.
      inversion H1; subst. exact H2. }
  destruct r1; destruct r2; simpl;
    try reflexivity;
    try (split; [intros H; exfalso; exact (Hvoid _ H)
                | intros H; exfalso; eauto]);
    try apply He.
Qed.

Lemma alt_matches (r1 r2 : regex) (s : string) :
  matches (alt r1 r2) s <-> matches (Alt r1 r2) s.
Proof.
  assert (Hvoid : forall s', ~ matches Void s') by (intros s' H; inversion H).
  destruct r1; destruct r2; simpl;
    try reflexivity;
    (split;
     [ intros H; (apply MAltL; exact H) || (apply MAltR; exact H)
     | intros H; inversion H; subst; try assumption;
       exfalso; eapply Hvoid; eassumption ]).
Qed.

(** A non-empty word of a repetition starts with a non-empty word of
    its body. *)
Lemma star_cons (r : regex) (c : ascii) (s : string) :
  matches (Star r) (String c s) ->
  exists s1 s2, s = (s1 ++ s2)%string
                /\ matches r (String c s1) /\ matches (Star r) s2.
Proof.
  intros H. remember (Star r) as r' eqn:Er. remember (String c s) as w eqn:Ew.
  revert c s Ew.
  induction H as [| | | | | |r0 s1 s2 H1 _ H2 IH2]; try discriminate.
  injection Er as ->. intros c s Ew.
  destruct s1 as [|c1 s1]; simpl in Ew.
  - apply (IH2 eq_refl c s Ew).
  - injection Ew as -> <-. exists s1, s2. auto.
Qed.

Lemma deriv_matches (r : regex) (c : ascii) (s : string) :
  matches (deriv c r) s <-> matches r (String c s).
Proof.
  revert s. induction r as [| |p|r1 IH1 r2 IH2|r1 IH1 r2 IH2|r IH];
    intros s; simpl.
  - split; intros H; inversion H.
  - split; intros H; inversion H.
  - destruct (p c) eqn:E.
    + split.
      * intros H. inversion H; subst. constructor. exact E.
      * intros H. inversion H; subst. constructor.
    + split; intros H; inversion H; subst. congruence.
  - assert (Hcat : matches (cat (deriv c r1) r2) s
                   <-> exists s1 s2, s = (s1 ++ s2)%string
                         /\ matches r1 (String c s1) /\ matches r2 s2).
    { rewrite cat_matches. split.
      - intros H. inversion H as [| |? ? s1 s2 H1 H2| | | |]; subst.
        exists s1, s2. rewrite <- IH1. auto.
      - intros (s1 & s2 & -> & H1 & H2). constructor; [apply IH1|]; assumption. }
    assert (Hsplit : matches (Cat r1 r2) (String c s)
                     <-> (exists s1 s2, s = (s1 ++ s2)%string
                            /\ matches r1 (String c s1) /\ matches r2 s2)
                         \/ (matches r1 "" /\ matches r2 (String c s))).
    { split.
      - intros H. inversion H as [| |? ? s1 s2 H1 H2| | | |]; subst.
        match goal with
        | E : (s1 ++ s2)%string = String c s |- _ =>
            destruct s1 as [|c1 s1]; simpl in E;
            [ right; subst; auto
            | injection E as -> <-; left; exists s1, s2; auto ]
        end.
      - intros [(s1 & s2 & -> & H1 & H2) | [H1 H2]].
        + exact (MCat r1 r2 (String c s1) s2 H1 H2).
        + exact (MCat r1 r2 "" (String c s) H1 H2). }
    rewrite Hsplit. destruct (nullable r1) eqn:En.
    + rewrite alt_matches. apply nullable_matches in En. split.
      * intros H. inversion H; subst.
        -- left. apply Hcat. assumption.
        -- right. rewrite <- IH2. auto.
      * intros [H | [_ H]].
        -- apply MAltL, Hcat, H.
        -- apply MAltR, IH2, H.
    + rewrite Hcat. split; [auto|]. intros [H | [H _]]; [exact H|].
      apply nullable_matches in H. congruence.
  - rewrite alt_matches. split.
    + intros H. inversion H; subst; [apply MAltL, IH1 | apply MAltR, IH2];
        assumption.
    + intros H. inversion H; subst; [apply MAltL, IH1 | apply MAltR, IH2];
        assumption.
  - rewrite cat_matches. split.
    + intros H. inversion H as [| |? ? s1 s2 H1 H2| | | |]; subst.
      apply IH in H1. exact (MStarApp r (String c s1) s2 H1 H2).
    + intros H. apply star_cons in H. destruct H as (s1 & s2 & -> & H1 & H2).
      constructor; [apply IH|]; assumption.
Qed.

(** [fullmatch] decides the language. *)
Lemma fullmatch_matches (r : regex) (s : string) :
  fullmatch r s = true <-> matches r s.
Proof.
  revert r. induction s as [|c s IH]; intros r; simpl.
  - apply nullable_matches.
  - rewrite IH. apply deriv_matches.
Qed.

Lemma star_any (s : string) : matches (Star any) s.
Proof.
  induction s as [|c s IH]; [constructor|].
  exact (MStarApp any (String c "") s (MChr _ c eq_refl) IH).
Qed.

(** [re.match] with a pattern without [$]: a prefix is in the language. *)
Lemma match_prefix_matches (r : regex) (text : string) :
  match_prefix r text = true
  <-> exists p rest, text = (p ++ rest)%string /\ matches r p.
Proof.
  unfold match_prefix. rewrite fullmatch_matches. split.
  - intros H. inversion H as [| |? ? s1 s2 H1 H2| | | |]; subst.
    exists s1, s2. auto.
  - intros (p & rest & -> & H). constructor; [exact H | apply star_any].
Qed.

(** [re.match] with a pattern [^r$]: the text, or the text without the
    newline that ends it, is in the language. *)
Lemma match_dollar_matches (r : regex) (text : string) :
  match_dollar r text = true
  <-> matches r text \/ exists p, text = (p ++ String "010" "")%string
                                  /\ matches r p.
Proof.
  unfold match_dollar. rewrite fullmatch_matches. split.
  - intros H. inversion H as [| |? ? s1 s2 H1 H2| | | |]; subst.
    inversion H2 as [| | |? ? ? H3|? ? ? H3| |]; subst.
    + inversion H3; subst. left. rewrite append_nil_r. exact H1.
    + inversion H3 as [|? ? Hc| | | | |]; subst.
      apply Ascii.eqb_eq in Hc. subst. right. exists s1. auto.
  - intros [H | (p & -> & H)].
    + rewrite <- (append_nil_r text).
      constructor; [exact H | apply MAltL; constructor].
    + constructor; [exact H|]. apply MAltR. constructor. apply Ascii.eqb_refl.
Qed.

End RegexSemantics.

(** ** The span classifier *)

Section SpanClassifier.

Definition level_of_dots (num_dots : nat) : string :=
  match num_dots with
  | 1%nat => "H1"
  | 2%nat => "H2"
  | _ => "H3"
  end.

(** On a text the pattern matches, the level is a function of the
    number of ['.'] characters of the whole text; span and previous font
    size play no part. *)
Lemma detect_numbered (text : string) (span : Span) (prev : option Q) :
  numbered text = true ->
  detect_heading_level text span prev
  = Some (level_of_dots (Py.count "." text)).
Proof.
  intros Hn. unfold detect_heading_level. rewrite Hn.
  destruct (Py.count "." text) as [|[|[|n]]]; reflexivity.
Qed.

(** The number of numeric groups (digits and a ['.']) that a text
    starts with; [in_group] tells that a digit of the current group has
    been read. *)
Fixpoint groups_from (in_group : bool) (s : string) : nat :=
  match s with
  | EmptyString => 0
  | String c s' =>
      if Py.isdigit c then groups_from true s'
      else if in_group && Ascii.eqb c "." then S (groups_from false s')
      else 0
  end.

Definition prefix_groups (text : string) : nat := groups_from false text.

Lemma groups_from_le_dots (s : string) (in_group : bool) :
  (groups_from in_group s <= Py.count "." s)%nat.
Proof.
  revert in_group. induction s as [|c s IH]; intros in_group; simpl.
  - lia.
  - destruct (Py.isdigit c).
    + specialize (IH true). lia.
    + destruct (in_group && Ascii.eqb c ".") eqn:E.
      * apply andb_true_iff in E. destruct E as [_ E]. rewrite E.
        specialize (IH false). lia.
      * lia.
Qed.

Lemma string_app_assoc (a b c : string) :
  ((a ++ b) ++ c = a ++ (b ++ c))%string.
Proof.
  induction a as [|x a IH]; simpl; [|rewrite IH]; reflexivity.
Qed.

Lemma groups_after_digits (ds x : string) :
  matches (Re.Star Re.digit) ds ->
  groups_from true (ds ++ String "." x) = S (groups_from false x).
Proof.
  intros H. remember (Re.Star Re.digit) as r eqn:Er.
  induction H as [| | | | | |r0 s1 s2 H1 _ H2 IH2]; try discriminate.
  - reflexivity.
  - injection Er as ->. inversion H1 as [|? c Hc| | | | |]; subst.
    simpl. unfold Re.digit in H1. rewrite Hc. apply IH2. reflexivity.
Qed.

Lemma groups_after_group (g x : string) (in_group : bool) :
  matches (Re.Cat (Re.plus Re.digit) (Re.chr ".")) g ->
  groups_from in_group (g ++ x) = S (groups_from false x).
Proof.
  intros H. inversion H as [| |? ? ds dot Hds Hdot| | | |]; subst.
  inversion Hdot as [|? c Hc| | | | |]; subst.
  apply Ascii.eqb_eq in Hc. subst c.
  inversion Hds as [| |? ? d1 ds' Hd1 Hds'| | | |]; subst.
  inversion Hd1 as [|? c Hc| | | | |]; subst.
  rewrite !string_app_assoc. simpl. rewrite Hc.
  apply groups_after_digits, Hds'.
Qed.

(** A text that the pattern matches starts with a group. *)
Lemma numbered_has_group (text : string) :
  numbered text = true -> (1 <= prefix_groups text)%nat.
Proof.
  intros H. apply match_prefix_matches in H.
  destruct H as (p & rest & -> & H).
  inversion H as [| |? ? gs w Hgs _| | | |]; subst.
  inversion Hgs as [| |? ? g gs' Hg _| | | |]; subst.
  unfold prefix_groups. rewrite !string_app_assoc.
  rewrite (groups_after_group g _ false Hg). lia.
Qed.

(** The groups of the prefix are never more than the dots of the text,
    and the level follows the groups when the two numbers agree, that is
    when no ['.'] stands after the prefix. *)
Lemma detect_numbered_groups (text : string) (span : Span) (prev : option Q) :
  (prefix_groups text <= Py.count "." text)%nat
  /\ (numbered text = true ->
      Py.count "." text = prefix_groups text ->
      detect_heading_level text span prev
      = Some (level_of_dots (prefix_groups text))).
Proof.
  split; [apply groups_from_le_dots|].
  intros Hn <-. apply detect_numbered, Hn.
Qed.

Definition plain (text : string) : Span := mkSpan text 10 (Some 0%Z).
Definition bold (text : string) : Span := mkSpan text 10 (Some 2%Z).

(** C1.  The level of a numbered heading is meant to follow the number
    of numeric groups of its prefix.  The code counts every ['.'] of the
    text, and its pattern wants a ['.'] after every group: "1. Node.js
    Basics" has one group and is classified H2, and "2.1 Overview" and
    "3.2.1 Detail" do not match the pattern at all, so that their level
    depends on the font (none for a plain 10pt span, H1 for a bold one). *)
Theorem detect_heading_level_numbered_cases :
  detect_heading_level "1. Introduction" (plain "1. Introduction") None = Some "H1"
  /\ numbered "1. Node.js Basics" = true
  /\ prefix_groups "1. Node.js Basics" = 1%nat
  /\ detect_heading_level "1. Node.js Basics" (plain "1. Node.js Basics") None = Some "H2"
  /\ numbered "2.1 Overview" = false
  /\ detect_heading_level "2.1 Overview" (plain "2.1 Overview") None = None
  /\ detect_heading_level "2.1 Overview" (bold "2.1 Overview") None = Some "H1"
  /\ numbered "3.2.1 Detail" = false
  /\ detect_heading_level "3.2.1 Detail" (plain "3.2.1 Detail") None = None
  /\ detect_heading_level "3.2.1 Detail" (bold "3.2.1 Detail") None = Some "H1".
Proof. repeat split; vm_compute; reflexivity. Qed.

End SpanClassifier.

(** ** The title of a document *)

Section Title.

(** The title the first page gives: the stripped text of its first
    span of largest size among those that are not blank. *)
Definition first_page_title (doc : Pdf) : string :=
  match pages doc with
  | first_page :: _ => largest_text 0 "" (spans_of first_page)
  | [] => ""
  end.

Lemma fold_signal_span_first (spans : list Span) (st : Signals) :
  title_candidate (fold_left (signal_span 1) spans st)
  = largest_text (max_fontsize st) (title_candidate st) spans.
Proof.
  revert st. induction spans as [|span rest IH]; intros st; simpl.
  - reflexivity.
  - rewrite IH. unfold signal_span.
    destruct (String.eqb (Py.strip (span_text span)) "") eqn:He; simpl.
    + rewrite andb_false_r. reflexivity.
    + rewrite andb_true_r.
      destruct (Qltb (max_fontsize st) (span_size span)); reflexivity.
Qed.

Lemma fold_signal_span_later (page_num : Z) (spans : list Span) (st : Signals) :
  page_num <> 1%Z ->
  title_candidate (fold_left (signal_span page_num) spans st) = title_candidate st.
Proof.
  intros Hp. revert st. induction spans as [|span rest IH]; intros st; simpl.
  - reflexivity.
  - rewrite IH. unfold signal_span.
    destruct (String.eqb (Py.strip (span_text span)) ""); [reflexivity|].
    simpl. destruct (Z.eqb_spec page_num 1); [contradiction|reflexivity].
Qed.

Lemma signal_pages_later (ps : list Page) (page_num : Z) (st : Signals) :
  (1 < page_num)%Z ->
  title_candidate (signal_pages page_num st ps) = title_candidate st.
Proof.
  revert page_num st. induction ps as [|p ps IH]; intros page_num st Hp; simpl.
  - reflexivity.
  - rewrite IH by lia. apply fold_signal_span_later. lia.
Qed.

(** The signal strategy never looks at the metadata. *)
Lemma extract_outline_by_signals_title (doc : Pdf) :
  fst (extract_outline_by_signals doc) = first_page_title doc.
Proof.
  unfold extract_outline_by_signals, first_page_title. simpl.
  destruct (pages doc) as [|p ps]; simpl.
  - reflexivity.
  - rewrite signal_pages_later by lia.
    exact (fold_signal_span_first (spans_of p) (mkSignals 0 "" None [])).
Qed.

(** With a table of contents the metadata title wins when it is not
    empty, and the first page gives the title otherwise. *)
Lemma process_pdf_title_toc (doc : Pdf) :
  toc doc <> [] ->
  fst (process_pdf doc)
  = if String.eqb (metadata_title doc) "" then first_page_title doc
    else metadata_title doc.
Proof.
  intros Ht. unfold process_pdf, extract_pdf_outline, first_page_title.
  destruct (toc doc) as [|[[l x] pg] rest]; [contradiction|]. simpl.
  destruct (String.eqb_spec (metadata_title doc) "") as [E|E].
  - destruct (pages doc); [exact E|reflexivity].
  - reflexivity.
Qed.

(** Without one the first page gives the title, whatever the metadata. *)
Lemma process_pdf_title_signals (doc : Pdf) :
  toc doc = [] ->
  fst (process_pdf doc) = first_page_title doc.
Proof.
  intros Ht. unfold process_pdf, extract_pdf_outline. rewrite Ht. simpl.
  exact (extract_outline_by_signals_title doc).
Qed.

Definition titled_pdf : Pdf :=
  mkPdf "Meta" []
    [ [ Some [ [ mkSpan "Big Heading" 20 (Some 0%Z);
                 mkSpan "body text" 10 (Some 0%Z) ] ] ] ].

(** C3.  A PDF without table of contents whose metadata title is
    "Meta" and whose first page has the 20pt span "Big Heading" gets
    the title "Big Heading": the title of the signal strategy replaces
    the metadata title that [extract_pdf_outline] had chosen. *)
Theorem process_pdf_drops_metadata_title :
  metadata_title titled_pdf = "Meta"
  /\ fst (extract_pdf_outline titled_pdf) = "Meta"
  /\ fst (process_pdf titled_pdf) = "Big Heading".
Proof. repeat split; vm_compute; reflexivity. Qed.

End Title.

(** ** The outline normaliser *)

Section OutlineNormalizer.

Lemma key_eqb_eq (a b : Item) : key_eqb a b = true <-> a = b.
Proof.
  unfold key_eqb. rewrite !andb_true_iff, !String.eqb_eq, Z.eqb_eq.
  destruct a, b; simpl. split.
  - intros [[-> ->] ->]. reflexivity.
  - intros H. injection H as -> -> ->. auto.
Qed.

Lemma seen_iff (o : Item) (seen : list Item) :
  existsb (key_eqb o) seen = true <-> In o seen.
Proof.
  rewrite existsb_exists. split.
  - intros [x [Hin Hk]]. apply key_eqb_eq in Hk. subst. exact Hin.
  - intros Hin. exists o. split; [exact Hin|]. apply key_eqb_eq. reflexivity.
Qed.

(** *** The noise filter *)

Lemma keep_valid_In (cleaned : list Item) (o : Item) :
  In o (keep_valid cleaned)
  <-> In o cleaned
      /\ ((HEADING_MIN_LENGTH <= Py.len (text o))%nat \/ numbered (text o) = true).
Proof.
  unfold keep_valid. rewrite filter_In. unfold valid_heading.
  rewrite orb_true_iff, Nat.leb_le. reflexivity.
Qed.

(** C4, as the code has it.  The filter keeps every candidate whose
    text matches the numbered pattern, whatever its length, and drops
    every candidate whose text does not match it and has fewer than 4
    characters. *)
Theorem keep_valid_numbered_or_long (cleaned : list Item) (o : Item) :
  In o cleaned ->
  (numbered (text o) = true -> In o (keep_valid cleaned))
  /\ (numbered (text o) = false -> (Py.len (text o) < 4)%nat ->
      ~ In o (keep_valid cleaned)).
Proof.
  intros Hin. split.
  - intros Hn. apply keep_valid_In. auto.
  - intros Hn Hlen Hk. apply keep_valid_In in Hk.
    destruct Hk as [_ [Hl | Hm]].
    + unfold HEADING_MIN_LENGTH in Hl. lia.
    + congruence.
Qed.

(** The shortest texts the pattern matches have three characters. *)
Lemma keep_valid_witness :
  In (mkItem "H1" "1. " 1) [mkItem "H1" "1. " 1; mkItem "H2" "Mr." 1]
  /\ numbered "1. " = true
  /\ In (mkItem "H1" "1. " 1)
        (keep_valid [mkItem "H1" "1. " 1; mkItem "H2" "Mr." 1]).
Proof.
  assert (Hin : In (mkItem "H1" "1. " 1)
                   [mkItem "H1" "1. " 1; mkItem "H2" "Mr." 1])
    by (left; reflexivity).
  assert (Hn : numbered "1. " = true) by (vm_compute; reflexivity).
  split; [exact Hin|]. split; [exact Hn|].
  exact (proj1 (keep_valid_numbered_or_long _ _ Hin) Hn).
Defined.

(** The text "1." alone is not matched by the pattern, which wants a
    whitespace character after the last ['.'], and is dropped. *)
Lemma keep_valid_drops_bare_number :
  numbered "1." = false
  /\ keep_valid [mkItem "H1" "1." 1] = []
  /\ clean_outline [mkItem "H1" "1." 1] = [].
Proof. repeat split; vm_compute; reflexivity. Qed.

(** *** Deduplication *)

Lemma remove_duplicates_In (filtered seen : list Item) (o : Item) :
  In o (remove_duplicates seen filtered) -> In o filtered /\ ~ In o seen.
Proof.
  revert seen. induction filtered as [|x rest IH]; intros seen; simpl.
  - contradiction.
  - destruct (existsb (key_eqb x) seen) eqn:E.
    + intros H. apply IH in H. tauto.
    + intros [-> | H].
      * split; [auto|]. intros Hs. apply seen_iff in Hs. congruence.
      * apply IH in H. simpl in H. tauto.
Qed.

Lemma remove_duplicates_NoDup (filtered seen : list Item) :
  NoDup (remove_duplicates seen filtered).
Proof.
  revert seen. induction filtered as [|x rest IH]; intros seen; simpl.
  - constructor.
  - destruct (existsb (key_eqb x) seen).
    + apply IH.
    + constructor; [|apply IH].
      intros H. apply remove_duplicates_In in H. simpl in H. tauto.
Qed.

Lemma remove_duplicates_fixed (filtered seen : list Item) :
  NoDup filtered -> (forall o, In o filtered -> ~ In o seen) ->
  remove_duplicates seen filtered = filtered.
Proof.
  revert seen. induction filtered as [|x rest IH]; intros seen Hnd Hs; simpl.
  - reflexivity.
  - inversion Hnd as [|? ? Hx Hrest]; subst.
    destruct (existsb (key_eqb x) seen) eqn:E.
    + apply seen_iff in E. exfalso. apply (Hs x); simpl; auto.
    + f_equal. apply IH; [exact Hrest|].
      intros o Ho [-> | Hin]; [contradiction|].
      apply (Hs o); simpl; auto.
Qed.

(** Deduplication is idempotent. *)
Lemma remove_duplicates_idempotent (filtered : list Item) :
  remove_duplicates [] (remove_duplicates [] filtered)
  = remove_duplicates [] filtered.
Proof.
  apply remove_duplicates_fixed.
  - apply remove_duplicates_NoDup.
  - intros o _ H. exact H.
Qed.

Lemma remove_duplicates_length (filtered seen : list Item) :
  (List.length (remove_duplicates seen filtered) <= List.length filtered)%nat.
Proof.
  revert seen. induction filtered as [|x rest IH]; intros seen; simpl.
  - lia.
  - destruct (existsb (key_eqb x) seen); simpl.
    + specialize (IH seen). lia.
    + specialize (IH (x :: seen)). lia.
Qed.

(** *** Fragment merge *)

(** No entry has the page and level of the entry before it. *)
Fixpoint adjacent_distinct (l : list Item) : bool :=
  match l with
  | [] => true
  | a :: l' =>
      match l' with
      | [] => true
      | b :: _ => negb (same_place b a) && adjacent_distinct l'
      end
  end.

Lemma merge_from_fixed (l : list Item) (a : Item) :
  adjacent_distinct (a :: l) = true -> merge_from a l = a :: l.
Proof.
  revert a. induction l as [|b l IH]; intros a H.
  - reflexivity.
  - change (negb (same_place b a) && adjacent_distinct (b :: l) = true) in H.
    apply andb_true_iff in H. destruct H as [Hab Hl].
    apply negb_true_iff in Hab. simpl. rewrite Hab. f_equal. apply IH, Hl.
Qed.

Lemma merge_fragments_fixed (l : list Item) :
  adjacent_distinct l = true -> merge_fragments l = l.
Proof.
  destruct l as [|a l]; [reflexivity|]. apply merge_from_fixed.
Qed.

Lemma merge_from_length (l : list Item) (a : Item) :
  (List.length (merge_from a l) <= S (List.length l))%nat
  /\ (adjacent_distinct (a :: l) = false ->
      List.length (merge_from a l) < S (List.length l))%nat.
Proof.
  revert a. induction l as [|b l IH]; intros a.
  - simpl. split; [lia|discriminate].
  - change (adjacent_distinct (a :: b :: l))
      with (negb (same_place b a) && adjacent_distinct (b :: l)).
    simpl merge_from. destruct (same_place b a) eqn:E.
    + match goal with
      | |- context [merge_from ?m l] => destruct (IH m) as [Hle _]
      end.
      change (List.length (b :: l)) with (S (List.length l)).
      split; intros; lia.
    + destruct (IH b) as [Hle Hlt].
      change (List.length (a :: merge_from b l))
        with (S (List.length (merge_from b l))).
      change (List.length (b :: l)) with (S (List.length l)) in *.
      split; [lia|].
      simpl negb. rewrite andb_true_l. intros H. specialize (Hlt H). lia.
Qed.

Lemma merge_fragments_length (l : list Item) :
  (List.length (merge_fragments l) <= List.length l)%nat
  /\ (adjacent_distinct l = false ->
      List.length (merge_fragments l) < List.length l)%nat.
Proof.
  destruct l as [|a l].
  - simpl. split; [lia|discriminate].
  - apply merge_from_length.
Qed.

(** *** The whole normaliser *)

Lemma keep_valid_fixed (l : list Item) :
  Forall (fun o => valid_heading o = true) l -> keep_valid l = l.
Proof.
  unfold keep_valid. induction 1 as [|o l Ho _ IH]; simpl.
  - reflexivity.
  - rewrite Ho, IH. reflexivity.
Qed.

Lemma clean_outline_valid (cs : list Item) :
  Forall (fun o => valid_heading o = true) (clean_outline cs).
Proof.
  apply Forall_forall. intros o Ho. unfold clean_outline in Ho.
  apply remove_duplicates_In in Ho. destruct Ho as [Ho _].
  unfold keep_valid in Ho. apply filter_In in Ho. tauto.
Qed.

Lemma clean_outline_length (l : list Item) :
  (List.length (clean_outline l) <= List.length (merge_fragments l))%nat.
Proof.
  unfold clean_outline.
  etransitivity; [apply remove_duplicates_length|].
  unfold keep_valid. apply filter_length_le.
Qed.

(** C7, as the code has it.  A second run of the normaliser leaves its
    output unchanged whenever no entry of that output has the page and
    level of the entry before it. *)
Theorem clean_outline_idempotent_when_distinct (cs : list Item) :
  adjacent_distinct (clean_outline cs) = true ->
  clean_outline (clean_outline cs) = clean_outline cs.
Proof.
  intros Hd. unfold clean_outline at 1.
  rewrite (merge_fragments_fixed _ Hd).
  rewrite (keep_valid_fixed _ (clean_outline_valid cs)).
  apply remove_duplicates_fixed.
  - apply remove_duplicates_NoDup.
  - intros o _ H. exact H.
Qed.

Definition outline_distinct : list Item :=
  [ mkItem "H1" "1. Introduction" 1; mkItem "H1" "Introduction" 1;
    mkItem "H2" "Scope" 1; mkItem "H2" "Scope" 1; mkItem "H3" "a" 1;
    mkItem "H1" "2. Methods" 2 ].

Lemma clean_outline_idempotent_witness :
  adjacent_distinct (clean_outline outline_distinct) = true
  /\ clean_outline (clean_outline outline_distinct)
     = clean_outline outline_distinct.
Proof.
  assert (Hd : adjacent_distinct (clean_outline outline_distinct) = true)
    by (vm_compute; reflexivity).
  split; [exact Hd|].
  exact (clean_outline_idempotent_when_distinct outline_distinct Hd).
Defined.

(** And only then: a second run that merges anything gives a shorter
    outline. *)
Lemma clean_outline_changes_when_adjacent (cs : list Item) :
  adjacent_distinct (clean_outline cs) = false ->
  clean_outline (clean_outline cs) <> clean_outline cs.
Proof.
  intros Hd Heq.
  pose proof (clean_outline_length (clean_outline cs)) as H1.
  destruct (merge_fragments_length (clean_outline cs)) as [_ H2].
  specialize (H2 Hd). rewrite Heq in H1. lia.
Qed.

(** The noise filter drops the H2 entry that stood between two H1
    entries of page 1; the second run merges them. *)
Definition outline_gap : list Item :=
  [ mkItem "H1" "Abcd" 1; mkItem "H2" "x" 1; mkItem "H1" "Efgh" 1 ].

Lemma clean_outline_not_idempotent :
  clean_outline outline_gap
  = [ mkItem "H1" "Abcd" 1; mkItem "H1" "Efgh" 1 ]
  /\ clean_outline (clean_outline outline_gap)
     = [ mkItem "H1" "Abcd Efgh" 1 ]
  /\ clean_outline (clean_outline outline_gap) <> clean_outline outline_gap.
Proof.
  split; [vm_compute; reflexivity|].
  split; [vm_compute; reflexivity|].
  vm_compute. discriminate.
Qed.

End OutlineNormalizer.

(** ** The section segmenter *)

Section SectionSegmenter.

(** The lines of a page that the loop does not skip: stripped, not
    empty, each with its index among all the lines of the page. *)
Definition significant (lines : list (nat * string)) : list (nat * string) :=
  filter (fun l => negb (String.eqb (snd l) ""))
         (map (fun l => (fst l, Py.strip (snd l))) lines).

Definition page_lines (text : string) : list (nat * string) :=
  significant (Py.enumerate (Py.split "010" text)).

Definition is_header (l : nat * string) : bool := _is_section_header (snd l).

(** What may follow the content of a section: the end of the page or a
    header line. *)
Definition ends_content (rest : list (nat * string)) : Prop :=
  match rest with
  | [] => True
  | l :: _ => is_header l = true
  end.

(** The loop over the significant lines only. *)
Fixpoint scan_significant (page_num : Z) (current_section : option Section)
    (section_content : list string) (lines : list (nat * string))
    : list Section :=
  match lines with
  | [] => close current_section section_content
  | (line_num, line) :: rest =>
      if _is_section_header line then
        close current_section section_content ++
        scan_significant page_num
          (Some (mkSection line page_num line_num [] None)) [] rest
      else
        match current_section with
        | Some _ =>
            scan_significant page_num current_section
              (section_content ++ [line]) rest
        | None =>
            scan_significant page_num current_section section_content rest
        end
  end.

Lemma scan_lines_significant (page_num : Z) (lines : list (nat * string))
    (cur : option Section) (acc : list string) :
  scan_lines page_num cur acc lines
  = scan_significant page_num cur acc (significant lines).
Proof.
  revert cur acc. induction lines as [|[i l] lines IH]; intros cur acc.
  - reflexivity.
  - unfold significant. simpl.
    destruct (String.eqb (Py.strip l) "") eqn:E; simpl.
    + apply IH.
    + destruct (_is_section_header (Py.strip l)).
      * f_equal. apply IH.
      * destruct cur; apply IH.
Qed.

(** A section that starts at line [(i, h)] of page [page_num] and has
    the lines [body] as content. *)
Definition section_at (page_num : Z) (i : nat) (h : string)
    (body : list (nat * string)) : Section :=
  mkSection h page_num i (map snd body) None.

Definition later_section (page_num : Z) (lines : list (nat * string))
    (s : Section) : Prop :=
  exists pre i h body rest,
    lines = pre ++ (i, h) :: body ++ rest
    /\ _is_section_header h = true
    /\ Forall (fun l => is_header l = false) body
    /\ ends_content rest
    /\ s = section_at page_num i h body.

Definition open_section (cs : Section) (acc : list string)
    (lines : list (nat * string)) (s : Section) : Prop :=
  exists body rest,
    lines = body ++ rest
    /\ Forall (fun l => is_header l = false) body
    /\ ends_content rest
    /\ s = with_content cs (acc ++ map snd body).

Lemma later_section_cons (page_num : Z) (x : nat * string)
    (lines : list (nat * string)) (s : Section) :
  later_section page_num (x :: lines) s
  <-> (is_header x = true
       /\ open_section (mkSection (snd x) page_num (fst x) [] None) [] lines s)
      \/ later_section page_num lines s.
Proof.
  split.
  - intros (pre & i & h & body & rest & HL & Hh & Hb & He & Hs).
    destruct pre as [|y pre]; simpl in HL.
    + injection HL as -> ->. left. split; [exact Hh|].
      exists body, rest. subst s. auto.
    + injection HL as -> ->. right. exists pre, i, h, body, rest. auto.
  - intros [[Hx (body & rest & HL & Hb & He & Hs)] | H].
    + destruct x as [i h]. exists [], i, h, body, rest. subst. simpl. auto.
    + destruct H as (pre & i & h & body & rest & HL & Hh & Hb & He & Hs).
      exists (x :: pre), i, h, body, rest. subst. simpl. auto.
Qed.

Lemma open_section_cons (cs : Section) (acc : list string)
    (x : nat * string) (lines : list (nat * string)) (s : Section) :
  open_section cs acc (x :: lines) s
  <-> (is_header x = true /\ s = with_content cs acc)
      \/ (is_header x = false /\ open_section cs (acc ++ [snd x]) lines s).
Proof.
  split.
  - intros (body & rest & HL & Hb & He & Hs).
    destruct body as [|y body]; simpl in HL.
    + subst rest. simpl in He. left. split; [exact He|].
      simpl in Hs. rewrite app_nil_r in Hs. exact Hs.
    + injection HL as -> ->. inversion Hb as [|? ? Hy Hb']; subst.
      right. split; [exact Hy|]. exists body, rest.
      repeat split; auto. simpl. rewrite <- app_assoc. reflexivity.
  - intros [[Hx Hs] | [Hx (body & rest & HL & Hb & He & Hs)]].
    + exists [], (x :: lines). simpl. rewrite app_nil_r. auto.
    + exists (x :: body), rest. subst. simpl. repeat split; auto.
      rewrite <- app_assoc. reflexivity.
Qed.

Lemma open_section_nil (cs : Section) (acc : list string) (s : Section) :
  open_section cs acc [] s <-> s = with_content cs acc.
Proof.
  split.
  - intros (body & rest & HL & Hb & He & Hs).
    symmetry in HL. apply app_eq_nil in HL. destruct HL as [-> ->].
    simpl in Hs. rewrite app_nil_r in Hs. exact Hs.
  - intros ->. exists [], []. simpl. rewrite app_nil_r. auto.
Qed.

Lemma later_section_nil (page_num : Z) (s : Section) :
  ~ later_section page_num [] s.
Proof.
  intros (pre & i & h & body & rest & HL & _).
  destruct pre; discriminate.
Qed.

Lemma scan_open (page_num : Z) (lines : list (nat * string))
    (cs : Section) (acc : list string) (s : Section) :
  In s (scan_significant page_num (Some cs) acc lines)
  <-> open_section cs acc lines s \/ later_section page_num lines s.
Proof.
  revert cs acc. induction lines as [|[i l] lines IH]; intros cs acc.
  - simpl. rewrite open_section_nil. split.
    + intros [H | []]. left. auto.
    + intros [H | H]; [left; auto|]. exfalso. exact (later_section_nil _ _ H).
  - rewrite open_section_cons, later_section_cons. unfold is_header. simpl.
    destruct (_is_section_header l) eqn:E.
    + simpl. rewrite IH. split.
      * intros [H | [H | H]]; auto.
      * intros [[[_ H] | [H _]] | [[_ H] | H]]; auto. discriminate.
    + rewrite IH. split.
      * intros [H | H]; auto.
      * intros [[[H _] | [_ H]] | [[H _] | H]]; auto; discriminate.
Qed.

Lemma scan_closed (page_num : Z) (lines : list (nat * string))
    (acc : list string) (s : Section) :
  In s (scan_significant page_num None acc lines)
  <-> later_section page_num lines s.
Proof.
  revert acc. induction lines as [|[i l] lines IH]; intros acc.
  - simpl. split; [contradiction|]. apply later_section_nil.
  - rewrite later_section_cons. unfold is_header. simpl.
    destruct (_is_section_header l) eqn:E.
    + rewrite scan_open. split.
      * intros [H | H]; auto.
      * intros [[_ H] | H]; auto.
    + rewrite IH. split; auto. intros [[H _] | H]; auto. discriminate.
Qed.

Lemma identify_sections_pages (pages : Pages) (acc : list Section) :
  fold_left scan_page pages acc
  = acc ++ flat_map (fun p => scan_lines (fst p) None []
                                (Py.enumerate (Py.split "010" (snd p)))) pages.
Proof.
  revert acc. induction pages as [|[page_num text] pages IH]; intros acc; simpl.
  - rewrite app_nil_r. reflexivity.
  - rewrite IH, <- app_assoc. reflexivity.
Qed.

(** The sections are those of the pages, page by page. *)
Lemma identify_sections_In (pages : Pages) (s : Section) :
  In s (identify_sections pages)
  <-> exists page_num text,
        In (page_num, text) pages
        /\ later_section page_num (page_lines text) s.
Proof.
  unfold identify_sections. rewrite identify_sections_pages. simpl.
  rewrite in_flat_map. split.
  - intros [[page_num text] [Hin Hs]]. simpl in Hs.
    rewrite scan_lines_significant in Hs. apply scan_closed in Hs.
    exists page_num, text. auto.
  - intros (page_num & text & Hin & Hs).
    exists (page_num, text). split; [exact Hin|]. simpl.
    rewrite scan_lines_significant. apply scan_closed, Hs.
Qed.

(** C2, as the code has it.  The sections are exactly these: for a page
    and a header line [h] among its lines, the section whose content is
    the run [body] of non-header lines that follow [h] on that page, up
    to the next header line of the page or the end of the page.  (The
    lines meant are the stripped, non-empty ones.) *)
Theorem identify_sections_content (pages : Pages) (s : Section) :
  In s (identify_sections pages)
  <-> exists page_num text pre i h body rest,
        In (page_num, text) pages
        /\ page_lines text = pre ++ (i, h) :: body ++ rest
        /\ _is_section_header h = true
        /\ Forall (fun l => _is_section_header (snd l) = false) body
        /\ match rest with
           | [] => True
           | l :: _ => _is_section_header (snd l) = true
           end
        /\ s = mkSection h page_num i (map snd body) None.
Proof.
  unfold identify_sections. rewrite identify_sections_pages. simpl.
  rewrite in_flat_map. split.
  - intros [[page_num text] [Hin Hs]]. simpl in Hs.
    rewrite scan_lines_significant in Hs. apply scan_closed in Hs.
    destruct Hs as (pre & i & h & body & rest & H).
    exists page_num, text, pre, i, h, body, rest. tauto.
  - intros (page_num & text & pre & i & h & body & rest & Hin & H).
    exists (page_num, text). split; [exact Hin|]. simpl.
    rewrite scan_lines_significant. apply scan_closed.
    exists pre, i, h, body, rest. exact H.
Qed.

(** The reading in which a section runs on over the page break: the
    lines of all pages in order, and for each header line the lines
    after it up to the next header line. *)
Definition document_lines (pages : Pages) : list string :=
  flat_map (fun p => map snd (page_lines (snd p))) pages.

Fixpoint until_header (lines : list string) : list string :=
  match lines with
  | [] => []
  | l :: rest => if _is_section_header l then [] else l :: until_header rest
  end.

Fixpoint sections_across_pages (lines : list string)
    : list (string * list string) :=
  match lines with
  | [] => []
  | l :: rest =>
      if _is_section_header l
      then (l, until_header rest) :: sections_across_pages rest
      else sections_across_pages rest
  end.

Definition nl : string := String "010" "".

Definition two_pages : Pages :=
  [ (1%Z, ("Intro" ++ nl ++ "body one")%string);
    (2%Z, ("more body" ++ nl ++ "Next" ++ nl ++ "stuff")%string) ].

(** On these two pages the section "Intro" ends with its page: the
    line "more body" of page 2 is in no section. *)
Lemma identify_sections_stops_at_page_end :
  map (fun s => (title s, content s)) (identify_sections two_pages)
  = [ ("Intro", ["body one"]); ("Next", ["stuff"]) ]
  /\ sections_across_pages (document_lines two_pages)
     = [ ("Intro", ["body one"; "more body"]); ("Next", ["stuff"]) ]
  /\ map (fun s => (title s, content s)) (identify_sections two_pages)
     <> sections_across_pages (document_lines two_pages).
Proof.
  split; [vm_compute; reflexivity|].
  split; [vm_compute; reflexivity|].
  vm_compute. discriminate.
Qed.

End SectionSegmenter.

(** ** The relevance scorer *)

Section RelevanceScorer.

(** A keyword appears in a section: in its lowercased joined content or
    in its lowercased title. *)
Definition appears (section : Section) (keyword : string) : bool :=
  Py.contains keyword (content_of section)
  || Py.contains keyword (title_of section).

Definition persona_list (persona : string) : list string :=
  dict_get persona_keywords (Py.lower persona) [].

Definition job_list (job : string) : list string :=
  dict_get job_keywords (Py.lower job) [].

Definition memb (k : string) (l : list string) : bool :=
  existsb (String.eqb k) l.

(** The reading in which the two lists are united as sets: every
    keyword is counted once. *)
Definition keyword_matches_union (section : Section) (persona job : string)
    : nat :=
  count_if (appears section)
           (nodup string_dec (persona_list persona ++ job_list job)).

(** The keywords of the persona list that are in the job list too and
    appear in the section. *)
Definition common_matches (section : Section) (persona job : string) : nat :=
  count_if (appears section)
           (filter (fun k => memb k (job_list job)) (persona_list persona)).

Lemma memb_In (k : string) (l : list string) : memb k l = true <-> In k l.
Proof.
  unfold memb. rewrite existsb_exists. split.
  - intros [x [Hin Hx]]. apply String.eqb_eq in Hx. subst. exact Hin.
  - intros Hin. exists k. split; [exact Hin|]. apply String.eqb_refl.
Qed.

Lemma count_if_app {A : Type} (f : A -> bool) (l1 l2 : list A) :
  count_if f (l1 ++ l2) = (count_if f l1 + count_if f l2)%nat.
Proof. unfold count_if. rewrite filter_app, length_app. reflexivity. Qed.

Lemma count_if_split {A : Type} (f g : A -> bool) (l : list A) :
  count_if f l
  = (count_if f (filter (fun x => negb (g x)) l) + count_if f (filter g l))%nat.
Proof.
  unfold count_if. induction l as [|x l IH]; simpl.
  - reflexivity.
  - destruct (g x); simpl; destruct (f x); simpl; lia.
Qed.

Lemma nodup_app_distinct (l1 l2 : list string) :
  NoDup l1 -> NoDup l2 ->
  nodup string_dec (l1 ++ l2)
  = filter (fun k => negb (memb k l2)) l1 ++ l2.
Proof.
  intros H1 H2. induction H1 as [|x l1 Hx _ IH]; simpl.
  - apply nodup_fixed_point, H2.
  - destruct (in_dec string_dec x (l1 ++ l2)) as [Hin | Hin].
    + apply in_app_or in Hin. destruct Hin as [Hin | Hin]; [contradiction|].
      apply memb_In in Hin. rewrite Hin. simpl. exact IH.
    + destruct (memb x l2) eqn:E.
      * exfalso. apply Hin, in_or_app. right. apply memb_In, E.
      * simpl. rewrite IH. reflexivity.
Qed.

(** With duplicate-free lists, counting over the concatenation counts
    the keywords of both lists a second time. *)
Lemma count_concat_union (f : string -> bool) (l1 l2 : list string) :
  NoDup l1 -> NoDup l2 ->
  count_if f (l1 ++ l2)
  = (count_if f (nodup string_dec (l1 ++ l2))
     + count_if f (filter (fun k => memb k l2) l1))%nat.
Proof.
  intros H1 H2. rewrite (nodup_app_distinct _ _ H1 H2), !count_if_app.
  rewrite (count_if_split f (fun k => memb k l2) l1). lia.
Qed.

Fixpoint distinct (l : list string) : bool :=
  match l with
  | [] => true
  | x :: l' => negb (memb x l') && distinct l'
  end.

Lemma distinct_NoDup (l : list string) : distinct l = true -> NoDup l.
Proof.
  induction l as [|x l IH]; simpl; intros H.
  - constructor.
  - apply andb_true_iff in H. destruct H as [Hx Hl].
    constructor; [|apply IH, Hl].
    intros Hin. apply memb_In in Hin. rewrite Hin in Hx. discriminate.
Qed.

Lemma dict_get_distinct (d : list (string * list string)) (k : string) :
  forallb (fun e => distinct (snd e)) d = true ->
  NoDup (dict_get d k []).
Proof.
  unfold dict_get. induction d as [|[k' v] d IH]; simpl; intros H.
  - constructor.
  - apply andb_true_iff in H. destruct H as [Hv Hd].
    destruct (String.eqb k k'); [apply distinct_NoDup, Hv | apply IH, Hd].
Qed.

Lemma persona_list_NoDup (persona : string) : NoDup (persona_list persona).
Proof. apply dict_get_distinct. vm_compute. reflexivity. Qed.

Lemma job_list_NoDup (job : string) : NoDup (job_list job).
Proof. apply dict_get_distinct. vm_compute. reflexivity. Qed.

(** C5, as the code has it.  [keyword_matches] counts over the
    concatenation of the persona list and the job list: it is the count
    over their union plus the number of keywords of both lists that
    appear, so that a keyword of both lists contributes twice. *)
Theorem keyword_matches_counts_concatenation
    (section : Section) (persona job : string) :
  keyword_matches section persona job
  = (count_if (appears section) (persona_list persona)
     + count_if (appears section) (job_list job))%nat
  /\ keyword_matches section persona job
     = (keyword_matches_union section persona job
        + common_matches section persona job)%nat.
Proof.
  unfold keyword_matches, all_keywords, keyword_matches_union, common_matches.
  fold (persona_list persona) (job_list job) (appears section).
  split.
  - apply count_if_app.
  - apply count_concat_union; [apply persona_list_NoDup | apply job_list_NoDup].
Qed.

Definition itinerary_section : Section :=
  mkSection "Itinerary" 1 0 [] None.

(** "itinerary" is a keyword of the persona "Travel Planner" and of the
    job "Plan a Trip": the title "Itinerary" gives 2 matches, where the
    union gives 1. *)
Lemma keyword_matches_counts_twice :
  keyword_matches itinerary_section "Travel Planner" "Plan a Trip" = 2%nat
  /\ keyword_matches_union itinerary_section "Travel Planner" "Plan a Trip"
     = 1%nat
  /\ keyword_matches itinerary_section "Travel Planner" "Plan a Trip"
     <> keyword_matches_union itinerary_section "Travel Planner" "Plan a Trip".
Proof.
  split; [vm_compute; reflexivity|].
  split; [vm_compute; reflexivity|].
  vm_compute. discriminate.
Qed.

End RelevanceScorer.

(** ** The stable sort *)

Section StableSort.

Context {A : Type} (precedes : A -> A -> bool).

Hypothesis precedes_total :
  forall x y, precedes x y = true \/ precedes y x = true.
Hypothesis precedes_trans :
  forall x y z, precedes x y = true -> precedes y z = true ->
                precedes x z = true.

(** [x] and [y] have equal keys. *)
Definition tied (x y : A) : bool := precedes x y && precedes y x.

(** [l'] is [l] sorted, elements with equal keys in their order in [l]. *)
Definition stable_sort_of (l l' : list A) : Prop :=
  Permutation l' l
  /\ StronglySorted (fun x y => precedes x y = true) l'
  /\ forall a, filter (tied a) l' = filter (tied a) l.

Lemma insert_perm (x : A) (l : list A) :
  Permutation (Py.insert precedes x l) (x :: l).
Proof.
  induction l as [|y l IH]; simpl.
  - apply Permutation_refl.
  - destruct (precedes x y).
    + apply Permutation_refl.
    + eapply perm_trans; [apply perm_skip, IH | apply perm_swap].
Qed.

Lemma sort_perm (l : list A) : Permutation (Py.sort precedes l) l.
Proof.
  induction l as [|x l IH]; simpl.
  - apply perm_nil.
  - eapply perm_trans; [apply insert_perm | apply perm_skip, IH].
Qed.

Lemma insert_sorted (x : A) (l : list A) :
  StronglySorted (fun x y => precedes x y = true) l ->
  StronglySorted (fun x y => precedes x y = true) (Py.insert precedes x l).
Proof.
  induction 1 as [|y l Hl IH Hy]; simpl.
  - constructor; constructor.
  - destruct (precedes x y) eqn:E.
    + constructor; [constructor; assumption|].
      constructor; [exact E|].
      eapply Forall_impl; [|exact Hy]. intros z Hz.
      eapply precedes_trans; eassumption.
    + constructor; [exact IH|].
      apply Forall_forall. intros z Hz.
      apply (Permutation_in _ (insert_perm x l)) in Hz.
      destruct Hz as [<- | Hz].
      * destruct (precedes_total x y) as [H | H]; congruence.
      * rewrite Forall_forall in Hy. apply Hy, Hz.
Qed.

Lemma sort_sorted (l : list A) :
  StronglySorted (fun x y => precedes x y = true) (Py.sort precedes l).
Proof.
  induction l as [|x l IH]; simpl.
  - constructor.
  - apply insert_sorted, IH.
Qed.

Lemma insert_stable (a x : A) (l : list A) :
  filter (tied a) (Py.insert precedes x l) = filter (tied a) (x :: l).
Proof.
  induction l as [|y l IH]; [reflexivity|].
  simpl Py.insert. destruct (precedes x y) eqn:E; [reflexivity|].
  simpl filter at 1. rewrite IH. simpl.
  destruct (tied a x) eqn:Hx; [|reflexivity].
  destruct (tied a y) eqn:Hy; [|reflexivity].
  unfold tied in Hx, Hy. apply andb_true_iff in Hx, Hy.
  destruct Hx as [_ Hx], Hy as [Hy _].
  rewrite (precedes_trans _ _ _ Hx Hy) in E. discriminate.
Qed.

Lemma sort_stable (a : A) (l : list A) :
  filter (tied a) (Py.sort precedes l) = filter (tied a) l.
Proof.
  induction l as [|x l IH]; [reflexivity|].
  simpl Py.sort. rewrite insert_stable. simpl. rewrite IH. reflexivity.
Qed.

Lemma sort_stable_sort_of (l : list A) :
  stable_sort_of l (Py.sort precedes l).
Proof.
  split; [apply sort_perm|]. split; [apply sort_sorted|].
  intros a. apply sort_stable.
Qed.

End StableSort.

Section StableSortUnique.

Context {A : Type} (precedes : A -> A -> bool).

Hypothesis precedes_total :
  forall x y, precedes x y = true \/ precedes y x = true.

Lemma tied_refl (x : A) : tied precedes x x = true.
Proof.
  unfold tied. destruct (precedes_total x x) as [H | H]; rewrite H; reflexivity.
Qed.

(** Sortedness and stability determine the sorted list: whatever
    stable sort runs, its result is that of [Py.sort]. *)
Lemma stable_sort_unique (l1 l2 : list A) :
  StronglySorted (fun x y => precedes x y = true) l1 ->
  StronglySorted (fun x y => precedes x y = true) l2 ->
  (forall a, filter (tied precedes a) l1 = filter (tied precedes a) l2) ->
  l1 = l2.
Proof.
  intros H1. revert l2. induction H1 as [|x l1 Hs1 IH Hx]; intros l2 H2 Hf.
  - destruct l2 as [|y l2]; [reflexivity|].
    specialize (Hf y). simpl in Hf. rewrite tied_refl in Hf. discriminate.
  - destruct H2 as [|y l2 Hs2 Hy].
    + specialize (Hf x). simpl in Hf. rewrite tied_refl in Hf. discriminate.
    + assert (Hxy : precedes x y = true).
      { pose proof (Hf y) as Hfy. simpl in Hfy. rewrite tied_refl in Hfy.
        destruct (tied precedes y x) eqn:E.
        - unfold tied in E. apply andb_true_iff in E. tauto.
        - assert (Hin : In y (filter (tied precedes y) l1))
            by (rewrite Hfy; left; reflexivity).
          apply filter_In in Hin. rewrite Forall_forall in Hx.
          apply Hx, Hin. }
      assert (Hyx : precedes y x = true).
      { pose proof (Hf x) as Hfx. simpl in Hfx. rewrite tied_refl in Hfx.
        destruct (tied precedes x y) eqn:E.
        - unfold tied in E. apply andb_true_iff in E. tauto.
        - assert (Hin : In x (filter (tied precedes x) l2))
            by (rewrite <- Hfx; left; reflexivity).
          apply filter_In in Hin. rewrite Forall_forall in Hy.
          apply Hy, Hin. }
      assert (Heq : x = y).
      { pose proof (Hf x) as Hfx. simpl in Hfx. rewrite tied_refl in Hfx.
        unfold tied in Hfx at 2. rewrite Hxy, Hyx in Hfx. simpl in Hfx.
        congruence. }
      subst y. f_equal. apply IH; [exact Hs2|].
      intros a. specialize (Hf a). simpl in Hf.
      destruct (tied precedes a x); congruence.
Qed.

End StableSortUnique.

(** ** The collection ranker *)

Section CollectionRanker.

(** The scorer of the processor.  What follows holds for every scorer:
    for [score_section] in exact arithmetic, and for what Python computes
    in floating point. *)
Variable scorer : Section -> string -> string -> Q.

Local Abbreviation scored_sections := (ProcessCollections.scored_sections scorer).
Local Abbreviation top_sections := (ProcessCollections.top_sections scorer).
Local Abbreviation process_documents :=
  (ProcessCollections.process_documents scorer).
Local Abbreviation process_collection :=
  (ProcessCollections.process_collection scorer).
Local Abbreviation main := (ProcessCollections.main scorer).

Definition by_score_desc (x y : Section * Q) : bool :=
  Qle_bool (snd y) (snd x).

Definition by_rank (x y : ExtractedSection) : bool :=
  (importance_rank x <=? importance_rank y)%nat.

Lemma by_score_desc_total (x y : Section * Q) :
  by_score_desc x y = true \/ by_score_desc y x = true.
Proof.
  unfold by_score_desc. rewrite !Qle_bool_iff.
  destruct (Qlt_le_dec (snd x) (snd y)) as [H | H]; [right | left]; auto.
  apply Qlt_le_weak, H.
Qed.

Lemma by_score_desc_trans (x y z : Section * Q) :
  by_score_desc x y = true -> by_score_desc y z = true ->
  by_score_desc x z = true.
Proof.
  unfold by_score_desc. rewrite !Qle_bool_iff. intros H1 H2.
  eapply Qle_trans; eassumption.
Qed.

Lemma by_rank_total (x y : ExtractedSection) :
  by_rank x y = true \/ by_rank y x = true.
Proof. unfold by_rank. rewrite !Nat.leb_le. lia. Qed.

Lemma by_rank_trans (x y z : ExtractedSection) :
  by_rank x y = true -> by_rank y z = true -> by_rank x z = true.
Proof. unfold by_rank. rewrite !Nat.leb_le. lia. Qed.

(** The scored sections of a document before the sort, in
    segmentation order. *)
Definition scored_unsorted (filename : string) (pages : Pages)
    (persona job : string) : list (Section * Q) :=
  map (fun section =>
         (with_document section filename,
          scorer (with_document section filename) persona job))
      (identify_sections pages).

(** The directory the run reads: [PDFs], or else [PDFS]. *)
Definition pdfs_dir_of (c : Collection) : option PdfDir :=
  match dir_PDFs c with
  | Some d => Some d
  | None => dir_PDFS c
  end.

(** The documents of the configuration whose file exists, in order,
    with their pages. *)
Definition found (pdfs_dir : PdfDir) (documents : list string)
    : list (string * Pages) :=
  flat_map (fun filename =>
              match pdfs_dir filename with
              | Some pages => [(filename, pages)]
              | None => []
              end) documents.

(** What one document appends to the two lists. *)
Definition document_entries (persona job : string) (d : string * Pages)
    : list ExtractedSection :=
  map (extracted_entry (fst d)) (top_sections (fst d) (snd d) persona job).

Definition document_subsections (persona job : string) (d : string * Pages)
    : list SubsectionAnalysis :=
  map (subsection_entry (fst d)) (top_sections (fst d) (snd d) persona job).

(** The log record of one document. *)
Definition document_record (pdfs_dir : PdfDir) (filename : string) : LogRecord :=
  match pdfs_dir filename with
  | Some _ => (INFO, ProcessingPdf filename)
  | None => (WARNING, PdfNotFound filename)
  end.

Lemma process_documents_run (pdfs_dir : PdfDir) (persona job : string)
    (documents : list string) (es : list ExtractedSection)
    (sa : list SubsectionAnalysis) (log : list LogRecord) :
  process_documents pdfs_dir persona job documents es sa log
  = (inr (es ++ flat_map (document_entries persona job) (found pdfs_dir documents),
          sa ++ flat_map (document_subsections persona job)
                         (found pdfs_dir documents)),
     log ++ map (document_record pdfs_dir) documents).
Proof.
  revert es sa log. induction documents as [|f documents IH]; intros es sa log.
  - simpl. unfold ret. rewrite !app_nil_r. reflexivity.
  - simpl. unfold document_record at 1.
    destruct (pdfs_dir f) as [pages|] eqn:E; unfold bind, logger; simpl.
    + rewrite IH, <- !app_assoc. reflexivity.
    + rewrite IH, <- !app_assoc. reflexivity.
Qed.

(** The output of a run that finds its input file and a directory. *)
Definition output_of (now : string) (cfg : InputConfig) (pdfs_dir : PdfDir)
    : Output :=
  mkOutput
    (mkMetadata (documents cfg) (persona cfg) (job cfg) now)
    (Py.sort by_rank
       (flat_map (document_entries (persona cfg) (job cfg))
                 (found pdfs_dir (documents cfg))))
    (flat_map (document_subsections (persona cfg) (job cfg))
              (found pdfs_dir (documents cfg))).

Lemma process_collection_run (now : string) (c : Collection)
    (cfg : InputConfig) (pdfs_dir : PdfDir) (log : list LogRecord) :
  input_file c = Some cfg -> pdfs_dir_of c = Some pdfs_dir ->
  process_collection now c log
  = (inr (output_of now cfg pdfs_dir),
     log ++ (INFO, ProcessingCollection)
         :: map (document_record pdfs_dir) (documents cfg)).
Proof.
  intros Hc Hd. unfold process_collection, bind, logger. rewrite Hc.
  unfold ret at 1. unfold pdfs_dir_of in Hd.
  assert (Hdir : match dir_PDFs c with
                 | Some d => ret d
                 | None => match dir_PDFS c with
                           | Some d => ret d
                           | None => raise PdfsDirectoryNotFound
                           end
                 end (log ++ [(INFO, ProcessingCollection)])
                 = (inr pdfs_dir, log ++ [(INFO, ProcessingCollection)])).
  { destruct (dir_PDFs c); [injection Hd as ->; reflexivity|].
    rewrite Hd. reflexivity. }
  rewrite Hdir, process_documents_run. unfold ret, output_of. simpl.
  rewrite <- app_assoc. reflexivity.
Qed.

Lemma process_collection_no_input (now : string) (c : Collection)
    (log : list LogRecord) :
  input_file c = None ->
  process_collection now c log
  = (inl InputFileNotFound, log ++ [(INFO, ProcessingCollection)]).
Proof.
  intros Hc. unfold process_collection, bind, logger. rewrite Hc. reflexivity.
Qed.

Lemma process_collection_no_directory (now : string) (c : Collection)
    (cfg : InputConfig) (log : list LogRecord) :
  input_file c = Some cfg -> pdfs_dir_of c = None ->
  process_collection now c log
  = (inl PdfsDirectoryNotFound, log ++ [(INFO, ProcessingCollection)]).
Proof.
  intros Hc Hd. unfold process_collection, bind, logger. rewrite Hc.
  unfold ret at 1. unfold pdfs_dir_of in Hd.
  destruct (dir_PDFs c); [discriminate|]. rewrite Hd. reflexivity.
Qed.


Lemma enumerate_from_nth {A : Type} (l : list A) (k i : nat) :
  nth_error (Py.enumerate_from k l) i
  = option_map (fun x => ((k + i)%nat, x)) (nth_error l i).
Proof.
  revert k i. induction l as [|x l IH]; intros k i.
  - destruct i; reflexivity.
  - destruct i as [|i]; simpl.
    + rewrite Nat.add_0_r. reflexivity.
    + rewrite IH. replace (S k + i)%nat with (k + S i)%nat by lia. reflexivity.
Qed.

Lemma enumerate_from_length {A : Type} (l : list A) (k : nat) :
  List.length (Py.enumerate_from k l) = List.length l.
Proof.
  revert k. induction l as [|x l IH]; intros k; simpl; [|rewrite IH]; reflexivity.
Qed.

Lemma firstn_nth {A : Type} (n : nat) (l : list A) (i : nat) (x : A) :
  nth_error (firstn n l) i = Some x -> (i < n)%nat /\ nth_error l i = Some x.
Proof.
  revert l i. induction n as [|n IH]; intros l i H.
  - destruct i; discriminate.
  - destruct l as [|y l]; [destruct i; discriminate|].
    destruct i as [|i]; simpl in *.
    + split; [lia | exact H].
    + apply IH in H. split; [lia | tauto].
Qed.

(** The entries of one document: at most three, the [i]-th one (from
    0) being that of the [i]-th section of the sorted list, with rank
    [i + 1]. *)
Lemma document_entries_spec (persona job : string) (d : string * Pages) :
  List.length (document_entries persona job d)
  = Nat.min 3 (List.length (scored_sections (fst d) (snd d) persona job))
  /\ forall i e,
       nth_error (document_entries persona job d) i = Some e ->
       (i < 3)%nat
       /\ exists s q,
            nth_error (scored_sections (fst d) (snd d) persona job) i
            = Some (s, q)
            /\ e = mkExtracted (fst d) (title s) (i + 1) (page_number s).
Proof.
  unfold document_entries, top_sections, Py.enumerate. split.
  - rewrite length_map, enumerate_from_length, length_firstn. reflexivity.
  - intros i e H. rewrite nth_error_map, enumerate_from_nth in H.
    destruct (nth_error (firstn 3 _) i) as [[s q]|] eqn:E; [|discriminate].
    apply firstn_nth in E. destruct E as [Hi E].
    split; [exact Hi|]. exists s, q. split; [exact E|].
    simpl in H. injection H as <-. reflexivity.
Qed.

Lemma scored_sections_sorted (filename : string) (pages : Pages)
    (persona job : string) :
  stable_sort_of by_score_desc
    (scored_unsorted filename pages persona job)
    (scored_sections filename pages persona job).
Proof.
  unfold ProcessCollections.scored_sections, scored_unsorted.
  apply (sort_stable_sort_of by_score_desc
           by_score_desc_total by_score_desc_trans).
Qed.

(** C6.  A run that finds its input file and a directory returns an
    output in which every document found has at most 3 entries, the
    [i]-th (from 0) with rank [i + 1] and the title and page of the
    [i]-th of its sections in descending order of score, sections of
    equal score in segmentation order; [extracted_sections] is the
    concatenation of these entries in document order, sorted by rank,
    entries of equal rank in that order. *)
Theorem extracted_sections_ranked (now : string) (c : Collection)
    (cfg : InputConfig) (pdfs_dir : PdfDir) :
  input_file c = Some cfg -> pdfs_dir_of c = Some pdfs_dir ->
  exists out log,
    process_collection now c [] = (inr out, log)
    /\ (forall d, In d (found pdfs_dir (documents cfg)) ->
          let sorted :=
            scored_sections (fst d) (snd d) (persona cfg) (job cfg) in
          let entries := document_entries (persona cfg) (job cfg) d in
          stable_sort_of by_score_desc
            (scored_unsorted (fst d) (snd d) (persona cfg) (job cfg)) sorted
          /\ (List.length entries <= 3)%nat
          /\ List.length entries = Nat.min 3 (List.length sorted)
          /\ forall i e,
               nth_error entries i = Some e ->
               exists s q,
                 nth_error sorted i = Some (s, q)
                 /\ e = mkExtracted (fst d) (title s) (i + 1) (page_number s))
    /\ stable_sort_of by_rank
         (List.concat (map (document_entries (persona cfg) (job cfg))
                           (found pdfs_dir (documents cfg))))
         (extracted_sections out).
Proof.
  intros Hc Hd. eexists. eexists.
  split; [apply (process_collection_run now c cfg pdfs_dir [] Hc Hd)|].
  split.
  - intros d _. simpl.
    destruct (document_entries_spec (persona cfg) (job cfg) d) as [Hlen Hnth].
    split; [apply scored_sections_sorted|].
    split; [rewrite Hlen; apply Nat.le_min_l|].
    split; [exact Hlen|].
    intros i e H. apply Hnth in H. tauto.
  - simpl. rewrite <- flat_map_concat_map. apply sort_stable_sort_of.
    + apply by_rank_total.
    + apply by_rank_trans.
Qed.




(** The sections the loop retains, in the order it emits them: for
    every document found, its top sections with their positions. *)
Definition emitted (persona job : string) (docs : list (string * Pages))
    : list (string * (nat * (Section * Q))) :=
  flat_map (fun d => map (pair (fst d))
                         (top_sections (fst d) (snd d) persona job)) docs.

Lemma document_entries_emitted (persona job : string)
    (docs : list (string * Pages)) :
  flat_map (document_entries persona job) docs
  = map (fun x => extracted_entry (fst x) (snd x)) (emitted persona job docs).
Proof.
  unfold emitted. induction docs as [|d docs IH]; simpl.
  - reflexivity.
  - rewrite map_app, map_map, IH. reflexivity.
Qed.

Lemma document_subsections_emitted (persona job : string)
    (docs : list (string * Pages)) :
  flat_map (document_subsections persona job) docs
  = map (fun x => subsection_entry (fst x) (snd x)) (emitted persona job docs).
Proof.
  unfold emitted. induction docs as [|d docs IH]; simpl.
  - reflexivity.
  - rewrite map_app, map_map, IH. reflexivity.
Qed.

Lemma process_collection_returns (now : string) (c : Collection)
    (log log' : list LogRecord) (out : Output) :
  process_collection now c log = (inr out, log') ->
  exists cfg pdfs_dir,
    input_file c = Some cfg /\ pdfs_dir_of c = Some pdfs_dir
    /\ out = output_of now cfg pdfs_dir.
Proof.
  intros H. destruct (input_file c) as [cfg|] eqn:Hc.
  - destruct (pdfs_dir_of c) as [pdfs_dir|] eqn:Hd.
    + rewrite (process_collection_run now c cfg pdfs_dir log Hc Hd) in H.
      injection H as <- _. exists cfg, pdfs_dir. auto.
    + rewrite (process_collection_no_directory now c cfg log Hc Hd) in H.
      discriminate.
  - rewrite (process_collection_no_input now c log Hc) in H. discriminate.
Qed.



(** In every output the two lists have the same length:
    [subsection_analysis] holds, in emission order, one entry for every
    retained section, and [extracted_sections] holds the entries of the
    same sections sorted by rank. *)
Lemma subsection_analysis_emitted (now : string) (c : Collection)
    (log log' : list LogRecord) (out : Output) :
  process_collection now c log = (inr out, log') ->
  List.length (subsection_analysis out) = List.length (extracted_sections out)
  /\ exists cfg pdfs_dir,
       input_file c = Some cfg /\ pdfs_dir_of c = Some pdfs_dir
       /\ let retained :=
            emitted (persona cfg) (job cfg) (found pdfs_dir (documents cfg)) in
          subsection_analysis out
          = map (fun x => subsection_entry (fst x) (snd x)) retained
          /\ stable_sort_of by_rank
               (map (fun x => extracted_entry (fst x) (snd x)) retained)
               (extracted_sections out).
Proof.
  intros H. apply process_collection_returns in H.
  destruct H as (cfg & pdfs_dir & Hc & Hd & ->).
  assert (Hs : stable_sort_of by_rank
                 (map (fun x => extracted_entry (fst x) (snd x))
                      (emitted (persona cfg) (job cfg)
                               (found pdfs_dir (documents cfg))))
                 (extracted_sections (output_of now cfg pdfs_dir))).
  { simpl. rewrite document_entries_emitted. apply sort_stable_sort_of.
    - apply by_rank_total.
    - apply by_rank_trans. }
  split.
  - destruct Hs as [Hp _]. rewrite (Permutation_length Hp). simpl.
    rewrite document_subsections_emitted, !length_map. reflexivity.
  - exists cfg, pdfs_dir. split; [exact Hc|]. split; [exact Hd|]. simpl.
    split; [apply document_subsections_emitted | exact Hs].
Qed.

Definition exists_in (pdfs_dir : PdfDir) (filename : string) : bool :=
  match pdfs_dir filename with
  | Some _ => true
  | None => false
  end.

Lemma found_filter (pdfs_dir : PdfDir) (documents : list string) :
  found pdfs_dir (filter (exists_in pdfs_dir) documents)
  = found pdfs_dir documents.
Proof.
  unfold found, exists_in. induction documents as [|f documents IH]; simpl.
  - reflexivity.
  - destruct (pdfs_dir f) as [pages|] eqn:E; simpl.
    + rewrite E, IH. reflexivity.
    + exact IH.
Qed.

Lemma found_In (pdfs_dir : PdfDir) (documents : list string)
    (f : string) (pages : Pages) :
  In f documents -> pdfs_dir f = Some pages ->
  In (f, pages) (found pdfs_dir documents).
Proof.
  intros Hin Hf. unfold found. apply in_flat_map. exists f.
  split; [exact Hin|]. rewrite Hf. left. reflexivity.
Qed.

Lemma main_run (now : string) (fs : string -> option Collection)
    (prog name : string) (rest : list string) (c : Collection)
    (cfg : InputConfig) (pdfs_dir : PdfDir) :
  fs name = Some c ->
  input_file c = Some cfg -> pdfs_dir_of c = Some pdfs_dir ->
  main now fs (prog :: name :: rest)
  = mkRun 0
      ((INFO, ProcessingCollection)
         :: map (document_record pdfs_dir) (documents cfg)
         ++ [(INFO, OutputSaved)])
      (Some (output_of now cfg pdfs_dir)).
Proof.
  intros Hfs Hc Hd. unfold main. rewrite Hfs. unfold bind at 1.
  rewrite (process_collection_run now c cfg pdfs_dir [] Hc Hd).
  reflexivity.
Qed.

(** C9.  Let the collection path exist.  When the input file and a
    directory [PDFs] or [PDFS] are found, the run ends with status 0
    and writes an output: every document without file leaves a warning
    in the log and nothing else, every document with a file is processed
    and its entries are in the output, which has the sections of the run
    without the missing documents.  When the input file is missing, or
    both directories are, the run logs an error, writes no output and
    ends with status 1. *)
Theorem main_missing_files (now : string) (fs : string -> option Collection)
    (prog name : string) (rest : list string) (c : Collection) :
  fs name = Some c ->
  let run := main now fs (prog :: name :: rest) in
  (forall cfg pdfs_dir,
      input_file c = Some cfg -> pdfs_dir_of c = Some pdfs_dir ->
      let out := output_of now cfg pdfs_dir in
      exit_status run = 0%Z
      /\ output_file run = Some out
      /\ (forall f, In f (documents cfg) -> pdfs_dir f = None ->
            In (WARNING, PdfNotFound f) (log_records run))
      /\ (forall f pages, In f (documents cfg) -> pdfs_dir f = Some pages ->
            In (INFO, ProcessingPdf f) (log_records run)
            /\ incl (document_entries (persona cfg) (job cfg) (f, pages))
                    (extracted_sections out)
            /\ incl (document_subsections (persona cfg) (job cfg) (f, pages))
                    (subsection_analysis out))
      /\ let present :=
           mkInputConfig (filter (exists_in pdfs_dir) (documents cfg))
                         (persona cfg) (job cfg) in
         extracted_sections out
         = extracted_sections (output_of now present pdfs_dir)
         /\ subsection_analysis out
            = subsection_analysis (output_of now present pdfs_dir))
  /\ (input_file c = None ->
      run = mkRun 1 [ (INFO, ProcessingCollection);
                      (ERROR, ErrorProcessingCollection InputFileNotFound) ]
                  None)
  /\ (forall cfg,
        input_file c = Some cfg -> dir_PDFs c = None -> dir_PDFS c = None ->
        run = mkRun 1 [ (INFO, ProcessingCollection);
                        (ERROR, ErrorProcessingCollection PdfsDirectoryNotFound) ]
                    None).
Proof.
  intros Hfs run. split; [|split].
  - intros cfg pdfs_dir Hc Hd out. unfold run.
    rewrite (main_run now fs prog name rest c cfg pdfs_dir Hfs Hc Hd). simpl.
    split; [reflexivity|]. split; [reflexivity|]. split; [|split].
    + intros f Hin Hf. right. apply in_or_app. left.
      apply in_map_iff. exists f. split; [|exact Hin].
      unfold document_record. rewrite Hf. reflexivity.
    + intros f pages Hin Hf. split; [|split].
      * right. apply in_or_app. left.
        apply in_map_iff. exists f. split; [|exact Hin].
        unfold document_record. rewrite Hf. reflexivity.
      * intros e He.
        apply (Permutation_in _ (Permutation_sym (sort_perm by_rank _))).
        apply in_flat_map. exists (f, pages).
        split; [apply found_In; assumption | exact He].
      * intros e He. apply in_flat_map. exists (f, pages).
        split; [apply found_In; assumption | exact He].
    + rewrite found_filter. split; reflexivity.
  - intros Hc. unfold run, main. rewrite Hfs. unfold bind at 1.
    rewrite (process_collection_no_input now c [] Hc). reflexivity.
  - intros cfg Hc H1 H2. unfold run, main. rewrite Hfs. unfold bind at 1.
    rewrite (process_collection_no_directory now c cfg [] Hc).
    + reflexivity.
    + unfold pdfs_dir_of. rewrite H1. exact H2.
Qed.


End CollectionRanker.

(** ** A run *)

Section Run.

(** A collection of three documents, the second of which is missing. *)
Definition recipes : PdfDir :=
  fun filename =>
    if String.eqb filename "a.pdf" then
      Some [ (1%Z, ("Falafel" ++ nl ++ "mix the chickpeas" ++ nl
                    ++ "Random Notes" ++ nl ++ "some words" ++ nl
                    ++ "Baba Ganoush" ++ nl ++ "roast the aubergine" ++ nl
                    ++ "Storage" ++ nl ++ "keep it cool")%string) ]
    else if String.eqb filename "b.pdf" then
      Some [ (1%Z, ("Ratatouille" ++ nl ++ "slice the vegetable")%string) ]
    else None.

Definition buffet : InputConfig :=
  mkInputConfig ["a.pdf"; "missing.pdf"; "b.pdf"]
                "Food Contractor" "Prepare Vegetarian Buffet".

Definition collection_1 : Collection :=
  mkCollection (Some buffet) None (Some recipes).

Definition timestamp : string := "2025-01-01T00:00:00".

Lemma extracted_sections_ranked_witness :
  exists out log,
    process_collection score_section timestamp collection_1 [] = (inr out, log)
    /\ map (fun e => (es_document e, section_title e, importance_rank e))
           (extracted_sections out)
       = [ ("a.pdf", "Falafel", 1%nat); ("b.pdf", "Ratatouille", 1%nat);
           ("a.pdf", "Baba Ganoush", 2%nat); ("a.pdf", "Storage", 3%nat) ].
Proof.
  destruct (extracted_sections_ranked score_section timestamp collection_1
              buffet recipes eq_refl eq_refl) as (out & log & Hrun & _).
  exists out, log. split; [exact Hrun|].
  vm_compute in Hrun. injection Hrun as <- _. vm_compute. reflexivity.
Defined.

(** C10.  In every output, whatever the scorer, the two lists have the
    same length: [subsection_analysis] holds, in emission order, one
    entry for every retained section, and [extracted_sections] holds the
    entries of the same sections sorted by rank.  In the output of
    [collection_1] the entries at index 1 are of different documents. *)
Theorem subsection_analysis_unsorted :
  (forall scorer now c log log' out,
      process_collection scorer now c log = (inr out, log') ->
      List.length (subsection_analysis out)
      = List.length (extracted_sections out)
      /\ exists cfg pdfs_dir,
           input_file c = Some cfg /\ pdfs_dir_of c = Some pdfs_dir
           /\ let retained :=
                emitted scorer (persona cfg) (job cfg)
                        (found pdfs_dir (documents cfg)) in
              subsection_analysis out
              = map (fun x => subsection_entry (fst x) (snd x)) retained
              /\ stable_sort_of by_rank
                   (map (fun x => extracted_entry (fst x) (snd x)) retained)
                   (extracted_sections out))
  /\ (exists out log,
        process_collection score_section timestamp collection_1 []
        = (inr out, log)
        /\ map es_document (extracted_sections out)
           = ["a.pdf"; "b.pdf"; "a.pdf"; "a.pdf"]
        /\ map sa_document (subsection_analysis out)
           = ["a.pdf"; "a.pdf"; "a.pdf"; "b.pdf"]
        /\ option_map es_document (nth_error (extracted_sections out) 1)
           <> option_map sa_document (nth_error (subsection_analysis out) 1)).
Proof.
  split.
  - intros scorer now c log log' out. apply subsection_analysis_emitted.
  - eexists. eexists.
    split; [apply (process_collection_run score_section timestamp
                     collection_1 buffet recipes []); reflexivity|].
    split; [vm_compute; reflexivity|].
    split; [vm_compute; reflexivity|].
    vm_compute. discriminate.
Qed.

Lemma subsection_analysis_unsorted_witness :
  exists out log,
    process_collection score_section timestamp collection_1 [] = (inr out, log)
    /\ List.length (subsection_analysis out) = 4%nat
    /\ List.length (extracted_sections out) = 4%nat.
Proof.
  pose proof (process_collection_run score_section timestamp collection_1
                buffet recipes [] eq_refl eq_refl) as Hrun.
  eexists. eexists. split; [exact Hrun|].
  destruct (proj1 subsection_analysis_unsorted _ _ _ _ _ _ Hrun) as [Hlen _].
  split; [vm_compute; reflexivity|].
  rewrite <- Hlen. vm_compute. reflexivity.
Defined.

Definition collections (name : string) : option Collection :=
  if String.eqb name "Collection 1" then Some collection_1 else None.

Lemma main_missing_files_witness :
  let run := main score_section timestamp collections
               ["process_collections_final.py"; "Collection 1"] in
  exit_status run = 0%Z
  /\ In (WARNING, PdfNotFound "missing.pdf") (log_records run)
  /\ In (INFO, ProcessingPdf "b.pdf") (log_records run).
Proof.
  intros run.
  destruct (main_missing_files score_section timestamp collections
              "process_collections_final.py" "Collection 1" []
              collection_1 eq_refl) as [H _].
  destruct (H buffet recipes eq_refl eq_refl) as (Hs & _ & Hw & Hp & _).
  split; [exact Hs|]. split.
  - apply Hw; [simpl; auto | reflexivity].
  - assert (Hin : In "b.pdf" (documents buffet)) by (simpl; auto).
    destruct (Hp "b.pdf" _ Hin eq_refl) as [Hb _]. exact Hb.
Defined.

End Run.

(** ** The refined text *)

Section RefinedText.

Lemma lstrip_length (s : string) : (Py.len (Py.lstrip s) <= Py.len s)%nat.
Proof.
  unfold Py.len. induction s as [|c s IH]; simpl.
  - lia.
  - destruct (Py.isspace c); simpl; lia.
Qed.

Lemma rstrip_length (s : string) : (Py.len (Py.rstrip s) <= Py.len s)%nat.
Proof.
  unfold Py.len. induction s as [|c s IH]; simpl.
  - lia.
  - destruct (Py.rstrip s); simpl in *.
    + destruct (Py.isspace c); simpl; lia.
    + lia.
Qed.

Lemma strip_length (s : string) : (Py.len (Py.strip s) <= Py.len s)%nat.
Proof.
  unfold Py.strip. etransitivity; [apply lstrip_length | apply rstrip_length].
Qed.

Lemma take_length (n : nat) (s : string) : (Py.len (Py.take n s) <= n)%nat.
Proof.
  unfold Py.len. revert s. induction n as [|n IH]; intros s; simpl.
  - lia.
  - destruct s as [|c s]; simpl; [lia|]. specialize (IH s). lia.
Qed.

(** *** Texts without blanks at their ends *)

(** The text is not empty and starts (ends) with a character that is not
    whitespace. *)
Definition starts_ok (s : string) : bool :=
  match s with
  | EmptyString => false
  | String c _ => negb (Py.isspace c)
  end.

Fixpoint ends_ok (s : string) : bool :=
  match s with
  | EmptyString => false
  | String c s' =>
      match s' with
      | EmptyString => negb (Py.isspace c)
      | String _ _ => ends_ok s'
      end
  end.

Definition tidy (s : string) : Prop := starts_ok s = true /\ ends_ok s = true.

Lemma lstrip_fixed (s : string) : starts_ok s = true -> Py.lstrip s = s.
Proof.
  destruct s as [|c s]; simpl; [discriminate|].
  intros H. apply negb_true_iff in H. rewrite H. reflexivity.
Qed.

Lemma rstrip_fixed (s : string) : ends_ok s = true -> Py.rstrip s = s.
Proof.
  induction s as [|c s IH]; [discriminate|].
  destruct s as [|c' s].
  - simpl. intros H. apply negb_true_iff in H. rewrite H. reflexivity.
  - intros H. change (ends_ok (String c' s) = true) in H.
    change (Py.rstrip (String c (String c' s)))
      with (match Py.rstrip (String c' s) with
            | EmptyString =>
                if Py.isspace c then EmptyString else String c EmptyString
            | String a r => String c (String a r)
            end).
    rewrite (IH H). reflexivity.
Qed.

Lemma strip_fixed (s : string) : tidy s -> Py.strip s = s.
Proof.
  intros [Hs He]. unfold Py.strip.
  rewrite (rstrip_fixed _ He). apply lstrip_fixed, Hs.
Qed.

Lemma lstrip_starts (s : string) :
  Py.lstrip s <> "" -> starts_ok (Py.lstrip s) = true.
Proof.
  induction s as [|c s IH]; simpl.
  - intros H. contradiction.
  - destruct (Py.isspace c) eqn:E; [exact IH|].
    intros _. simpl. rewrite E. reflexivity.
Qed.

Lemma ends_ok_cons (c : ascii) (s : string) :
  s <> "" -> ends_ok (String c s) = ends_ok s.
Proof. destruct s; [contradiction | reflexivity]. Qed.

Lemma rstrip_ends (s : string) :
  Py.rstrip s <> "" -> ends_ok (Py.rstrip s) = true.
Proof.
  induction s as [|c s IH]; simpl.
  - intros H. contradiction.
  - destruct (Py.rstrip s) as [|a r].
    + destruct (Py.isspace c) eqn:E; [intros H; contradiction|].
      intros _. simpl. rewrite E. reflexivity.
    + intros _. rewrite ends_ok_cons by discriminate.
      apply IH. discriminate.
Qed.

Lemma lstrip_ends (s : string) :
  Py.lstrip s <> "" -> ends_ok (Py.lstrip s) = ends_ok s.
Proof.
  induction s as [|c s IH]; [reflexivity|].
  cbn [Py.lstrip]. destruct (Py.isspace c); [|reflexivity].
  intros H. rewrite (IH H). symmetry. apply ends_ok_cons.
  intros ->. apply H. reflexivity.
Qed.

(** What [strip] returns is empty or tidy. *)
Lemma strip_tidy (s : string) : Py.strip s <> "" -> tidy (Py.strip s).
Proof.
  unfold Py.strip. intros H. split.
  - apply lstrip_starts, H.
  - rewrite (lstrip_ends _ H). apply rstrip_ends.
    intros E. rewrite E in H. apply H. reflexivity.
Qed.

Lemma starts_ok_app (a b : string) :
  starts_ok a = true -> starts_ok (a ++ b) = true.
Proof. destruct a; [discriminate | exact (fun H => H)]. Qed.

Lemma ends_ok_not_empty (s : string) : ends_ok s = true -> s <> "".
Proof. destruct s; [discriminate | discriminate]. Qed.

Lemma ends_ok_app (a b : string) :
  ends_ok b = true -> ends_ok (a ++ b) = true.
Proof.
  intros H. induction a as [|c a IH]; simpl; [exact H|].
  change (ends_ok (String c (a ++ b)) = true).
  rewrite ends_ok_cons; [exact IH | apply ends_ok_not_empty, IH].
Qed.

Lemma join_tidy (ls : list string) :
  ls <> [] -> Forall tidy ls -> tidy (Py.join " " ls).
Proof.
  intros Hne H. induction H as [|l ls [Hs He] Hls IH]; [contradiction|].
  destruct ls as [|l' ls].
  - split; assumption.
  - change (Py.join " " (l :: l' :: ls))
      with (l ++ " " ++ Py.join " " (l' :: ls))%string.
    destruct IH as [_ IHe]; [discriminate|]. split.
    + apply starts_ok_app, Hs.
    + apply ends_ok_app, ends_ok_app, IHe.
Qed.

Lemma sub_ws_from_ends (s : string) (in_run : bool) :
  ends_ok s = true -> ends_ok (Py.sub_ws_from in_run s) = true.
Proof.
  revert in_run. induction s as [|c s IH]; intros in_run; [discriminate|].
  destruct s as [|c' s].
  - simpl. intros H. apply negb_true_iff in H. rewrite H. simpl.
    rewrite H. reflexivity.
  - intros H. change (ends_ok (String c' s) = true) in H.
    change (Py.sub_ws_from in_run (String c (String c' s)))
      with (if Py.isspace c
            then if in_run then Py.sub_ws_from true (String c' s)
                 else String " " (Py.sub_ws_from true (String c' s))
            else String c (Py.sub_ws_from false (String c' s))).
    destruct (Py.isspace c); [destruct in_run|].
    + apply IH, H.
    + rewrite ends_ok_cons; [apply IH, H|].
      apply ends_ok_not_empty, IH, H.
    + rewrite ends_ok_cons; [apply IH, H|].
      apply ends_ok_not_empty, IH, H.
Qed.

Lemma sub_ws_tidy (s : string) : tidy s -> tidy (Py.sub_ws s).
Proof.
  intros [Hs He]. split.
  - destruct s as [|c s]; [discriminate|]. simpl in Hs.
    unfold Py.sub_ws. simpl. apply negb_true_iff in Hs. rewrite Hs.
    simpl. rewrite Hs. reflexivity.
  - apply sub_ws_from_ends, He.
Qed.

Lemma significant_tidy (lines : list (nat * string)) :
  Forall (fun l => tidy (snd l)) (significant lines).
Proof.
  apply Forall_forall. intros l Hl. unfold significant in Hl.
  apply filter_In in Hl. destruct Hl as [Hin Hne].
  apply in_map_iff in Hin. destruct Hin as [[i raw] [<- _]]. simpl in *.
  apply strip_tidy. intros E. rewrite E in Hne. discriminate.
Qed.

(** The content lines of a section are tidy. *)
Lemma section_content_tidy (pages : Pages) (s : Section) :
  In s (identify_sections pages) -> Forall tidy (content s).
Proof.
  intros H. apply identify_sections_In in H.
  destruct H as (page_num & text & _ & pre & i & h & body & rest
                 & Hl & _ & _ & _ & ->).
  simpl. apply Forall_map.
  pose proof (significant_tidy (Py.enumerate (Py.split "010" text))) as Ht.
  fold (page_lines text) in Ht. rewrite Hl in Ht.
  apply Forall_app in Ht. destruct Ht as [_ Ht].
  apply Forall_cons_iff in Ht. destruct Ht as [_ Ht].
  apply Forall_app in Ht. tauto.
Qed.

(** A text without the separator is its only part; any other text has
    at least two parts. *)
Lemma split_parts (sep : ascii) (s : string) :
  (Py.count sep s = 0%nat /\ Py.split sep s = [s])
  \/ ((0 < Py.count sep s)%nat
      /\ exists s0 s1 rest, Py.split sep s = s0 :: s1 :: rest).
Proof.
  induction s as [|c s IH]; simpl.
  - left. auto.
  - destruct (Ascii.eqb c sep) eqn:E.
    + right. split; [lia|].
      destruct IH as [[_ ->] | [_ (s0 & s1 & rest & ->)]]; eauto.
    + destruct IH as [[H0 ->] | [Hc (s0 & s1 & rest & ->)]].
      * left. auto.
      * right. split; [simpl; lia|]. eauto.
Qed.

(** The text before the length test. *)
Definition collapsed (content_lines : list string) : string :=
  Py.sub_ws (Py.join " " content_lines).

Lemma refined_text_unfold (content_lines : list string) :
  _extract_refined_text content_lines
  = Py.strip
      (if (500 <? Py.len (collapsed content_lines))%nat then
         if (1 <? List.length (Py.split "." (collapsed content_lines)))%nat
         then (Py.join ". " (firstn 2 (Py.split "." (collapsed content_lines)))
               ++ ".")%string
         else Py.take 500 (collapsed content_lines)
       else collapsed content_lines).
Proof.
  destruct content_lines as [|l ls]; reflexivity.
Qed.

(** Two contents of one line.  [long_content]: 600 times the letter a, a
    full stop and a second sentence.  [cut_content]: 499 times the letter
    a, a space and a last word, with no full stop: 501 characters whose
    500th is the space. *)
Fixpoint letters (n : nat) : string :=
  match n with
  | O => ""
  | S n' => String "a" (letters n')
  end.

Definition long_content : list string := [ (letters 600 ++ ". b")%string ].

Definition cut_content : list string := [ (letters 499 ++ " b")%string ].

(** Joined and collapsed, tidy lines give a text that [strip] leaves as
    it is. *)
Lemma collapsed_tidy (content_lines : list string) :
  Forall tidy content_lines ->
  Py.strip (collapsed content_lines) = collapsed content_lines.
Proof.
  intros H. destruct content_lines as [|l ls]; [reflexivity|].
  apply strip_fixed, sub_ws_tidy, join_tidy; [discriminate | exact H].
Qed.

(** [text[:n]] of a text of at least [n] characters is its prefix of
    exactly [n] characters. *)
Lemma take_prefix (n : nat) (s : string) :
  (n <= Py.len s)%nat ->
  Py.len (Py.take n s) = n
  /\ exists rest, s = (Py.take n s ++ rest)%string.
Proof.
  unfold Py.len. revert s. induction n as [|n IH]; intros s Hn.
  - split; [reflexivity|]. exists s. reflexivity.
  - destruct s as [|c s]; simpl in Hn; [lia|].
    destruct (IH s) as [Hlen [rest Hrest]]; [lia|].
    split.
    + simpl. rewrite Hlen. reflexivity.
    + exists rest. simpl. rewrite <- Hrest. reflexivity.
Qed.

(** A prefix of given length is unique. *)
Lemma prefix_unique (p q r r' : string) :
  (p ++ r)%string = (q ++ r')%string ->
  String.length p = String.length q -> p = q.
Proof.
  revert q. induction p as [|c p IH]; intros [|d q] H Hlen;
    simpl in Hlen; try discriminate; [reflexivity|].
  simpl in H. injection H as -> H. f_equal. apply (IH q H). lia.
Qed.

(** The refined text in the words of the specification: the joined and
    collapsed content, replaced when longer than 500 characters by its
    first two sentences or else by its first 500 characters.  Nothing is
    stripped. *)
Definition refined_text_spec (content_lines : list string) : string :=
  let text := collapsed content_lines in
  if (500 <? Py.len text)%nat then
    let sentences := Py.split "." text in
    if (1 <? List.length sentences)%nat
    then (Py.join ". " (firstn 2 sentences) ++ ".")%string
    else Py.take 500 text
  else text.

(** C8, as the specification has it, fails on [cut_content].  Its one
    line is tidy, as the content lines of a section are; joined and
    collapsed it has 501 characters and no full stop, so the
    specification asks for its first 500 characters.  The code strips
    that prefix, whose last character is a space, and returns the 499
    letters. *)
Lemma refined_text_shorter_than_truncation :
  Forall tidy cut_content
  /\ Py.len (collapsed cut_content) = 501%nat
  /\ Py.split "." (collapsed cut_content) = [collapsed cut_content]
  /\ refined_text_spec cut_content = (letters 499 ++ " ")%string
  /\ Py.len (refined_text_spec cut_content) = 500%nat
  /\ _extract_refined_text cut_content = letters 499
  /\ Py.len (_extract_refined_text cut_content) = 499%nat
  /\ _extract_refined_text cut_content <> refined_text_spec cut_content.
Proof.
  split; [|split; [|split; [|split; [|split; [|split; [|split]]]]]].
  - constructor; [|constructor]. split; vm_compute; reflexivity.
  - vm_compute. reflexivity.
  - vm_compute. reflexivity.
  - vm_compute. reflexivity.
  - vm_compute. reflexivity.
  - vm_compute. reflexivity.
  - vm_compute. reflexivity.
  - intros E. apply (f_equal Py.len) in E. vm_compute in E. discriminate E.
Qed.

(** C8, as the code has it.  The refined text is the stripped form of:
    the joined and collapsed content when that has at most 500
    characters; else, when the content has a ['.'], its first two
    ['.']-separated parts joined by ". " and closed by "."; else its
    prefix of exactly 500 characters.  It has at most 500 characters in
    the first and in the last case, where stripping the prefix can leave
    fewer than 500 ([cut_content] gives 499, a line of 600 letters gives
    500), and may have more in the second ([long_content] gives 605).  On
    tidy lines, as the content lines of a section are, the joined and
    collapsed content is its own stripped form, so the refined text of at
    most 500 characters is that content; the two truncations are stripped
    all the same. *)
Theorem refined_text_stripped_cases (content_lines : list string) :
  let text := collapsed content_lines in
  let refined := _extract_refined_text content_lines in
  ((Py.len text <= 500)%nat ->
     refined = Py.strip text
     /\ (Py.len refined <= 500)%nat
     /\ (Forall tidy content_lines -> refined = text))
  /\ ((500 < Py.len text)%nat ->
        (Py.split "." text = [text]
         /\ (exists prefix rest,
               text = (prefix ++ rest)%string
               /\ Py.len prefix = 500%nat
               /\ refined = Py.strip prefix)
         /\ (Py.len refined <= 500)%nat)
        \/ (exists s0 s1 rest,
              Py.split "." text = s0 :: s1 :: rest
              /\ refined = Py.strip (s0 ++ ". " ++ s1 ++ ".")))
  /\ (Forall tidy content_lines -> Py.strip text = text)
  /\ ((500 < Py.len (collapsed long_content))%nat
      /\ Py.len (_extract_refined_text long_content) = 605%nat)
  /\ ((500 < Py.len (collapsed cut_content))%nat
      /\ _extract_refined_text cut_content = letters 499)
  /\ _extract_refined_text [letters 600] = letters 500.
Proof.
  intros text refined. unfold refined. rewrite refined_text_unfold.
  fold text. split; [|split; [|split; [|split; [|split]]]].
  - intros Hlen. apply Nat.ltb_ge in Hlen. rewrite Hlen.
    split; [reflexivity|]. split.
    + apply Nat.ltb_ge in Hlen.
      etransitivity; [apply strip_length | exact Hlen].
    + apply collapsed_tidy.
  - intros Hlen. pose proof Hlen as Hlt.
    apply Nat.ltb_lt in Hlen. rewrite Hlen.
    destruct (split_parts "." text) as [[_ Hs] | [_ (s0 & s1 & rest & Hs)]].
    + left. rewrite Hs.
      change (1 <? List.length [text])%nat with false. cbv iota.
      split; [reflexivity|]. split.
      * destruct (take_prefix 500 text) as [Hp [rest Hrest]]; [lia|].
        exists (Py.take 500 text), rest.
        split; [exact Hrest|]. split; [exact Hp | reflexivity].
      * etransitivity; [apply strip_length | apply take_length].
    + right. exists s0, s1, rest. rewrite Hs.
      change (1 <? List.length (s0 :: s1 :: rest))%nat with true. cbv iota.
      split; [reflexivity|].
      change (firstn 2 (s0 :: s1 :: rest)) with [s0; s1].
      change (Py.join ". " [s0; s1]) with (s0 ++ ". " ++ s1)%string.
      rewrite !string_app_assoc. reflexivity.
  - apply collapsed_tidy.
  - split; [apply Nat.ltb_lt|]; vm_compute; reflexivity.
  - split; [apply Nat.ltb_lt|]; vm_compute; reflexivity.
  - vm_compute. reflexivity.
Qed.

(** So the refined text of a section whose joined and collapsed content
    has at most 500 characters is that content. *)
Lemma refined_text_of_section (pages : Pages) (s : Section) :
  In s (identify_sections pages) ->
  (Py.len (collapsed (content s)) <= 500)%nat ->
  _extract_refined_text (content s) = collapsed (content s).
Proof.
  intros Hs Hlen. rewrite refined_text_unfold.
  apply Nat.ltb_ge in Hlen. rewrite Hlen.
  apply collapsed_tidy, (section_content_tidy pages), Hs.
Qed.

(** The theorem at a short content, and at [cut_content], where it
    gives the hard truncation: the prefix of 500 characters is the 499
    letters and the space, and the refined text is the 499 letters. *)
Lemma refined_text_stripped_cases_witness :
  (_extract_refined_text ["Mix the   chickpeas."; "Fry them."]
   = "Mix the chickpeas. Fry them."
   /\ (Py.len (_extract_refined_text ["Mix the   chickpeas."; "Fry them."])
       <= 500)%nat)
  /\ (500 < Py.len (collapsed cut_content))%nat
  /\ _extract_refined_text cut_content
     = Py.strip (letters 499 ++ " ")%string
  /\ _extract_refined_text cut_content = letters 499
  /\ (Py.len (_extract_refined_text cut_content) <= 500)%nat.
Proof.
  assert (Hlen : (Py.len (collapsed ["Mix the   chickpeas."; "Fry them."])
                  <= 500)%nat) by (apply Nat.leb_le; vm_compute; reflexivity).
  destruct (proj1 (refined_text_stripped_cases
                     ["Mix the   chickpeas."; "Fry them."])
                  Hlen) as [Heq [Hle _]].
  split; [split; [rewrite Heq; vm_compute; reflexivity | exact Hle]|].
  assert (Hcut : (500 < Py.len (collapsed cut_content))%nat)
    by (apply Nat.ltb_lt; vm_compute; reflexivity).
  split; [exact Hcut|].
  destruct (proj1 (proj2 (refined_text_stripped_cases cut_content)) Hcut)
    as [[_ [(prefix & rest & Htext & Hp & Href) Hle']]
       | (s0 & s1 & rest & Hs & _)].
  - assert (Hprefix : prefix = (letters 499 ++ " ")%string).
    { apply (prefix_unique prefix (letters 499 ++ " ") rest "b").
      - rewrite <- Htext. vm_compute. reflexivity.
      - unfold Py.len in Hp. rewrite Hp. vm_compute. reflexivity. }
    split; [rewrite Href, Hprefix; reflexivity|].
    split; [rewrite Href, Hprefix; vm_compute; reflexivity | exact Hle'].
  - exfalso. vm_compute in Hs. discriminate Hs.
Defined.

End RefinedText.


(** * Further properties *)

(** ** The cascade of the span classifier *)

Section ClassifierCascade.

Lemma Qltb_lt (a b : Q) : Qltb a b = true <-> (a < b)%Q.
Proof.
  unfold Qltb. rewrite negb_true_iff. split.
  - intros H. apply Qnot_le_lt. intros Hle.
    apply Qle_bool_iff in Hle. congruence.
  - intros H. destruct (Qle_bool b a) eqn:E; [|reflexivity].
    apply Qle_bool_iff in E. exfalso. exact (Qlt_not_le _ _ H E).
Qed.

Lemma Qle_bool_false (a b : Q) : Qle_bool a b = false <-> (b < a)%Q.
Proof.
  rewrite <- Qltb_lt. unfold Qltb. rewrite negb_true_iff. reflexivity.
Qed.

(** The text holds one of the keywords, whatever the case. *)
Definition has_keyword (text : string) : bool :=
  existsb (fun kw => Py.contains (Py.lower kw) (Py.lower text)) CUSTOM_KEYWORDS.

(** Bit 1 of the flags of the span is set. *)
Definition flagged (span : Span) : bool :=
  negb (Z.land (match span_flags span with Some f => f | None => 0%Z end) 2
        =? 0)%Z.

(** A previous size is known, is not zero, and is below that of the span. *)
Definition grows (span : Span) (prev : option Q) : bool :=
  match prev with
  | Some p => negb (Qeq_bool p 0) && Qltb p (span_size span)
  | None => false
  end.

(** X1.  A span is no heading exactly when its text is not numbered and
    holds no keyword, its size does not exceed a known non-zero previous
    size, bit 1 of its flags is clear, and its size is below 12. *)
Theorem detect_heading_level_none (text : string) (span : Span)
    (prev : option Q) :
  detect_heading_level text span prev = None
  <-> numbered text = false
      /\ has_keyword text = false
      /\ grows span prev = false
      /\ flagged span = false
      /\ (span_size span < 12)%Q.
Proof.
  unfold detect_heading_level. fold (has_keyword text). fold (flagged span).
  assert (Hg : truthy prev && match prev with
                              | Some p => Qltb p (span_size span)
                              | None => false
                              end = grows span prev)
    by (destruct prev; reflexivity).
  rewrite Hg. clear Hg.
  destruct (numbered text).
  { split; [|intros [H _]; discriminate].
    destruct (Py.count "." text =? 1)%nat; [discriminate|].
    destruct (Py.count "." text =? 2)%nat; discriminate. }
  destruct (has_keyword text).
  { split; [discriminate | intros (_ & H & _); discriminate]. }
  destruct (grows span prev).
  { split; [discriminate | intros (_ & _ & H & _); discriminate]. }
  destruct (flagged span); simpl.
  { split; [discriminate | intros (_ & _ & _ & H & _); discriminate]. }
  destruct (Qle_bool 16 (span_size span)) eqn:E16.
  { split; [discriminate|]. intros (_ & _ & _ & _ & H).
    apply Qle_bool_iff in E16. lra. }
  destruct (Qle_bool 14 (span_size span)) eqn:E14.
  { split; [discriminate|]. intros (_ & _ & _ & _ & H).
    apply Qle_bool_iff in E14. lra. }
  destruct (Qle_bool 12 (span_size span)) eqn:E12.
  { split; [discriminate|]. intros (_ & _ & _ & _ & H).
    apply Qle_bool_iff in E12. lra. }
  apply Qle_bool_false in E12. tauto.
Qed.

(** The level of a heading is H1, H2 or H3. *)
Lemma detect_heading_level_range (text : string) (span : Span)
    (prev : option Q) (l : string) :
  detect_heading_level text span prev = Some l ->
  l = "H1" \/ l = "H2" \/ l = "H3".
Proof.
  unfold detect_heading_level.
  repeat match goal with
         | |- context [if ?b then _ else _] => destruct b
         end;
    intros H; try discriminate; injection H as <-; auto.
Qed.

End ClassifierCascade.

(** ** Fragment merge and deduplication *)

Section MergeAndDedup.

Lemma same_place_refl (a : Item) : same_place a a = true.
Proof.
  unfold same_place. rewrite Z.eqb_refl, String.eqb_refl. reflexivity.
Qed.

Lemma same_place_iff (a b : Item) :
  same_place a b = true <-> page a = page b /\ level a = level b.
Proof.
  unfold same_place. rewrite andb_true_iff, Z.eqb_eq, String.eqb_eq.
  reflexivity.
Qed.

(** What [merge_from] gives starts with an entry of the page and level
    of [last], and no entry of it has the page and level of the entry
    before it. *)
Lemma merge_from_distinct (l : list Item) (a : Item) :
  adjacent_distinct (merge_from a l) = true
  /\ exists h rest, merge_from a l = h :: rest
                    /\ page h = page a /\ level h = level a.
Proof.
  revert a. induction l as [|b l IH]; intros a.
  - simpl. split; [reflexivity|]. exists a, []. auto.
  - simpl. destruct (same_place b a) eqn:E.
    + match goal with
      | |- context [merge_from ?m l] => destruct (IH m) as [Hd Hh]
      end.
      split; [exact Hd|]. destruct Hh as (h & rest & Heq & Hp & Hl).
      exists h, rest. auto.
    + destruct (IH b) as [Hd (h & rest & Heq & Hp & Hl)].
      split; [|exists a, (merge_from b l); auto].
      rewrite Heq in *. change (negb (same_place h a)
                                && adjacent_distinct (h :: rest) = true).
      rewrite Hd, andb_true_r. apply negb_true_iff.
      destruct (same_place h a) eqn:E'; [|reflexivity].
      apply same_place_iff in E'. rewrite Hp, Hl in E'.
      apply same_place_iff in E'. congruence.
Qed.

Lemma join_cons (sep x : string) (xs : list string) :
  xs <> [] ->
  Py.join sep (x :: xs) = (x ++ sep ++ Py.join sep xs)%string.
Proof. destruct xs; [contradiction | reflexivity]. Qed.

Lemma merge_from_text (l : list Item) (a : Item) :
  Py.join " " (map text (merge_from a l))
  = Py.join " " (text a :: map text l).
Proof.
  revert a. induction l as [|b l IH]; intros a.
  - reflexivity.
  - simpl merge_from. destruct (same_place b a).
    + rewrite IH. cbn [text map].
      destruct l as [|c l].
      * reflexivity.
      * rewrite !join_cons by discriminate.
        rewrite !string_app_assoc. reflexivity.
    + cbn [map]. rewrite join_cons.
      * rewrite IH. reflexivity.
      * destruct (merge_from_distinct l b) as [_ (h & rest & -> & _)].
        discriminate.
Qed.

(** X2.  After the fragment merge no entry has the page and level of the
    entry before it; a second merge changes nothing; and the texts of the
    entries, joined by spaces, are those of the candidates: the merge
    loses no text. *)
Theorem merge_fragments_merges_all (outline : list Item) :
  adjacent_distinct (merge_fragments outline) = true
  /\ merge_fragments (merge_fragments outline) = merge_fragments outline
  /\ Py.join " " (map text (merge_fragments outline))
     = Py.join " " (map text outline).
Proof.
  assert (Hd : adjacent_distinct (merge_fragments outline) = true).
  { destruct outline as [|a l]; [reflexivity|]. apply merge_from_distinct. }
  split; [exact Hd|]. split.
  - apply merge_fragments_fixed, Hd.
  - destruct outline as [|a l]; [reflexivity|]. apply merge_from_text.
Qed.

Lemma merge_from_uniform (l : list Item) (a : Item) :
  Forall (fun b => page b = page a /\ level b = level a) l ->
  merge_from a l
  = [mkItem (level a) (Py.join " " (text a :: map text l)) (page a)].
Proof.
  revert a. induction l as [|b l IH]; intros a H.
  - destruct a. reflexivity.
  - inversion H as [|? ? Hb Hl]; subst. simpl merge_from.
    rewrite (proj2 (same_place_iff b a) Hb).
    rewrite IH.
    + cbn [level page text]. f_equal. f_equal. cbn [map].
      destruct l as [|c l].
      * reflexivity.
      * rewrite !join_cons by discriminate.
        rewrite !string_app_assoc. reflexivity.
    + cbn [level page]. exact Hl.
Qed.

(** X3.  Candidates that all have the page and the level of the first
    one are merged into a single entry, whose text is their texts joined
    by spaces. *)
Theorem merge_fragments_uniform (a : Item) (l : list Item) :
  Forall (fun b => page b = page a /\ level b = level a) l ->
  merge_fragments (a :: l)
  = [mkItem (level a) (Py.join " " (map text (a :: l))) (page a)].
Proof. apply merge_from_uniform. Qed.

Lemma merge_fragments_uniform_witness :
  merge_fragments [ mkItem "H1" "Annual" 1; mkItem "H1" "Report" 1;
                    mkItem "H1" "2024" 1 ]
  = [ mkItem "H1" "Annual Report 2024" 1 ].
Proof.
  apply (merge_fragments_uniform (mkItem "H1" "Annual" 1)
           [mkItem "H1" "Report" 1; mkItem "H1" "2024" 1]).
  repeat constructor.
Defined.

(** [l'] is [l] with some elements left out. *)
Inductive subseq {A : Type} : list A -> list A -> Prop :=
| subseq_nil : subseq [] []
| subseq_keep (x : A) (l' l : list A) : subseq l' l -> subseq (x :: l') (x :: l)
| subseq_drop (x : A) (l' l : list A) : subseq l' l -> subseq l' (x :: l).

Lemma subseq_refl {A : Type} (l : list A) : subseq l l.
Proof. induction l; constructor; assumption. Qed.

Lemma subseq_trans {A : Type} (l1 l2 l3 : list A) :
  subseq l1 l2 -> subseq l2 l3 -> subseq l1 l3.
Proof.
  intros H12 H23. revert l1 H12.
  induction H23 as [|x l2 l3 H IH|x l2 l3 H IH]; intros l1 H12.
  - exact H12.
  - inversion H12; subst.
    + constructor. apply IH. assumption.
    + apply subseq_drop, IH. assumption.
  - apply subseq_drop, IH, H12.
Qed.

Lemma filter_subseq {A : Type} (f : A -> bool) (l : list A) :
  subseq (filter f l) l.
Proof.
  induction l as [|x l IH]; simpl; [constructor|].
  destruct (f x); constructor; exact IH.
Qed.

Lemma remove_duplicates_subseq (filtered seen : list Item) :
  subseq (remove_duplicates seen filtered) filtered.
Proof.
  revert seen. induction filtered as [|x l IH]; intros seen; simpl.
  - constructor.
  - destruct (existsb (key_eqb x) seen); constructor; apply IH.
Qed.

Lemma remove_duplicates_keeps (filtered seen : list Item) (o : Item) :
  In o filtered -> ~ In o seen -> In o (remove_duplicates seen filtered).
Proof.
  revert seen. induction filtered as [|x l IH]; intros seen Hin Hs; simpl.
  - contradiction.
  - destruct (existsb (key_eqb x) seen) eqn:E.
    + apply seen_iff in E. destruct Hin as [-> | Hin]; [contradiction|].
      apply IH; assumption.
    + destruct (key_eqb x o) eqn:Exo.
      * apply key_eqb_eq in Exo. left. exact Exo.
      * destruct Hin as [-> | Hin].
        -- left. reflexivity.
        -- right. apply IH; [exact Hin|].
           intros [-> | H]; [|contradiction].
           rewrite (proj2 (key_eqb_eq o o) eq_refl) in Exo. discriminate.
Qed.

(** X4.  The normalised outline has no two equal entries; its entries
    are exactly the merged candidates that pass the noise filter, in the
    order the merge gives them; and it is never longer than the list of
    candidates. *)
Theorem clean_outline_entries (cs : list Item) :
  NoDup (clean_outline cs)
  /\ (forall o, In o (clean_outline cs)
                <-> In o (merge_fragments cs) /\ valid_heading o = true)
  /\ subseq (clean_outline cs) (merge_fragments cs)
  /\ (List.length (clean_outline cs) <= List.length cs)%nat.
Proof.
  split; [apply remove_duplicates_NoDup|]. split; [|split].
  - intros o. unfold clean_outline, keep_valid. rewrite <- filter_In. split.
    + intros H. apply remove_duplicates_In in H. tauto.
    + intros H. apply remove_duplicates_keeps; [exact H | intros []].
  - unfold clean_outline, keep_valid.
    eapply subseq_trans; [apply remove_duplicates_subseq | apply filter_subseq].
  - etransitivity; [apply clean_outline_length|].
    apply merge_fragments_length.
Qed.

End MergeAndDedup.

(** ** Title and outline of a document *)

Section TitleAndOutline.

(** The stripped text of the span is not empty. *)
Definition nonblank (span : Span) : bool :=
  negb (String.eqb (Py.strip (span_text span)) "").

Lemma largest_text_spec (spans : list Span) (m : Q) (c : string) :
  (largest_text m c spans = c
   /\ forall x, In x spans -> nonblank x = true -> (span_size x <= m)%Q)
  \/ exists pre s post,
       spans = pre ++ s :: post
       /\ largest_text m c spans = Py.strip (span_text s)
       /\ nonblank s = true
       /\ (m < span_size s)%Q
       /\ (forall x, In x pre -> nonblank x = true ->
                     (span_size x < span_size s)%Q)
       /\ (forall x, In x post -> nonblank x = true ->
                     (span_size x <= span_size s)%Q).
Proof.
  revert m c. induction spans as [|x rest IH]; intros m c.
  - left. split; [reflexivity | intros x []].
  - simpl. fold (nonblank x).
    destruct (Qltb m (span_size x) && nonblank x) eqn:E.
    + apply andb_true_iff in E. destruct E as [Hlt Hnb].
      apply Qltb_lt in Hlt. right.
      destruct (IH (span_size x) (Py.strip (span_text x)))
        as [[Heq Hall] | (pre & s & post & Hsp & Heq & Hs & Hm & Hpre & Hpost)].
      * exists [], x, rest. repeat split; auto. intros y [].
      * exists (x :: pre), s, post. subst rest. repeat split; auto.
        -- lra.
        -- intros y [<- | Hy] Hy'; auto.
    + assert (Hx : nonblank x = true -> (span_size x <= m)%Q).
      { intros Hnb. rewrite Hnb, andb_true_r in E.
        apply Qnot_lt_le. intros Hlt. apply Qltb_lt in Hlt. congruence. }
      destruct (IH m c)
        as [[Heq Hall] | (pre & s & post & Hsp & Heq & Hs & Hm & Hpre & Hpost)].
      * left. split; [exact Heq|]. intros y [<- | Hy] Hy'; auto.
      * right. exists (x :: pre), s, post. subst rest. repeat split; auto.
        intros y [<- | Hy] Hy'; auto. specialize (Hx Hy'). lra.
Qed.

(** X5.  The title the first page gives is empty when no span of the
    page has a text that is not blank and a size above 0; otherwise it is
    the stripped text of the first span of largest size among those whose
    text is not blank. *)
Theorem first_page_title_largest (doc : Pdf) (first_page : Page)
    (others : list Page) :
  pages doc = first_page :: others ->
  (first_page_title doc = ""
   /\ forall x, In x (spans_of first_page) -> nonblank x = true ->
                (span_size x <= 0)%Q)
  \/ exists pre s post,
       spans_of first_page = pre ++ s :: post
       /\ first_page_title doc = Py.strip (span_text s)
       /\ first_page_title doc <> ""
       /\ (0 < span_size s)%Q
       /\ (forall x, In x pre -> nonblank x = true ->
                     (span_size x < span_size s)%Q)
       /\ (forall x, In x post -> nonblank x = true ->
                     (span_size x <= span_size s)%Q).
Proof.
  intros Hp. unfold first_page_title. rewrite Hp.
  destruct (largest_text_spec (spans_of first_page) 0 "")
    as [H | (pre & s & post & Hsp & Heq & Hs & Hm & Hpre & Hpost)].
  - left. exact H.
  - right. exists pre, s, post. repeat split; auto.
    rewrite Heq. intros E. unfold nonblank in Hs. rewrite E in Hs. discriminate.
Qed.

Definition two_titles : Pdf :=
  mkPdf "" []
    [ [ Some [ [ mkSpan "  " 30 None; mkSpan "Report" 18 None ];
               [ mkSpan " Annual " 18 None; mkSpan "body" 10 None ] ] ] ].

Lemma first_page_title_largest_witness : first_page_title two_titles = "Report".
Proof.
  destruct (first_page_title_largest two_titles _ _ eq_refl)
    as [[H _] | (pre & s & post & _ & _ & Hne & _)].
  - vm_compute. reflexivity.
  - vm_compute. reflexivity.
Defined.

(** *** The outline of the signal strategy *)

(** An entry made on page [page_num]: its text is stripped and not
    empty and its level is H1, H2 or H3. *)
Definition signal_entry (page_num : Z) (it : Item) : Prop :=
  page it = page_num
  /\ tidy (text it)
  /\ (level it = "H1" \/ level it = "H2" \/ level it = "H3").

Lemma signal_span_outline (page_num : Z) (st : Signals) (span : Span) :
  exists ext, outline (signal_span page_num st span) = outline st ++ ext
              /\ Forall (signal_entry page_num) ext
              /\ (List.length ext <= 1)%nat.
Proof.
  unfold signal_span.
  destruct (String.eqb (Py.strip (span_text span)) "") eqn:E.
  - exists []. rewrite app_nil_r. auto.
  - simpl.
    destruct (detect_heading_level (Py.strip (span_text span)) span
                (prev_fontsize st)) as [l|] eqn:El.
    + exists [mkItem l (Py.strip (span_text span)) page_num].
      split; [reflexivity|]. split; [|simpl; lia].
      constructor; [|constructor]. split; [reflexivity|]. split.
      * apply strip_tidy. intros H. rewrite H in E. discriminate.
      * exact (detect_heading_level_range _ _ _ _ El).
    + exists []. rewrite app_nil_r. auto.
Qed.

Lemma fold_signal_span_outline (page_num : Z) (spans : list Span)
    (st : Signals) :
  exists ext,
    outline (fold_left (signal_span page_num) spans st) = outline st ++ ext
    /\ Forall (signal_entry page_num) ext
    /\ (List.length ext <= List.length spans)%nat.
Proof.
  revert st. induction spans as [|span rest IH]; intros st; simpl.
  - exists []. rewrite app_nil_r. auto.
  - destruct (IH (signal_span page_num st span)) as (ext2 & H2 & F2 & L2).
    destruct (signal_span_outline page_num st span) as (ext1 & H1 & F1 & L1).
    exists (ext1 ++ ext2). rewrite H2, H1, app_assoc.
    split; [reflexivity|]. split; [apply Forall_app; auto|].
    rewrite length_app. lia.
Qed.

Definition by_page (a b : Item) : Prop := (page a <= page b)%Z.

Lemma signal_pages_outline (ps : list Page) (page_num : Z) (st : Signals) :
  exists ext,
    outline (signal_pages page_num st ps) = outline st ++ ext
    /\ StronglySorted by_page ext
    /\ Forall (fun it => (page_num <= page it
                          < page_num + Z.of_nat (List.length ps))%Z
                         /\ signal_entry (page it) it) ext.
Proof.
  revert page_num st. induction ps as [|p ps IH]; intros page_num st.
  - exists []. simpl. rewrite app_nil_r. repeat split; constructor.
  - cbn [signal_pages].
    destruct (fold_signal_span_outline page_num (spans_of p) st)
      as (ext1 & H1 & F1 & _).
    destruct (IH (page_num + 1)%Z
                 (fold_left (signal_span page_num) (spans_of p) st))
      as (ext2 & H2 & S2 & F2).
    exists (ext1 ++ ext2). rewrite H2, H1, app_assoc.
    split; [reflexivity|].
    assert (Hlen : Z.of_nat (List.length (p :: ps))
                   = (Z.of_nat (List.length ps) + 1)%Z)
      by (simpl List.length; lia).
    rewrite Hlen. split.
    + clear H1 H2. induction F1 as [|it ext1 Hit Ft IH1]; [exact S2|].
      simpl. constructor; [exact IH1|].
      apply Forall_app. split.
      * eapply Forall_impl; [|exact Ft]. intros it' Hit'.
        unfold by_page. destruct Hit as [-> _], Hit' as [-> _]. lia.
      * eapply Forall_impl; [|exact F2]. intros it' [Hit' _].
        unfold by_page. destruct Hit as [-> _]. lia.
    + apply Forall_app. split.
      * eapply Forall_impl; [|exact F1]. intros it Hit.
        pose proof Hit as [Hp _]. rewrite Hp. split; [lia | exact Hit].
      * eapply Forall_impl; [|exact F2]. intros it [Hr Hit].
        split; [lia | exact Hit].
Qed.

(** X6.  The outline of the signal strategy is in page order; every
    entry has a page between 1 and the number of pages, a text that is
    stripped and not empty, and the level H1, H2 or H3. *)
Theorem extract_outline_by_signals_entries (doc : Pdf) :
  let outline := snd (extract_outline_by_signals doc) in
  StronglySorted by_page outline
  /\ Forall (fun it => (1 <= page it <= Z.of_nat (List.length (pages doc)))%Z
                       /\ tidy (text it)
                       /\ (level it = "H1" \/ level it = "H2"
                           \/ level it = "H3")) outline.
Proof.
  unfold extract_outline_by_signals. simpl.
  destruct (signal_pages_outline (pages doc) 1 (mkSignals 0 "" None []))
    as (ext & H & S & F).
  rewrite H. simpl. split; [exact S|].
  eapply Forall_impl; [|exact F]. intros it [Hr (_ & Ht & Hl)].
  split; [lia | auto].
Qed.

(** The entry of the outline for an item of the table of contents. *)
Definition toc_entry (item : Z * string * Z) : Item :=
  let '(level, text, page) := item in
  mkItem ("H" ++ Py.str_of_int level) text page.

(** X7.  When the document has a table of contents, its spans are read
    for the title only, and only when the metadata title is empty: the
    outline is the normalised table of contents, and the title is the
    metadata title or, when that is empty, the title of the first page. *)
Theorem process_pdf_with_toc (doc : Pdf) :
  toc doc <> [] ->
  process_pdf doc
  = (if String.eqb (metadata_title doc) "" then first_page_title doc
     else metadata_title doc,
     clean_outline (map toc_entry (toc doc))).
Proof.
  intros Ht. unfold process_pdf, extract_pdf_outline, first_page_title.
  destruct (toc doc) as [|[[l x] pg] rest] eqn:E; [contradiction|].
  cbn [map]. f_equal.
  destruct (String.eqb_spec (metadata_title doc) "") as [E'|E'].
  - destruct (pages doc); [exact E' | reflexivity].
  - reflexivity.
Qed.

Definition report_pdf : Pdf :=
  mkPdf "" [ (1%Z, "Intro", 1%Z); (2%Z, "Background", 2%Z) ]
    [ [ Some [ [ mkSpan "My Report" 24 None; mkSpan "text" 11 None ] ] ] ].

Lemma process_pdf_with_toc_witness :
  process_pdf report_pdf
  = ("My Report",
     [ mkItem "H1" "Intro" 1; mkItem "H2" "Background" 2 ]).
Proof.
  assert (Ht : toc report_pdf <> []) by discriminate.
  rewrite (process_pdf_with_toc report_pdf Ht). vm_compute. reflexivity.
Defined.

End TitleAndOutline.

(** ** Reading the pages of a PDF *)

Section ReadingPages.

Definition newline : ascii := "010"%char.

Lemma split_not_nil (sep : ascii) (s : string) : Py.split sep s <> [].
Proof.
  destruct s as [|c s]; simpl; [discriminate|].
  destruct (Ascii.eqb c sep); [discriminate|].
  destruct (Py.split sep s); discriminate.
Qed.

(** Joining the parts of a split with the separator gives the text. *)
Lemma join_split (sep : ascii) (s : string) :
  Py.join (String sep "") (Py.split sep s) = s.
Proof.
  induction s as [|c s IH]; [reflexivity|]. cbn [Py.split].
  destruct (Ascii.eqb c sep) eqn:E.
  - apply Ascii.eqb_eq in E. subst c.
    rewrite join_cons by apply split_not_nil. rewrite IH. reflexivity.
  - pose proof (split_not_nil sep s) as Hne.
    destruct (Py.split sep s) as [|w ws]; [contradiction|].
    rewrite <- IH. destruct ws; reflexivity.
Qed.

Lemma count_app (c : ascii) (a b : string) :
  Py.count c (a ++ b) = (Py.count c a + Py.count c b)%nat.
Proof.
  induction a as [|x a IH]; simpl; [reflexivity|]. rewrite IH. lia.
Qed.

(** No part of a split holds the separator. *)
Lemma split_no_sep (sep : ascii) (s : string) :
  Forall (fun w => Py.count sep w = 0%nat) (Py.split sep s).
Proof.
  induction s as [|c s IH]; simpl.
  - constructor; [reflexivity | constructor].
  - destruct (Ascii.eqb c sep) eqn:E.
    + constructor; [reflexivity | exact IH].
    + destruct (Py.split sep s) as [|w ws].
      * constructor; [simpl; rewrite E; reflexivity | constructor].
      * inversion IH; subst. constructor; [|assumption].
        simpl. rewrite E. assumption.
Qed.

Lemma count_join (sep : ascii) (l : list string) :
  Forall (fun w => Py.count sep w = 0%nat) l ->
  Py.count sep (Py.join (String sep "") l) = Nat.pred (List.length l).
Proof.
  induction 1 as [|w l Hw Hl IH]; [reflexivity|].
  destruct l as [|w' l].
  - simpl. exact Hw.
  - rewrite join_cons by discriminate. rewrite !count_app, IH, Hw.
    simpl. rewrite Ascii.eqb_refl. reflexivity.
Qed.

Lemma join_app (sep : string) (a b : list string) :
  a <> [] -> b <> [] ->
  Py.join sep (a ++ b) = (Py.join sep a ++ sep ++ Py.join sep b)%string.
Proof.
  intros Ha Hb. induction a as [|x a IH]; [contradiction|].
  destruct a as [|y a].
  - simpl app. apply join_cons, Hb.
  - change ((x :: y :: a) ++ b) with (x :: ((y :: a) ++ b)).
    rewrite join_cons by discriminate. rewrite IH by discriminate.
    rewrite (join_cons sep x (y :: a)) by discriminate.
    rewrite !string_app_assoc. reflexivity.
Qed.

(** The numbers [first], [first + 1], ... *)
Definition numbers_from (first : Z) (n : nat) : list Z :=
  map (fun i => (first + Z.of_nat i)%Z) (seq 0 n).

Lemma numbers_from_S (first : Z) (n : nat) :
  numbers_from first (S n) = first :: numbers_from (first + 1) n.
Proof.
  unfold numbers_from. simpl. rewrite Z.add_0_r. f_equal.
  rewrite <- seq_shift, map_map. apply map_ext. intros i. lia.
Qed.

Lemma pymupdf_pages_spec (doc : list string) (page_num : nat) :
  map fst (pymupdf_pages page_num doc)
  = numbers_from (Z.of_nat page_num + 1) (List.length doc)
  /\ map snd (pymupdf_pages page_num doc) = doc.
Proof.
  revert page_num. induction doc as [|text rest IH]; intros page_num.
  - split; reflexivity.
  - destruct (IH (S page_num)) as [H1 H2]. cbn [pymupdf_pages map fst snd].
    rewrite H1, H2. split; [|reflexivity].
    cbn [List.length]. rewrite numbers_from_S. f_equal. f_equal. lia.
Qed.

Definition lines_joined (l : list string) : string :=
  Py.join (String newline "") l.

Lemma pdfminer_pages_spec (lines : list string) (pages : Pages)
    (current_page : Z) (current_text : list string) :
  (List.length current_text <= 51)%nat ->
  Forall (fun w => Py.count newline w = 0%nat) (current_text ++ lines) ->
  exists ext,
    pdfminer_pages pages current_page current_text lines = pages ++ ext
    /\ map fst ext = numbers_from current_page (List.length ext)
    /\ Forall (fun p => (Py.count newline (snd p) <= 50)%nat) ext
    /\ (current_text ++ lines <> [] ->
        ext <> []
        /\ lines_joined (map snd ext) = lines_joined (current_text ++ lines)).
Proof.
  revert pages current_page current_text.
  induction lines as [|line rest IH];
    intros pages current_page current_text Hlen Hnl.
  - rewrite app_nil_r in *. simpl.
    destruct current_text as [|w ws].
    + exists []. rewrite app_nil_r. split; [reflexivity|].
      split; [reflexivity|]. split; [constructor|]. intros H. contradiction.
    + exists [(current_page, lines_joined (w :: ws))].
      split; [reflexivity|]. split.
      { unfold numbers_from. simpl. rewrite Z.add_0_r. reflexivity. }
      split.
      { constructor; [|constructor]. simpl. unfold lines_joined.
        rewrite (count_join newline _ Hnl). simpl in *. lia. }
      intros _. split; [discriminate | reflexivity].
  - cbn [pdfminer_pages].
    destruct (50 <? List.length current_text)%nat eqn:E.
    + apply Nat.ltb_lt in E.
      apply Forall_app in Hnl. destruct Hnl as [Hcur Hrest].
      destruct (IH (pages ++ [(current_page, lines_joined current_text)])
                   (current_page + 1)%Z [line])
        as (ext & Heq & Hnum & Hcnt & Hjoin); [simpl; lia | exact Hrest |].
      destruct Hjoin as [Hne Hj]; [discriminate|].
      exists ((current_page, lines_joined current_text) :: ext).
      split.
      { unfold lines_joined, newline in Heq.
        rewrite Heq, <- app_assoc. reflexivity. }
      split.
      { cbn [map fst List.length]. rewrite numbers_from_S, Hnum. reflexivity. }
      split.
      { constructor; [|exact Hcnt]. simpl. unfold lines_joined.
        rewrite (count_join newline _ Hcur). lia. }
      intros _. split; [discriminate|].
      assert (Hc : current_text <> []) by (destruct current_text; [simpl in E; lia | discriminate]).
      cbn [map snd]. unfold lines_joined in *.
      rewrite join_cons by (destruct ext; [contradiction | discriminate]).
      rewrite Hj. symmetry. apply join_app; [exact Hc | discriminate].
    + apply Nat.ltb_ge in E.
      destruct (IH pages current_page (current_text ++ [line]))
        as (ext & Heq & Hnum & Hcnt & Hjoin).
      * rewrite length_app. simpl. lia.
      * rewrite <- app_assoc. exact Hnl.
      * exists ext. split; [exact Heq|]. split; [exact Hnum|].
        split; [exact Hcnt|]. intros _.
        rewrite <- app_assoc in Hjoin. apply Hjoin.
        destruct current_text; discriminate.
Qed.

(** X8.  [_extract_with_pdfminer] cuts the text into pages numbered 1,
    2, ... of at most 51 lines each; there is always a page, and the page
    texts joined by newlines are the text: no line is lost. *)
Theorem extract_with_pdfminer_pages (text : string) :
  let pages := _extract_with_pdfminer text in
  pages <> []
  /\ map fst pages = numbers_from 1 (List.length pages)
  /\ Forall (fun p => (Py.count newline (snd p) <= 50)%nat) pages
  /\ lines_joined (map snd pages) = text.
Proof.
  unfold _extract_with_pdfminer.
  destruct (pdfminer_pages_spec (Py.split newline text) [] 1%Z [])
    as (ext & Heq & Hnum & Hcnt & Hjoin).
  - simpl. lia.
  - apply split_no_sep.
  - simpl in Heq, Hjoin. destruct (Hjoin (split_not_nil _ _)) as [Hne Hj].
    fold newline. rewrite Heq. repeat split; auto.
    rewrite Hj. apply join_split.
Qed.

(** X9.  Whatever the libraries give, the pages that
    [extract_text_from_pdf] returns are numbered 1, 2, ... in order, and
    there is a page unless PyMuPDF opened a document without pages. *)
Theorem extract_text_from_pdf_numbering
    (fitz : option (string + list string))
    (extract_text : option (string + string)) :
  let pages := fst (extract_text_from_pdf fitz extract_text) in
  map fst pages = numbers_from 1 (List.length pages)
  /\ (fitz <> Some (inr []) -> pages <> []).
Proof.
  unfold extract_text_from_pdf.
  destruct fitz as [[e | doc]|]; simpl.
  - split; [reflexivity | discriminate].
  - unfold _extract_with_pymupdf.
    destruct (pymupdf_pages_spec doc 0) as [H1 H2]. split.
    + rewrite H1. simpl. f_equal.
      rewrite <- (length_map snd), H2. reflexivity.
    + intros Hd Hp. apply Hd. rewrite <- H2, Hp. reflexivity.
  - destruct extract_text as [[e | text]|]; simpl.
    + split; [reflexivity | discriminate].
    + unfold _extract_with_pdfminer.
      destruct (pdfminer_pages_spec (Py.split newline text) [] 1%Z [])
        as (ext & Heq & Hnum & _ & Hjoin);
        [simpl; lia | apply split_no_sep |].
      simpl in Heq, Hjoin. destruct (Hjoin (split_not_nil _ _)) as [Hne _].
      fold newline. rewrite Heq. split; [exact Hnum | intros _; exact Hne].
    + split; [reflexivity | discriminate].
Qed.

Lemma extract_text_from_pdf_numbering_witness :
  fst (extract_text_from_pdf (Some (inr ["one"; "two"])) None) <> [].
Proof.
  apply (extract_text_from_pdf_numbering (Some (inr ["one"; "two"])) None).
  discriminate.
Defined.

End ReadingPages.

(** ** Header lines and sections *)

Section HeadersAndSections.

Lemma match_capital (c1 c2 : ascii) (rest : string) :
  Py.isupper_az c1 = true -> Py.islower_az c2 = true ->
  Re.match_prefix (Re.seq [Re.AZ; Re.az]) (String c1 (String c2 rest)) = true.
Proof.
  intros H1 H2. apply match_prefix_matches.
  exists (String c1 (String c2 "")), rest. split; [reflexivity|].
  exact (MCat _ _ (String c1 "") (String c2 "")
              (MChr _ c1 H1) (MChr _ c2 H2)).
Qed.

Lemma header_length (line : string) :
  _is_section_header line = true -> (3 <= Py.len line <= 250)%nat.
Proof.
  unfold _is_section_header.
  destruct ((Py.len line <? 3)%nat || (250 <? Py.len line)%nat) eqn:E;
    [discriminate|].
  apply orb_false_iff in E. rewrite !Nat.ltb_ge in E. intros _. lia.
Qed.

Lemma capital_line_header (c1 c2 : ascii) (rest : string) :
  (3 <= Py.len (String c1 (String c2 rest)) <= 250)%nat ->
  Py.isupper_az c1 = true -> Py.islower_az c2 = true ->
  (List.length (Py.split_ws (String c1 (String c2 rest))) <= 10)%nat ->
  _is_section_header (String c1 (String c2 rest)) = true.
Proof.
  intros Hlen H1 H2 Hw. unfold _is_section_header.
  destruct ((Py.len _ <? 3)%nat || (250 <? Py.len _)%nat) eqn:E.
  { apply orb_true_iff in E. rewrite !Nat.ltb_lt in E. lia. }
  do 2 match goal with
       | |- (if ?b then true else _) = true => destruct b; [reflexivity|]
       end.
  rewrite (match_capital c1 c2 rest H1 H2).
  apply Nat.leb_le in Hw. rewrite Hw. reflexivity.
Qed.

Lemma indicator_line_header (line indicator : string) :
  (3 <= Py.len line <= 250)%nat ->
  In indicator header_indicators ->
  Py.contains indicator (Py.lower line) = true ->
  _is_section_header line = true.
Proof.
  intros Hlen Hin Hc. unfold _is_section_header.
  destruct ((Py.len _ <? 3)%nat || (250 <? Py.len _)%nat) eqn:E.
  { apply orb_true_iff in E. rewrite !Nat.ltb_lt in E. lia. }
  repeat match goal with
         | |- (if ?b then true else _) = true => destruct b; [reflexivity|]
         end.
  apply existsb_exists. exists indicator. auto.
Qed.

(** X10.  A header line has between 3 and 250 characters.  A line of
    that length is a header as soon as it starts with a capital letter
    and a small letter and has at most 10 words, or holds one of the
    header indicators, whatever the case. *)
Theorem is_section_header_rules (line : string) :
  (_is_section_header line = true ->
   (3 <= Py.len line <= 250)%nat)
  /\ ((3 <= Py.len line <= 250)%nat ->
      (forall c1 c2 rest,
          line = String c1 (String c2 rest) ->
          Py.isupper_az c1 = true -> Py.islower_az c2 = true ->
          (List.length (Py.split_ws line) <= 10)%nat ->
          _is_section_header line = true)
      /\ (forall indicator,
             In indicator header_indicators ->
             Py.contains indicator (Py.lower line) = true ->
             _is_section_header line = true)).
Proof.
  split; [apply header_length|]. intros Hlen. split.
  - intros c1 c2 rest -> H1 H2 Hw. apply capital_line_header; assumption.
  - intros indicator. apply indicator_line_header, Hlen.
Qed.

Lemma is_section_header_rules_witness :
  _is_section_header "The cat sat on the mat." = true
  /\ _is_section_header "a note on water sports" = true.
Proof.
  assert (H1 : (3 <= Py.len "The cat sat on the mat." <= 250)%nat)
    by (vm_compute; lia).
  assert (H2 : (3 <= Py.len "a note on water sports" <= 250)%nat)
    by (vm_compute; lia).
  split.
  - apply (proj1 (proj2 (is_section_header_rules _) H1)
                 "T"%char "h"%char "e cat sat on the mat.");
      try reflexivity.
    vm_compute. lia.
  - apply (proj2 (proj2 (is_section_header_rules _) H2) "water sports").
    + unfold header_indicators. simpl. tauto.
    + vm_compute. reflexivity.
Defined.

Lemma enumerate_from_In {A : Type} (l : list A) (k i : nat) (x : A) :
  In (i, x) (Py.enumerate_from k l)
  -> (k <= i)%nat /\ nth_error l (i - k) = Some x.
Proof.
  revert k. induction l as [|y l IH]; intros k; simpl.
  - contradiction.
  - intros [H | H].
    + injection H as <- <-. rewrite Nat.sub_diag. split; [lia | reflexivity].
    + apply IH in H. destruct H as [Hk Hn]. split; [lia|].
      replace (i - k)%nat with (S (i - S k)) by lia. exact Hn.
Qed.

Lemma significant_In (lines : list (nat * string)) (i : nat) (h : string) :
  In (i, h) (significant lines) ->
  exists raw, In (i, raw) lines /\ h = Py.strip raw /\ tidy h.
Proof.
  intros H. pose proof (significant_tidy lines) as Ht.
  rewrite Forall_forall in Ht. specialize (Ht _ H).
  unfold significant in H. apply filter_In in H. destruct H as [H _].
  apply in_map_iff in H. destruct H as [[i' raw] [Heq Hin]].
  simpl in Heq. injection Heq as -> <-. exists raw. auto.
Qed.

(** X11.  Every section has a page number of the mapping; its title is
    the stripped line of that page at index [start_line] and is a header;
    its content lines are stripped, not empty and no headers; and it has
    no document yet. *)
Theorem identify_sections_well_formed (pages : Pages) (s : Section) :
  In s (identify_sections pages) ->
  exists text raw,
    In (page_number s, text) pages
    /\ nth_error (Py.split newline text) (start_line s) = Some raw
    /\ title s = Py.strip raw
    /\ tidy (title s)
    /\ _is_section_header (title s) = true
    /\ Forall (fun l => tidy l /\ _is_section_header l = false) (content s)
    /\ document s = None.
Proof.
  intros H. apply identify_sections_In in H.
  destruct H as (page_num & text & Hin & pre & i & h & body & rest
                 & Hl & Hh & Hb & _ & ->).
  assert (Hi : In (i, h) (page_lines text))
    by (rewrite Hl; apply in_or_app; right; left; reflexivity).
  apply significant_In in Hi. destruct Hi as (raw & Hraw & -> & Ht).
  apply enumerate_from_In in Hraw. destruct Hraw as [_ Hraw].
  rewrite Nat.sub_0_r in Hraw.
  exists text, raw. simpl. repeat split; auto; try apply Ht.
  apply Forall_map. apply Forall_forall. intros l Hlb. split.
  - pose proof (significant_tidy (Py.enumerate (Py.split "010" text))) as Hs.
    rewrite Forall_forall in Hs. apply Hs. fold (page_lines text).
    rewrite Hl. apply in_or_app. right. right. apply in_or_app. left. exact Hlb.
  - rewrite Forall_forall in Hb. apply (Hb l Hlb).
Qed.

Lemma identify_sections_well_formed_witness :
  exists s, In s (identify_sections two_pages) /\ title s = "Next"
            /\ document s = None.
Proof.
  exists (mkSection "Next" 2 1 ["stuff"] None).
  assert (H : In (mkSection "Next" 2 1 ["stuff"] None)
                 (identify_sections two_pages))
    by (vm_compute; auto).
  destruct (identify_sections_well_formed _ _ H) as (text & raw & _).
  split; [exact H|]. split; reflexivity.
Defined.

(** The lines of a page from its first header line on. *)
Fixpoint from_first_header (lines : list (nat * string)) : list (nat * string) :=
  match lines with
  | [] => []
  | l :: rest => if is_header l then lines else from_first_header rest
  end.

(** The lines a section takes: its title and its content. *)
Definition section_lines (s : Section) : list string := title s :: content s.

Lemma scan_open_lines (page_num : Z) (lines : list (nat * string))
    (cs : Section) (acc : list string) :
  flat_map section_lines (scan_significant page_num (Some cs) acc lines)
  = title cs :: acc ++ map snd lines.
Proof.
  revert cs acc. induction lines as [|[i l] lines IH]; intros cs acc.
  - simpl. unfold section_lines. simpl. rewrite !app_nil_r. reflexivity.
  - cbn [scan_significant]. destruct (_is_section_header l).
    + cbn [close app flat_map]. rewrite IH. unfold section_lines at 1.
      cbn [title content with_content map snd app]. reflexivity.
    + rewrite IH. cbn [map snd]. rewrite <- app_assoc. reflexivity.
Qed.

Lemma scan_closed_lines (page_num : Z) (lines : list (nat * string))
    (acc : list string) :
  flat_map section_lines (scan_significant page_num None acc lines)
  = map snd (from_first_header lines).
Proof.
  induction lines as [|[i l] lines IH]; [reflexivity|].
  cbn [scan_significant from_first_header]. unfold is_header at 1.
  cbn [snd]. destruct (_is_section_header l).
  - cbn [close app]. rewrite scan_open_lines. reflexivity.
  - exact IH.
Qed.

Lemma flat_map_flat_map {A B C : Type} (f : A -> list B) (g : B -> list C)
    (l : list A) :
  flat_map g (flat_map f l) = flat_map (fun x => flat_map g (f x)) l.
Proof.
  induction l as [|x l IH]; simpl; [reflexivity|].
  rewrite flat_map_app, IH. reflexivity.
Qed.

(** X12.  The titles and content lines of the sections, in order, are
    the stripped, non-empty lines of every page from its first header
    line on: each such line goes to one section, and the lines of a page
    before its first header line go to none. *)
Theorem identify_sections_partition (pages : Pages) :
  flat_map section_lines (identify_sections pages)
  = flat_map (fun p => map snd (from_first_header (page_lines (snd p)))) pages.
Proof.
  unfold identify_sections. rewrite identify_sections_pages. simpl.
  rewrite flat_map_flat_map. apply flat_map_ext. intros [page_num text].
  simpl. rewrite scan_lines_significant. apply scan_closed_lines.
Qed.

Lemma scan_open_count (page_num : Z) (lines : list (nat * string))
    (cs : Section) (acc : list string) :
  List.length (scan_significant page_num (Some cs) acc lines)
  = S (count_if is_header lines).
Proof.
  revert cs acc. unfold count_if.
  induction lines as [|[i l] lines IH]; intros cs acc; [reflexivity|].
  cbn [scan_significant filter]. unfold is_header at 1. cbn [snd].
  destruct (_is_section_header l).
  - cbn [close]. rewrite length_app, IH. reflexivity.
  - apply IH.
Qed.

Lemma scan_closed_count (page_num : Z) (lines : list (nat * string))
    (acc : list string) :
  List.length (scan_significant page_num None acc lines)
  = count_if is_header lines.
Proof.
  unfold count_if.
  induction lines as [|[i l] lines IH]; [reflexivity|].
  cbn [scan_significant filter]. unfold is_header at 1. cbn [snd].
  destruct (_is_section_header l).
  - cbn [close app List.length]. rewrite scan_open_count. reflexivity.
  - exact IH.
Qed.

(** The number of header lines of a page. *)
Definition header_count (p : Z * string) : nat :=
  count_if is_header (page_lines (snd p)).

(** X13.  Pages are segmented one by one: the sections of two mappings
    put end to end are those of the first followed by those of the
    second, and there are as many sections as the pages have header
    lines; without header lines there is no section. *)
Theorem identify_sections_by_page (pages more : Pages) :
  identify_sections (pages ++ more)
  = identify_sections pages ++ identify_sections more
  /\ List.length (identify_sections pages)
     = list_sum (map header_count pages)
  /\ (Forall (fun p => header_count p = 0%nat) pages ->
      identify_sections pages = []).
Proof.
  assert (Hlen : forall ps, List.length (identify_sections ps)
                            = list_sum (map header_count ps)).
  { intros ps. unfold identify_sections. rewrite identify_sections_pages.
    simpl. induction ps as [|[page_num text] ps IH]; [reflexivity|].
    simpl. rewrite length_app, IH, scan_lines_significant, scan_closed_count.
    reflexivity. }
  split; [|split].
  - unfold identify_sections. rewrite !identify_sections_pages. simpl.
    apply flat_map_app.
  - apply Hlen.
  - intros H. apply length_zero_iff_nil. rewrite Hlen.
    induction H as [|p ps Hp _ IH]; [reflexivity|].
    simpl. rewrite Hp, IH. reflexivity.
Qed.

Lemma identify_sections_by_page_witness :
  identify_sections [ (1%Z, "just some words"); (2%Z, "and more of them.") ]
  = [].
Proof.
  apply (identify_sections_by_page
           [ (1%Z, "just some words"); (2%Z, "and more of them.") ] []).
  repeat constructor.
Defined.

End HeadersAndSections.

(** ** Sections of a file that could not be read *)

Section FailedRead.

Lemma rstrip_cons (c : ascii) (s : string) :
  Py.isspace c = false -> Py.rstrip (String c s) = String c (Py.rstrip s).
Proof.
  intros H. simpl. rewrite H. destruct (Py.rstrip s); reflexivity.
Qed.

(** The line that stands for a file whose reading raised [e]. *)
Definition error_line (e : string) : string :=
  Py.strip ("Error processing PDF: " ++ e).

Lemma error_line_starts (e : string) :
  exists rest, error_line e = String "E" (String "r" (String "r" rest)).
Proof.
  unfold error_line, Py.strip. cbn [append].
  rewrite !rstrip_cons by reflexivity. cbn [Py.lstrip].
  change (Py.isspace "E") with false. cbv iota. eexists. reflexivity.
Qed.

Lemma single_line_sections (page_num : Z) (text : string) :
  Py.count newline text = 0%nat ->
  Py.strip text <> "" ->
  _is_section_header (Py.strip text) = true ->
  identify_sections [(page_num, text)]
  = [mkSection (Py.strip text) page_num 0 [] None].
Proof.
  intros Hc Hne Hh. unfold identify_sections. simpl.
  destruct (split_parts newline text) as [[_ Hs] | [Hpos _]]; [|lia].
  unfold newline in Hs. rewrite Hs. cbn [Py.enumerate Py.enumerate_from scan_lines].
  destruct (String.eqb_spec (Py.strip text) ""); [contradiction|].
  rewrite Hh. reflexivity.
Qed.

(** X14.  When reading a file raises an exception whose message [e] has
    no newline, and the line "Error processing PDF: e" has at most 250
    characters and 10 words, the file has exactly one section: that line
    as title, on page 1, without content.  When no PDF library is
    installed, a file has no section. *)
Theorem failed_read_sections (e : string)
    (extract_text : option (string + string)) :
  (Py.count newline e = 0%nat ->
   (Py.len (error_line e) <= 250)%nat ->
   (List.length (Py.split_ws (error_line e)) <= 10)%nat ->
   identify_sections
     (fst (extract_text_from_pdf (Some (inl e)) extract_text))
   = [mkSection (error_line e) 1 0 [] None]
   /\ identify_sections (fst (extract_text_from_pdf None (Some (inl e))))
      = [mkSection (error_line e) 1 0 [] None])
  /\ identify_sections (fst (extract_text_from_pdf None None)) = [].
Proof.
  split; [|vm_compute; reflexivity].
  intros Hc Hlen Hw.
  assert (H : identify_sections [(1%Z, ("Error processing PDF: " ++ e)%string)]
              = [mkSection (error_line e) 1 0 [] None]).
  { destruct (error_line_starts e) as [rest Hrest].
    apply single_line_sections.
    - rewrite count_app, Hc. reflexivity.
    - fold (error_line e). rewrite Hrest. discriminate.
    - fold (error_line e). rewrite Hrest in *.
      apply capital_line_header; try reflexivity; [|exact Hw].
      split; [simpl; lia | exact Hlen]. }
  split; exact H.
Qed.

Lemma failed_read_sections_witness :
  identify_sections
    (fst (extract_text_from_pdf (Some (inl "cannot open broken document"))
                                None))
  = [mkSection "Error processing PDF: cannot open broken document" 1 0 [] None].
Proof.
  apply (failed_read_sections "cannot open broken document" None).
  - reflexivity.
  - vm_compute. lia.
  - vm_compute. lia.
Defined.

End FailedRead.

(** ** The score *)

Section Score.

Lemma count_if_le {A : Type} (f g : A -> bool) (l : list A) :
  (forall x, f x = true -> g x = true) ->
  (count_if f l <= count_if g l)%nat.
Proof.
  intros H. unfold count_if. induction l as [|x l IH]; simpl; [lia|].
  destruct (f x) eqn:E.
  - rewrite (H x E). simpl. lia.
  - destruct (g x); simpl; lia.
Qed.

Lemma count_if_length {A : Type} (f : A -> bool) (l : list A) :
  (count_if f l <= List.length l)%nat.
Proof. apply filter_length_le. Qed.

(** X15.  A keyword counted for the title is counted as a match too:
    the title relevance is never above the number of keyword matches,
    which is never above the number of keywords of the two lists. *)
Theorem title_relevance_le_matches (section : Section) (persona job : string) :
  (title_relevance section persona job
   <= keyword_matches section persona job
   <= List.length (all_keywords persona job))%nat.
Proof.
  unfold title_relevance, keyword_matches. split.
  - apply count_if_le. intros k H. rewrite H. apply orb_true_r.
  - apply count_if_length.
Qed.

Lemma lower_char_idempotent (c : ascii) :
  Py.lower_char (Py.lower_char c) = Py.lower_char c.
Proof.
  destruct c as [b0 b1 b2 b3 b4 b5 b6 b7].
  destruct b0, b1, b2, b3, b4, b5, b6, b7; vm_compute; reflexivity.
Qed.

Lemma lower_idempotent (s : string) : Py.lower (Py.lower s) = Py.lower s.
Proof.
  induction s as [|c s IH]; simpl; [|rewrite lower_char_idempotent, IH];
    reflexivity.
Qed.

Lemma lower_app (a b : string) :
  Py.lower (a ++ b) = (Py.lower a ++ Py.lower b)%string.
Proof.
  induction a as [|c a IH]; simpl; [|rewrite IH]; reflexivity.
Qed.

Lemma lower_join (ls : list string) :
  Py.lower (Py.join " " ls) = Py.join " " (map Py.lower ls).
Proof.
  induction ls as [|l ls IH]; [reflexivity|].
  destruct ls as [|l' ls]; [reflexivity|].
  rewrite (join_cons " " l) by discriminate. cbn [map].
  rewrite (join_cons " " (Py.lower l)) by discriminate.
  rewrite !lower_app, IH. reflexivity.
Qed.

(** The section with title and content in small letters. *)
Definition lowered (s : Section) : Section :=
  mkSection (Py.lower (title s)) (page_number s) (start_line s)
            (map Py.lower (content s)) (document s).

(** X16.  The score does not distinguish capital from small letters:
    putting the title, the content, the persona and the job in small
    letters leaves it as it is; nor does it depend on the page, the line
    or the document of the section. *)
Theorem score_section_ignores_case (s : Section) (persona job : string)
    (page_number' : Z) (start_line' : nat) (document' : option string) :
  score_section (lowered s) (Py.lower persona) (Py.lower job)
  = score_section s persona job
  /\ score_section
       (mkSection (title s) page_number' start_line' (content s) document')
       persona job
     = score_section s persona job.
Proof.
  split; [|reflexivity].
  assert (Ht : title_of (lowered s) = title_of s)
    by (unfold title_of, lowered; simpl; apply lower_idempotent).
  assert (Hc : content_of (lowered s) = content_of s).
  { unfold content_of, lowered. simpl.
    rewrite <- lower_join. apply lower_idempotent. }
  assert (Hk : all_keywords (Py.lower persona) (Py.lower job)
               = all_keywords persona job)
    by (unfold all_keywords; rewrite !lower_idempotent; reflexivity).
  unfold score_section, keyword_matches, title_relevance.
  rewrite Ht, Hc, Hk, !lower_idempotent. reflexivity.
Qed.

Lemma fold_bonus_bounds (title : string) (titles : list string) (score : Q) :
  (score
   <= fold_left (fun score sample_title =>
                   if Py.contains sample_title title
                   then score + 30 else score) titles score
   <= score + 30 * Q_of_nat (List.length titles))%Q.
Proof.
  revert score. induction titles as [|x titles IH]; intros score.
  - cbn [fold_left List.length]. change (Q_of_nat 0) with 0%Q. lra.
  - cbn [fold_left].
    assert (Hlen : (Q_of_nat (List.length (x :: titles))
                    == Q_of_nat (List.length titles) + 1)%Q).
    { unfold Q_of_nat. cbn [List.length]. rewrite Nat2Z.inj_succ.
      unfold Z.succ. rewrite inject_Z_plus. reflexivity. }
    rewrite Hlen.
    destruct (Py.contains x title).
    + specialize (IH (score + 30)%Q). lra.
    + specialize (IH score).
      assert (0 <= Q_of_nat (List.length titles))%Q
        by (unfold Q_of_nat, Qle; simpl; lia).
      lra.
Qed.

Lemma sample_titles_length (persona_lower : string) (titles : list string) :
  dict_lookup sample_titles persona_lower = Some titles ->
  List.length titles = 5%nat.
Proof.
  unfold sample_titles. simpl.
  repeat match goal with
         | |- context [String.eqb ?a ?b] => destruct (String.eqb a b)
         end;
    intros H; try discriminate; injection H as <-; reflexivity.
Qed.

(** The sum of the two keyword terms of the score. *)
Definition keyword_score (section : Section) (persona job : string) : Q :=
  Q_of_nat (keyword_matches section persona job * 2
            + title_relevance section persona job * 10).

(** X17.  In exact arithmetic the score is at least the sum of the two
    keyword terms, twice the keyword matches and ten times the title
    relevance, and exceeds it by at most 173: 3 for the length of the
    content, 20 for a bonus term and 30 for each of five sample titles.
    It is never negative. *)
Theorem score_section_bounds (section : Section) (persona job : string) :
  (0 <= keyword_score section persona job)%Q
  /\ (keyword_score section persona job
      <= score_section section persona job
      <= keyword_score section persona job + 173)%Q.
Proof.
  unfold score_section, keyword_score.
  set (km := keyword_matches section persona job).
  set (tr := title_relevance section persona job).
  set (words := Q_of_nat (List.length (Py.split_ws (content_of section)))).
  assert (Hkt : (Q_of_nat (km * 2 + tr * 10)
                 == Q_of_nat (km * 2) + Q_of_nat (tr * 10))%Q)
    by (unfold Q_of_nat; rewrite Nat2Z.inj_add, inject_Z_plus; reflexivity).
  assert (H0 : (0 <= Q_of_nat (km * 2 + tr * 10))%Q)
    by (unfold Q_of_nat, Qle; simpl; lia).
  assert (Hw : (0 <= Qmin (words / 50) 3 <= 3)%Q).
  { split; [|apply Q.le_min_r]. apply Q.min_glb; [|lra].
    unfold words, Q_of_nat, Qle, Qdiv. simpl. lia. }
  set (base := (Q_of_nat (km * 2) + Q_of_nat (tr * 10)
                + Qmin (words / 50) 3)%Q) in *.
  set (bonus := if existsb _ bonus_terms then (base + 20)%Q else base).
  assert (Hb : (base <= bonus <= base + 20)%Q)
    by (unfold bonus; destruct (existsb _ bonus_terms); lra).
  destruct (dict_lookup sample_titles (Py.lower persona)) as [titles|] eqn:E.
  - pose proof (fold_bonus_bounds (Py.lower (title_of section)) titles bonus)
      as Hf.
    rewrite (sample_titles_length _ _ E) in Hf.
    change (Q_of_nat 5) with 5%Q in Hf. unfold base in *. lra.
  - unfold base in *. lra.
Qed.

(** X18.  For a persona and a job that the tables do not know, no
    keyword is counted and no sample title applies, so the score is the
    length term, which lies between 0 and 3, plus 20 when the title holds
    a bonus term: it lies between 0 and 3 without a bonus term and
    between 20 and 23 with one, below the upper end while the content has
    fewer than 150 words and at it from 150 words on. *)
Theorem score_section_unknown (section : Section) (persona job : string) :
  dict_lookup persona_keywords (Py.lower persona) = None ->
  dict_lookup job_keywords (Py.lower job) = None ->
  let words := List.length (Py.split_ws (content_of section)) in
  let bonus := if existsb (fun term =>
                             Py.contains term (Py.lower (title_of section)))
                          bonus_terms
               then 20%Q else 0%Q in
  keyword_matches section persona job = 0%nat
  /\ title_relevance section persona job = 0%nat
  /\ dict_lookup sample_titles (Py.lower persona) = None
  /\ (bonus <= score_section section persona job)%Q
  /\ (score_section section persona job <= bonus + 3)%Q
  /\ ((words < 150)%nat -> (score_section section persona job < bonus + 3)%Q)
  /\ ((150 <= words)%nat -> (score_section section persona job == bonus + 3)%Q).
Proof.
  intros Hp Hj words bonus.
  assert (Hk : all_keywords persona job = []).
  { unfold all_keywords, dict_get. rewrite Hp, Hj. reflexivity. }
  assert (Hs : dict_lookup sample_titles (Py.lower persona) = None).
  { revert Hp. unfold persona_keywords, sample_titles. simpl.
    repeat match goal with
           | |- context [String.eqb ?a ?b] => destruct (String.eqb a b)
           end; try discriminate; reflexivity. }
  assert (Hscore : (score_section section persona job
                    == Qmin (Q_of_nat words / 50) 3 + bonus)%Q).
  { unfold score_section, keyword_matches, title_relevance, bonus, words.
    rewrite Hk, Hs. unfold count_if. simpl filter. simpl List.length.
    change (Q_of_nat (0 * 2)) with 0%Q. change (Q_of_nat (0 * 10)) with 0%Q.
    destruct (existsb _ bonus_terms); lra. }
  assert (Hw : (0 <= Q_of_nat words / 50)%Q)
    by (unfold Q_of_nat, Qle, Qdiv; simpl; lia).
  split; [unfold keyword_matches; rewrite Hk; reflexivity|].
  split; [unfold title_relevance; rewrite Hk; reflexivity|].
  split; [exact Hs|].
  split; [|split; [|split]].
  - rewrite Hscore.
    assert (0 <= Qmin (Q_of_nat words / 50) 3)%Q
      by (apply Q.min_glb; [exact Hw | lra]).
    lra.
  - rewrite Hscore. pose proof (Q.le_min_r (Q_of_nat words / 50) 3). lra.
  - intros Hlt. rewrite Hscore.
    assert (Q_of_nat words / 50 < 3)%Q
      by (unfold Q_of_nat, Qlt, Qdiv; simpl; lia).
    pose proof (Q.le_min_l (Q_of_nat words / 50) 3). lra.
  - intros Hge. rewrite Hscore.
    assert (H3 : (3 <= Q_of_nat words / 50)%Q)
      by (unfold Q_of_nat, Qle, Qdiv; simpl; lia).
    rewrite (Q.min_r _ _ H3). lra.
Qed.

Lemma score_section_unknown_witness :
  (20 <= score_section
           (mkSection "Fillable forms" 3 0 ["one two three"] None)
           "Student" "Write a thesis")%Q
  /\ (score_section (mkSection "Fillable forms" 3 0 ["one two three"] None)
                    "Student" "Write a thesis" < 23)%Q.
Proof.
  destruct (score_section_unknown
              (mkSection "Fillable forms" 3 0 ["one two three"] None)
              "Student" "Write a thesis" eq_refl eq_refl)
    as (_ & _ & _ & Hlo & _ & Hlt & _).
  split; [exact Hlo|]. apply Hlt. apply Nat.ltb_lt. vm_compute. reflexivity.
Defined.

End Score.

(** ** The entries of the output *)

Section OutputEntries.

Variable scorer : Section -> string -> string -> Q.

Local Abbreviation scored_sections := (ProcessCollections.scored_sections scorer).
Local Abbreviation top_sections := (ProcessCollections.top_sections scorer).
Local Abbreviation process_collection :=
  (ProcessCollections.process_collection scorer).
Local Abbreviation main := (ProcessCollections.main scorer).
Local Abbreviation document_entries := (document_entries scorer).
Local Abbreviation document_subsections := (document_subsections scorer).
Local Abbreviation output_of := (output_of scorer).

Definition has_rank (k : nat) (e : ExtractedSection) : bool :=
  (importance_rank e =? k)%nat.

Lemma tied_has_rank (a x : ExtractedSection) :
  tied by_rank a x = has_rank (importance_rank a) x.
Proof.
  unfold tied, by_rank, has_rank.
  destruct (Nat.eqb_spec (importance_rank x) (importance_rank a)) as [E|E].
  - rewrite E, Nat.leb_refl. reflexivity.
  - apply andb_false_iff. rewrite !Nat.leb_gt. lia.
Qed.

Lemma filter_has_rank_twice (r k : nat) (l : list ExtractedSection) :
  filter (has_rank r) (filter (has_rank k) l)
  = if (r =? k)%nat then filter (has_rank k) l else [].
Proof.
  induction l as [|x l IH]; simpl.
  - destruct (r =? k)%nat; reflexivity.
  - destruct (has_rank k x) eqn:Ek; [|exact IH].
    simpl. rewrite IH. unfold has_rank in *. apply Nat.eqb_eq in Ek.
    rewrite Ek. destruct (Nat.eqb_spec k r) as [->|Hn].
    + rewrite Nat.eqb_refl. reflexivity.
    + destruct (Nat.eqb_spec r k); [congruence | reflexivity].
Qed.

Lemma filter_has_rank_none (r : nat) (l : list ExtractedSection) :
  Forall (fun e => importance_rank e <> r) l -> filter (has_rank r) l = [].
Proof.
  induction 1 as [|x l Hx _ IH]; simpl; [reflexivity|].
  unfold has_rank at 1. destruct (Nat.eqb_spec (importance_rank x) r);
    [contradiction | exact IH].
Qed.

Lemma sorted_app {A : Type} (R : A -> A -> Prop) (l1 l2 : list A) :
  StronglySorted R l1 -> StronglySorted R l2 ->
  (forall x y, In x l1 -> In y l2 -> R x y) ->
  StronglySorted R (l1 ++ l2).
Proof.
  intros H1 H2 H. induction H1 as [|x l1 Hl1 IH Hx]; simpl; [exact H2|].
  constructor.
  - apply IH. intros a b Ha Hb. apply H; [right|]; assumption.
  - apply Forall_app. split; [exact Hx|].
    apply Forall_forall. intros y Hy. apply H; [left; reflexivity | exact Hy].
Qed.

Lemma filter_has_rank_sorted (k : nat) (l : list ExtractedSection) :
  StronglySorted (fun x y => by_rank x y = true) (filter (has_rank k) l).
Proof.
  induction l as [|x l IH]; simpl; [constructor|].
  destruct (has_rank k x) eqn:E; [|exact IH].
  constructor; [exact IH|]. apply Forall_forall. intros y Hy.
  apply filter_In in Hy. destruct Hy as [_ Hy].
  unfold has_rank in *. apply Nat.eqb_eq in E, Hy.
  unfold by_rank. apply Nat.leb_le. lia.
Qed.

(** The stable sort by rank of entries of ranks 1 to 3. *)
Lemma sort_by_rank_buckets (l : list ExtractedSection) :
  Forall (fun e => (1 <= importance_rank e <= 3)%nat) l ->
  Py.sort by_rank l
  = filter (has_rank 1) l ++ filter (has_rank 2) l ++ filter (has_rank 3) l.
Proof.
  intros Hr. apply (stable_sort_unique by_rank by_rank_total).
  - apply sort_sorted; [apply by_rank_total | apply by_rank_trans].
  - assert (Hle : forall j k x y,
               (j <= k)%nat ->
               In x (filter (has_rank j) l) -> In y (filter (has_rank k) l) ->
               by_rank x y = true).
    { intros j k x y Hjk Hx Hy. apply filter_In in Hx, Hy.
      destruct Hx as [_ Hx], Hy as [_ Hy]. unfold has_rank in *.
      apply Nat.eqb_eq in Hx, Hy. unfold by_rank. apply Nat.leb_le. lia. }
    apply sorted_app; [apply filter_has_rank_sorted | |].
    + apply sorted_app; try apply filter_has_rank_sorted.
      intros x y. apply Hle. lia.
    + intros x y Hx Hy. apply in_app_or in Hy.
      destruct Hy as [Hy | Hy];
        [apply (Hle 1%nat 2%nat) | apply (Hle 1%nat 3%nat)]; auto; lia.
  - intros a. rewrite (sort_stable by_rank by_rank_trans).
    rewrite !(filter_ext _ _ (tied_has_rank a)).
    rewrite !filter_app, !filter_has_rank_twice.
    set (r := importance_rank a).
    destruct (Nat.eqb_spec r 1) as [->|H1];
      [simpl; rewrite app_nil_r; reflexivity|].
    destruct (Nat.eqb_spec r 2) as [->|H2];
      [simpl; rewrite app_nil_r; reflexivity|].
    destruct (Nat.eqb_spec r 3) as [->|H3]; [reflexivity|].
    simpl. apply filter_has_rank_none.
    eapply Forall_impl; [|exact Hr]. intros e He. simpl in He. lia.
Qed.

Lemma found_inv (pdfs_dir : PdfDir) (documents : list string)
    (f : string) (pages : Pages) :
  In (f, pages) (found pdfs_dir documents) ->
  In f documents /\ pdfs_dir f = Some pages.
Proof.
  unfold found. rewrite in_flat_map. intros [g [Hg H]].
  destruct (pdfs_dir g) as [pg|] eqn:E; [|contradiction].
  destruct H as [H | []]. injection H as -> ->. auto.
Qed.

Lemma scored_sections_In (filename : string) (pages : Pages)
    (persona job : string) (s : Section) (q : Q) :
  In (s, q) (scored_sections filename pages persona job) ->
  exists s0, In s0 (identify_sections pages)
             /\ s = with_document s0 filename.
Proof.
  intros H. unfold ProcessCollections.scored_sections in H.
  apply (Permutation_in _ (sort_perm _ _)) in H.
  apply in_map_iff in H. destruct H as [s0 [Heq Hin]].
  injection Heq as <- _. exists s0. auto.
Qed.

(** What is known of an entry of the emitted list. *)
Definition entry_of (cfg : InputConfig) (pdfs_dir : PdfDir)
    (e : ExtractedSection) : Prop :=
  (1 <= importance_rank e <= 3)%nat
  /\ In (es_document e) (documents cfg)
  /\ exists pages s,
       pdfs_dir (es_document e) = Some pages
       /\ In s (identify_sections pages)
       /\ section_title e = title s
       /\ es_page_number e = page_number s.

Lemma emitted_entries (cfg : InputConfig) (pdfs_dir : PdfDir) :
  Forall (entry_of cfg pdfs_dir)
         (flat_map (document_entries (persona cfg) (job cfg))
                   (found pdfs_dir (documents cfg))).
Proof.
  apply Forall_forall. intros e He. apply in_flat_map in He.
  destruct He as [[f pages] [Hd He]]. apply found_inv in Hd.
  destruct Hd as [Hf Hp].
  apply In_nth_error in He. destruct He as [i Hi].
  destruct (document_entries_spec scorer (persona cfg) (job cfg) (f, pages))
    as [_ Hnth].
  destruct (Hnth i e Hi) as (Hi3 & s & q & Hs & ->). simpl in *.
  apply nth_error_In in Hs. apply scored_sections_In in Hs.
  destruct Hs as (s0 & Hs0 & ->).
  unfold entry_of. simpl.
  split; [lia|]. split; [exact Hf|]. exists pages, s0. auto.
Qed.

Lemma emitted_length (persona job : string) (docs : list (string * Pages)) :
  (List.length (flat_map (document_entries persona job) docs)
   <= 3 * List.length docs)%nat.
Proof.
  induction docs as [|d docs IH]; simpl; [lia|].
  rewrite length_app.
  destruct (document_entries_spec scorer persona job d) as [Hlen _].
  unfold document_entries in *. rewrite Hlen. lia.
Qed.

Lemma found_length (pdfs_dir : PdfDir) (documents : list string) :
  (List.length (found pdfs_dir documents) <= List.length documents)%nat.
Proof.
  unfold found. induction documents as [|f documents IH]; simpl; [lia|].
  destruct (pdfs_dir f); simpl; lia.
Qed.

(** X19.  In the output of a run, [extracted_sections] holds the
    emitted entries of rank 1 in the order of the documents, then those
    of rank 2, then those of rank 3. *)
Theorem extracted_sections_by_rank (now : string) (c : Collection)
    (cfg : InputConfig) (pdfs_dir : PdfDir) (log : list LogRecord) :
  input_file c = Some cfg -> pdfs_dir_of c = Some pdfs_dir ->
  exists out log',
    process_collection now c log = (inr out, log')
    /\ let entries :=
         flat_map (document_entries (persona cfg) (job cfg))
                  (found pdfs_dir (documents cfg)) in
       extracted_sections out
       = filter (has_rank 1) entries ++ filter (has_rank 2) entries
         ++ filter (has_rank 3) entries.
Proof.
  intros Hc Hd. eexists. eexists.
  split; [apply (process_collection_run scorer now c cfg pdfs_dir log Hc Hd)|].
  simpl. apply sort_by_rank_buckets.
  eapply Forall_impl; [|apply emitted_entries]. intros e He. apply He.
Qed.

(** The number of entries of the two lists that name the file [f], and
    the number of times the documents list names it. *)
Definition entries_of_file (f : string) (l : list ExtractedSection) : nat :=
  List.length (filter (fun e => String.eqb (es_document e) f) l).

Definition subsections_of_file (f : string) (l : list SubsectionAnalysis)
    : nat :=
  List.length (filter (fun e => String.eqb (sa_document e) f) l).

Definition listed (f : string) (documents : list string) : nat :=
  List.length (filter (fun g => String.eqb g f) documents).

(** The number of sections one reading of a file retains. *)
Definition retained (pdfs_dir : PdfDir) (f : string) : nat :=
  match pdfs_dir f with
  | Some pages => Nat.min 3 (List.length (identify_sections pages))
  | None => 0
  end.

Lemma filter_length_perm {A : Type} (p : A -> bool) (l l' : list A) :
  Permutation l l' ->
  List.length (filter p l) = List.length (filter p l').
Proof.
  induction 1 as [|x l l' _ IH|x y l|l l' l'' _ IH1 _ IH2]; simpl.
  - reflexivity.
  - destruct (p x); simpl; rewrite IH; reflexivity.
  - destruct (p x), (p y); reflexivity.
  - rewrite IH1. exact IH2.
Qed.

Lemma filter_map_all {A B : Type} (p : B -> bool) (g : A -> B)
    (b : bool) (l : list A) :
  (forall x, p (g x) = b) ->
  List.length (filter p (map g l)) = if b then List.length l else 0%nat.
Proof.
  intros H. induction l as [|x l IH]; simpl.
  - destruct b; reflexivity.
  - rewrite H. destruct b; simpl; rewrite IH; reflexivity.
Qed.

Lemma top_sections_length (f : string) (pages : Pages)
    (persona job : string) :
  List.length (top_sections f pages persona job)
  = Nat.min 3 (List.length (identify_sections pages)).
Proof.
  unfold ProcessCollections.top_sections, Py.enumerate.
  rewrite enumerate_from_length, length_firstn.
  unfold ProcessCollections.scored_sections.
  rewrite (Permutation_length (sort_perm _ _)), length_map. reflexivity.
Qed.

Lemma extracted_entry_document (f : string) (x : nat * (Section * Q)) :
  es_document (extracted_entry f x) = f.
Proof. destruct x as [i [s q]]. reflexivity. Qed.

Lemma subsection_entry_document (f : string) (x : nat * (Section * Q)) :
  sa_document (subsection_entry f x) = f.
Proof. destruct x as [i [s q]]. reflexivity. Qed.

(** Each time the documents list names a file that exists, the loop
    appends the retained sections of that file to each of the two
    lists. *)
Lemma emitted_of_file (pdfs_dir : PdfDir) (persona job f : string)
    (documents : list string) :
  entries_of_file f (flat_map (document_entries persona job)
                              (found pdfs_dir documents))
  = (listed f documents * retained pdfs_dir f)%nat
  /\ subsections_of_file f (flat_map (document_subsections persona job)
                                     (found pdfs_dir documents))
     = (listed f documents * retained pdfs_dir f)%nat.
Proof.
  unfold entries_of_file, subsections_of_file, listed, found.
  induction documents as [|g documents [IHe IHs]]; [split; reflexivity|].
  cbn [flat_map filter]. rewrite !flat_map_app, !filter_app, !length_app.
  rewrite IHe, IHs. clear IHe IHs.
  assert (He : forall pages,
             List.length
               (filter (fun e => String.eqb (es_document e) f)
                       (document_entries persona job (g, pages)))
             = if String.eqb g f
               then Nat.min 3 (List.length (identify_sections pages))
               else 0%nat).
  { intros pages. unfold document_entries. simpl fst. simpl snd.
    rewrite (filter_map_all _ _ (String.eqb g f))
      by (intros x; rewrite extracted_entry_document; reflexivity).
    rewrite top_sections_length. reflexivity. }
  assert (Hs : forall pages,
             List.length
               (filter (fun e => String.eqb (sa_document e) f)
                       (document_subsections persona job (g, pages)))
             = if String.eqb g f
               then Nat.min 3 (List.length (identify_sections pages))
               else 0%nat).
  { intros pages. unfold document_subsections. simpl fst. simpl snd.
    rewrite (filter_map_all _ _ (String.eqb g f))
      by (intros x; rewrite subsection_entry_document; reflexivity).
    rewrite top_sections_length. reflexivity. }
  unfold retained.
  destruct (pdfs_dir g) as [pages|] eqn:E.
  - cbn [flat_map]. rewrite !app_nil_r, He, Hs.
    destruct (String.eqb_spec g f) as [Hgf|Hgf].
    + rewrite <- Hgf, E. cbn [List.length]. split; lia.
    + split; reflexivity.
  - cbn [flat_map filter List.length].
    destruct (String.eqb_spec g f) as [Hgf|Hgf].
    + rewrite <- Hgf, E, !Nat.mul_0_r. split; reflexivity.
    + split; reflexivity.
Qed.

(** X20.  Every entry of [extracted_sections] has a rank from 1 to 3, a
    document that the configuration lists and whose file exists, and the
    title and page of a section of that file.  Each of the two lists
    holds, for every file name, as many entries naming it as the number
    of times the configuration lists it times the number of sections
    retained from the file, the lesser of 3 and the number of its
    sections, and none when the file does not exist: so at most three
    for each time the file is listed, and more than three for a file
    listed more than once. *)
Theorem extracted_sections_entries (now : string) (c : Collection)
    (log log' : list LogRecord) (out : Output) :
  process_collection now c log = (inr out, log') ->
  exists cfg pdfs_dir,
    input_file c = Some cfg /\ pdfs_dir_of c = Some pdfs_dir
    /\ Forall (entry_of cfg pdfs_dir) (extracted_sections out)
    /\ forall f,
         entries_of_file f (extracted_sections out)
         = (listed f (documents cfg) * retained pdfs_dir f)%nat
         /\ subsections_of_file f (subsection_analysis out)
            = (listed f (documents cfg) * retained pdfs_dir f)%nat
         /\ (retained pdfs_dir f <= 3)%nat
         /\ (entries_of_file f (extracted_sections out)
             <= 3 * listed f (documents cfg))%nat.
Proof.
  intros H. apply process_collection_returns in H.
  destruct H as (cfg & pdfs_dir & Hc & Hd & ->).
  exists cfg, pdfs_dir. split; [exact Hc|]. split; [exact Hd|].
  pose proof (sort_perm by_rank
                (flat_map (document_entries (persona cfg) (job cfg))
                          (found pdfs_dir (documents cfg)))) as Hp.
  simpl. split.
  - apply Forall_forall. intros e He.
    apply (Permutation_in _ Hp) in He.
    pose proof (emitted_entries cfg pdfs_dir) as Ha.
    rewrite Forall_forall in Ha. apply Ha, He.
  - intros f.
    destruct (emitted_of_file pdfs_dir (persona cfg) (job cfg) f
                (documents cfg)) as [He Hs].
    assert (Hr : (retained pdfs_dir f <= 3)%nat)
      by (unfold retained; destruct (pdfs_dir f); lia).
    assert (Hsorted : entries_of_file f
                        (Py.sort by_rank
                           (flat_map (document_entries (persona cfg) (job cfg))
                                     (found pdfs_dir (documents cfg))))
                      = (listed f (documents cfg) * retained pdfs_dir f)%nat).
    { rewrite <- He. unfold entries_of_file.
      apply filter_length_perm, Hp. }
    split; [exact Hsorted|]. split; [exact Hs|]. split; [exact Hr|].
    rewrite Hsorted. nia.
Qed.

(** The collection with another directory [PDFS]. *)
Definition with_PDFS (c : Collection) (d : option PdfDir) : Collection :=
  mkCollection (input_file c) (dir_PDFs c) d.

(** X21.  A run that finds its input file and a directory of PDFs
    returns an output whose metadata name every document of the
    configuration, also those without file, and repeat the persona and
    the job; a document without file is named by no entry of the two
    lists; and the directory [PDFS] plays no part when [PDFs] exists. *)
Theorem process_collection_metadata (now : string) (c : Collection)
    (cfg : InputConfig) (pdfs_dir : PdfDir) (log : list LogRecord) :
  input_file c = Some cfg -> pdfs_dir_of c = Some pdfs_dir ->
  (exists out log',
      process_collection now c log = (inr out, log')
      /\ metadata out
         = mkMetadata (documents cfg) (persona cfg) (job cfg) now
      /\ forall f,
           pdfs_dir f = None ->
           entries_of_file f (extracted_sections out) = 0%nat
           /\ subsections_of_file f (subsection_analysis out) = 0%nat)
  /\ (dir_PDFs c = Some pdfs_dir ->
      forall d, process_collection now (with_PDFS c d) log
                = process_collection now c log).
Proof.
  intros Hc Hd. split.
  - eexists. eexists. split;
      [apply (process_collection_run scorer now c cfg pdfs_dir log Hc Hd)|].
    split; [reflexivity|]. intros f Hf. simpl.
    destruct (emitted_of_file pdfs_dir (persona cfg) (job cfg) f
                (documents cfg)) as [He Hs].
    unfold retained in He, Hs. rewrite Hf, Nat.mul_0_r in He, Hs.
    split; [|exact Hs]. rewrite <- He. unfold entries_of_file.
    apply filter_length_perm, sort_perm.
  - intros Hp d.
    rewrite (process_collection_run scorer now c cfg pdfs_dir log Hc Hd).
    apply process_collection_run; [exact Hc|].
    unfold pdfs_dir_of, with_PDFS. simpl. rewrite Hp. reflexivity.
Qed.


End OutputEntries.

Section OutputEntriesRun.

Lemma extracted_sections_by_rank_witness :
  exists out log,
    process_collection score_section timestamp collection_1 [] = (inr out, log)
    /\ map section_title (extracted_sections out)
       = ["Falafel"; "Ratatouille"; "Baba Ganoush"; "Storage"].
Proof.
  destruct (extracted_sections_by_rank score_section timestamp collection_1
              buffet recipes [] eq_refl eq_refl) as (out & log & Hrun & Heq).
  exists out, log. split; [exact Hrun|]. rewrite Heq. vm_compute. reflexivity.
Defined.

(** A configuration that lists the file a.pdf twice. *)
Definition buffet_twice : InputConfig :=
  mkInputConfig ["a.pdf"; "a.pdf"] (persona buffet) (job buffet).

Definition collection_twice : Collection :=
  mkCollection (Some buffet_twice) (Some recipes) None.

(** In the run of [collection_1] the entries that name a.pdf are as many
    as its retained sections, and none names the missing file; listed
    twice, a.pdf is named by twice as many entries. *)
Lemma extracted_sections_entries_witness :
  (exists out log,
      process_collection score_section timestamp collection_1 []
      = (inr out, log)
      /\ entries_of_file "a.pdf" (extracted_sections out)
         = retained recipes "a.pdf"
      /\ entries_of_file "missing.pdf" (extracted_sections out) = 0%nat)
  /\ (exists out log,
         process_collection score_section timestamp collection_twice []
         = (inr out, log)
         /\ entries_of_file "a.pdf" (extracted_sections out)
            = (2 * retained recipes "a.pdf")%nat).
Proof.
  split.
  - pose proof (process_collection_run score_section timestamp collection_1
                  buffet recipes [] eq_refl eq_refl) as Hrun.
    eexists. eexists. split; [exact Hrun|].
    destruct (extracted_sections_entries score_section _ _ _ _ _ Hrun)
      as (cfg & pdfs_dir & Hc & Hd & _ & Hcount).
    injection Hc as <-. injection Hd as <-.
    split.
    + destruct (Hcount "a.pdf") as [He _]. rewrite He.
      vm_compute. reflexivity.
    + destruct (Hcount "missing.pdf") as [He _]. rewrite He.
      vm_compute. reflexivity.
  - pose proof (process_collection_run score_section timestamp
                  collection_twice buffet_twice recipes [] eq_refl eq_refl)
      as Hrun.
    eexists. eexists. split; [exact Hrun|].
    destruct (extracted_sections_entries score_section _ _ _ _ _ Hrun)
      as (cfg & pdfs_dir & Hc & Hd & _ & Hcount).
    injection Hc as <-. injection Hd as <-.
    destruct (Hcount "a.pdf") as [He _]. rewrite He.
    vm_compute. reflexivity.
Defined.

Lemma process_collection_metadata_witness :
  exists out log,
    process_collection score_section timestamp collection_1 [] = (inr out, log)
    /\ input_documents (metadata out) = ["a.pdf"; "missing.pdf"; "b.pdf"]
    /\ entries_of_file "missing.pdf" (extracted_sections out) = 0%nat.
Proof.
  destruct (process_collection_metadata score_section timestamp collection_1
              buffet recipes [] eq_refl eq_refl)
    as [(out & log & Hrun & Hm & Hnone) _].
  exists out, log. split; [exact Hrun|]. rewrite Hm.
  split; [reflexivity|]. apply (Hnone "missing.pdf"). reflexivity.
Defined.


End OutputEntriesRun.

(** ** The form of the refined text *)

Section RefinedTextForm.

(** Every whitespace character of the text is a space, and no two of
    them are neighbours; [after_space] tells that one stands just before
    the text. *)
Fixpoint spaced_from (after_space : bool) (s : string) : bool :=
  match s with
  | EmptyString => true
  | String c s' =>
      if Py.isspace c
      then Ascii.eqb c " " && negb after_space && spaced_from true s'
      else spaced_from false s'
  end.

Definition single_spaced (s : string) : bool := spaced_from false s.

Lemma sub_ws_from_spaced (s : string) (in_run : bool) :
  spaced_from in_run (Py.sub_ws_from in_run s) = true.
Proof.
  revert in_run. induction s as [|c s IH]; intros in_run; [reflexivity|].
  cbn [Py.sub_ws_from]. destruct (Py.isspace c) eqn:E.
  - destruct in_run; [apply IH|].
    cbn [spaced_from]. change (Py.isspace " ") with true. cbv iota.
    rewrite IH. reflexivity.
  - cbn [spaced_from]. rewrite E. apply IH.
Qed.

Lemma spaced_from_weaken (s : string) (b : bool) :
  spaced_from b s = true -> spaced_from false s = true.
Proof.
  destruct s as [|c s]; [reflexivity|]. cbn [spaced_from].
  destruct (Py.isspace c); [|exact (fun H => H)].
  rewrite !andb_true_iff. intros [[H1 _] H2]. auto.
Qed.

Lemma lstrip_spaced (s : string) (b b' : bool) :
  spaced_from b s = true -> spaced_from b' (Py.lstrip s) = true.
Proof.
  revert b. induction s as [|c s IH]; intros b; [reflexivity|].
  cbn [spaced_from Py.lstrip]. destruct (Py.isspace c) eqn:E.
  - rewrite !andb_true_iff. intros [_ H]. apply (IH true H).
  - cbn [spaced_from]. rewrite E. exact (fun H => H).
Qed.

Lemma rstrip_spaced (s : string) (b : bool) :
  spaced_from b s = true -> spaced_from b (Py.rstrip s) = true.
Proof.
  revert b. induction s as [|c s IH]; intros b; [reflexivity|].
  cbn [spaced_from Py.rstrip]. destruct (Py.isspace c) eqn:E.
  - rewrite !andb_true_iff. intros [[H1 H2] H3]. specialize (IH true H3).
    destruct (Py.rstrip s) as [|a r]; [reflexivity|].
    cbn [spaced_from] in *. rewrite E, H1, H2. exact IH.
  - intros H. specialize (IH false H).
    destruct (Py.rstrip s) as [|a r].
    + cbn [spaced_from]. rewrite E. reflexivity.
    + cbn [spaced_from] in *. rewrite E. exact IH.
Qed.

Lemma take_spaced (n : nat) (s : string) (b : bool) :
  spaced_from b s = true -> spaced_from b (Py.take n s) = true.
Proof.
  revert s b. induction n as [|n IH]; intros s b; [reflexivity|].
  destruct s as [|c s]; [reflexivity|].
  cbn [Py.take spaced_from]. destruct (Py.isspace c).
  - rewrite !andb_true_iff. intros [H1 H2]. split; [exact H1 | apply IH, H2].
  - apply IH.
Qed.

Lemma strip_idempotent (s : string) : Py.strip (Py.strip s) = Py.strip s.
Proof.
  destruct (string_dec (Py.strip s) "") as [E|E].
  - rewrite E. reflexivity.
  - apply strip_fixed, strip_tidy, E.
Qed.

(** X23.  The refined text has no whitespace at its ends.  Unless it is
    the cut after two sentences, that is when the joined content has at
    most 500 characters or no ['.'], its only whitespace characters are
    single spaces. *)
Theorem refined_text_form (content_lines : list string) :
  let refined := _extract_refined_text content_lines in
  Py.strip refined = refined
  /\ ((Py.len (collapsed content_lines) <= 500)%nat
      \/ Py.count "." (collapsed content_lines) = 0%nat ->
      single_spaced refined = true).
Proof.
  intros refined. unfold refined. rewrite refined_text_unfold.
  split; [apply strip_idempotent|].
  assert (Hc : spaced_from false (collapsed content_lines) = true)
    by apply sub_ws_from_spaced.
  assert (Hs : forall s, spaced_from false s = true ->
                         single_spaced (Py.strip s) = true).
  { intros s H. unfold single_spaced, Py.strip.
    apply (lstrip_spaced _ false), rstrip_spaced, H. }
  intros [Hlen | Hdot].
  - apply Nat.ltb_ge in Hlen. rewrite Hlen. apply Hs, Hc.
  - destruct (500 <? Py.len (collapsed content_lines))%nat; [|apply Hs, Hc].
    destruct (split_parts "." (collapsed content_lines))
      as [[_ Hsp] | [Hpos _]]; [|lia].
    rewrite Hsp. change (1 <? List.length [collapsed content_lines])%nat
      with false. cbv iota. apply Hs, take_spaced, Hc.
Qed.

Lemma refined_text_form_witness :
  single_spaced (_extract_refined_text [ "  two   words " ]) = true.
Proof.
  apply (refined_text_form [ "  two   words " ]).
  left. apply Nat.leb_le. vm_compute. reflexivity.
Defined.

End RefinedTextForm.

(** ** The sections retained for a document *)

Section Retained.

Variable scorer : Section -> string -> string -> Q.





End Retained.

(** ** Blank spans and blocks without lines *)

Section BlankSpans.

Lemma signal_span_blank (page_num : Z) (st : Signals) (span : Span) :
  nonblank span = false -> signal_span page_num st span = st.
Proof.
  unfold nonblank, signal_span. intros H. apply negb_false_iff in H.
  rewrite H. reflexivity.
Qed.

Lemma fold_signal_span_filter (page_num : Z) (spans : list Span)
    (st : Signals) :
  fold_left (signal_span page_num) (filter nonblank spans) st
  = fold_left (signal_span page_num) spans st.
Proof.
  revert st. induction spans as [|span rest IH]; intros st; [reflexivity|].
  simpl. destruct (nonblank span) eqn:E.
  - simpl. apply IH.
  - rewrite (signal_span_blank _ _ _ E). apply IH.
Qed.

(** The non-blank spans of a page, in reading order. *)
Definition text_spans (p : Page) : list Span := filter nonblank (spans_of p).

Lemma signal_pages_text_spans (ps ps' : list Page) (page_num : Z)
    (st : Signals) :
  map text_spans ps = map text_spans ps' ->
  signal_pages page_num st ps = signal_pages page_num st ps'.
Proof.
  revert ps' page_num st. induction ps as [|p ps IH];
    intros ps' page_num st H.
  - destruct ps'; [reflexivity | discriminate].
  - destruct ps' as [|p' ps']; [discriminate|].
    simpl in H. injection H as Hp Hps. cbn [signal_pages].
    rewrite <- (fold_signal_span_filter page_num (spans_of p)).
    rewrite <- (fold_signal_span_filter page_num (spans_of p')).
    fold (text_spans p) (text_spans p'). rewrite Hp. apply IH, Hps.
Qed.

(** X25.  The signal strategy reads a document only through the
    non-blank spans of its pages: two documents whose pages have the same
    non-blank spans in the same order get the same title and outline,
    however the spans are grouped in lines and blocks, wherever blank
    spans and blocks without lines stand, and whatever their metadata
    and tables of contents. *)
Theorem extract_outline_by_signals_text_spans (doc doc' : Pdf) :
  map text_spans (pages doc) = map text_spans (pages doc') ->
  extract_outline_by_signals doc = extract_outline_by_signals doc'.
Proof.
  intros H. unfold extract_outline_by_signals.
  rewrite (signal_pages_text_spans _ _ 1 _ H). reflexivity.
Qed.

Definition scattered_pdf : Pdf :=
  mkPdf "Meta" [ (1%Z, "Intro", 1%Z) ]
    [ [ None;
        Some [ [ mkSpan "Big Heading" 20 (Some 0%Z); mkSpan "   " 40 None ] ];
        Some [ []; [ mkSpan "body text" 10 (Some 0%Z) ] ] ] ].

Lemma extract_outline_by_signals_text_spans_witness :
  extract_outline_by_signals scattered_pdf
  = extract_outline_by_signals titled_pdf.
Proof.
  apply (extract_outline_by_signals_text_spans scattered_pdf titled_pdf).
  vm_compute. reflexivity.
Defined.

End BlankSpans.
